(** * SIRE converter: field detection, resolution and conversion engine

    A shallow embedding of [sire_converter.py] and the properties of its
    specification.

    Modelling conventions.
    - A Python [str] is a Rocq [string] whose characters are the code points
      U+0000..U+00FF (Latin-1); every literal and table key of the source lies
      in that range.  Literals with accents are written through [latin1],
      which decodes the UTF-8 text of this file into those code points.
    - Upper-casing leaves Latin-1 at two characters: U+00B5 gives U+039C and
      U+00FF gives U+0178.  An upper-cased text never holds U+00B5 or U+00FF,
      so it is kept in the same 8-bit characters with the codes 181 and 255
      holding U+039C and U+0178 ([Py.upper_points] is what Python returns,
      [Py.points_of_upper] reads the code points of such a text).
    - A dataset cell is a [cell]; a row maps column labels to cells; a
      DataFrame is its ordered column labels and its ordered rows.
    - Python dicts and sets whose iteration order is not observed are [gmap]
      and [gset]; the reference tables, whose first hit in insertion order
      decides a lookup, are association lists.
    - The scores of the column detector are exact rationals.
    - [datetime.now().year] is the parameter [now_year]. *)

From Stdlib Require Import String Ascii ZArith QArith Qminmax DecimalString.
From stdpp Require Import gmap strings list.

Local Open Scope string_scope.
Local Open Scope list_scope.

(** ** Python string primitives, on Latin-1 code points *)

Module Py.

Definition code (c : ascii) : nat := nat_of_ascii c.

Definition in_range (lo hi : nat) (c : ascii) : bool :=
  (lo <=? code c)%nat && (code c <=? hi)%nat.

(** [str.isspace] of one character (also the class [\s] of [re]). *)
Definition isspace (c : ascii) : bool :=
  in_range 9 13 c || in_range 28 32 c || (code c =? 133)%nat || (code c =? 160)%nat.

Definition isdigit (c : ascii) : bool := in_range 48 57 c.
Definition is_upper_az (c : ascii) : bool := in_range 65 90 c.
Definition is_lower_az (c : ascii) : bool := in_range 97 122 c.

(** Upper-case letters of Latin-1 that have a lower-case partner:
    A-Z and U+00C0..U+00DE without the multiplication sign U+00D7. *)
Definition has_lower (c : ascii) : bool :=
  is_upper_az c || (in_range 192 222 c && negb (code c =? 215)%nat).

(** Lower-case letters whose upper-case partner is again in Latin-1:
    a-z and U+00E0..U+00FE without the division sign U+00F7. *)
Definition has_upper (c : ascii) : bool :=
  is_lower_az c || (in_range 224 254 c && negb (code c =? 247)%nat).

Definition lower_char (c : ascii) : ascii :=
  if has_lower c then ascii_of_nat (code c + 32) else c.

Definition upper_char (c : ascii) : ascii :=
  if has_upper c then ascii_of_nat (code c - 32) else c.

Definition chars (s : string) : list ascii := list_ascii_of_string s.
Definition str (l : list ascii) : string := string_of_list_ascii l.

Definition len (s : string) : nat := String.length s.

(** [s.lower()] *)
Definition lower (s : string) : string := str (map lower_char (chars s)).

(** One character of [s.upper()], as the code points Python returns: a-z
    and U+00E0..U+00FE without the division sign lose 32; the sharp s U+00DF
    becomes "SS"; the micro sign U+00B5 becomes U+039C and U+00FF becomes
    U+0178, the only two results outside Latin-1; the rest is kept. *)
Definition upper_points (c : ascii) : list N :=
  if (code c =? 223)%nat then [83%N; 83%N]
  else if (code c =? 181)%nat then [924%N]
  else if (code c =? 255)%nat then [376%N]
  else [N_of_ascii (upper_char c)].

(** How an upper-cased text is held in 8-bit characters.  No character
    upper-cases to U+00B5 or to U+00FF, so in an upper-cased text the codes
    181 and 255 are free: there they hold U+039C and U+0178.  [upper_code]
    stores a code point of such a text and [upper_point] reads it back. *)
Definition upper_code (p : N) : ascii :=
  if (p =? 924)%N then ascii_of_nat 181
  else if (p =? 376)%N then ascii_of_nat 255
  else ascii_of_N p.

Definition upper_point (c : ascii) : N :=
  if (code c =? 181)%nat then 924%N
  else if (code c =? 255)%nat then 376%N
  else N_of_ascii c.

Definition upper_chars (c : ascii) : list ascii := map upper_code (upper_points c).

(** [s.upper()], held as above. *)
Definition upper (s : string) : string := str (flat_map upper_chars (chars s)).

(** The code points of an upper-cased text. *)
Definition points_of_upper (s : string) : list N := map upper_point (chars s).

Fixpoint drop_while (p : ascii -> bool) (l : list ascii) : list ascii :=
  match l with
  | c :: l' => if p c then drop_while p l' else l
  | [] => []
  end.

Fixpoint take_while (p : ascii -> bool) (l : list ascii) : list ascii :=
  match l with
  | c :: l' => if p c then c :: take_while p l' else []
  | [] => []
  end.

Definition lstrip_chars (l : list ascii) : list ascii := drop_while isspace l.
Definition rstrip_chars (l : list ascii) : list ascii := rev (drop_while isspace (rev l)).
Definition strip_chars (l : list ascii) : list ascii := rstrip_chars (lstrip_chars l).

(** [s.strip()] *)
Definition strip (s : string) : string := str (strip_chars (chars s)).

(** [s.split()]: the maximal runs of non-whitespace characters.  [cur] is
    the run being read, reversed. *)
Fixpoint split_go (cur : list ascii) (l : list ascii) : list (list ascii) :=
  match l with
  | [] => match cur with [] => [] | _ => [rev cur] end
  | c :: l' =>
      if isspace c
      then match cur with [] => split_go [] l' | _ => rev cur :: split_go [] l' end
      else split_go (c :: cur) l'
  end.

Definition split (s : string) : list string := map str (split_go [] (chars s)).

(** [s.split(sep)] for a one-character separator: never empty. *)
Fixpoint split_on_go (sep : ascii) (cur : list ascii) (l : list ascii) : list (list ascii) :=
  match l with
  | [] => [rev cur]
  | c :: l' =>
      if Ascii.eqb c sep then rev cur :: split_on_go sep [] l'
      else split_on_go sep (c :: cur) l'
  end.

Definition split_on (sep : ascii) (s : string) : list string :=
  map str (split_on_go sep [] (chars s)).

(** [sep.join(parts)] *)
Fixpoint join (sep : string) (parts : list string) : string :=
  match parts with
  | [] => ""
  | [p] => p
  | p :: ps => p +:+ sep +:+ join sep ps
  end.

Fixpoint is_prefix (p l : list ascii) : bool :=
  match p, l with
  | [], _ => true
  | _ :: _, [] => false
  | a :: p', b :: l' => Ascii.eqb a b && is_prefix p' l'
  end.

Fixpoint is_infix (p l : list ascii) : bool :=
  is_prefix p l || match l with [] => false | _ :: l' => is_infix p l' end.

(** [needle in hay] *)
Definition contains (needle hay : string) : bool := is_infix (chars needle) (chars hay).

(** [s.replace(c, '')] for a one-character [c] *)
Definition remove_char (c : ascii) (s : string) : string :=
  str (filter (fun x => negb (Ascii.eqb x c)) (chars s)).

(** [re.sub('[^...]', '', s)]: keep the characters of the class. *)
Definition keep (p : ascii -> bool) (s : string) : string := str (filter p (chars s)).

(** [re.sub(r'\s+', ' ', s)]: every maximal run of whitespace becomes one
    space.  [in_ws] tells that the previous character was whitespace. *)
Fixpoint collapse_go (in_ws : bool) (l : list ascii) : list ascii :=
  match l with
  | [] => []
  | c :: l' =>
      if isspace c
      then if in_ws then collapse_go true l' else " "%char :: collapse_go true l'
      else c :: collapse_go false l'
  end.

Definition collapse_ws (s : string) : string := str (collapse_go false (chars s)).

(** Decimal rendering of an integer, [str(n)]. *)
Definition str_of_Z (n : Z) : string := NilZero.string_of_int (Z.to_int n).

(** ["%02d" % n] and ["%04d" % n] for [0 <= n]. *)
Fixpoint zeros (k : nat) : string :=
  match k with O => "" | S k' => String "0" (zeros k') end.

Definition pad (width : nat) (n : Z) : string :=
  let s := str_of_Z n in zeros (width - len s) +:+ s.

(** Decoder for the literals of this file: UTF-8 text to Latin-1 code
    points.  A two-byte sequence C2/C3 xx is one character; anything else is
    kept byte by byte. *)
Fixpoint latin1_go (l : list ascii) : list ascii :=
  match l with
  | [] => []
  | a :: l' =>
      match l' with
      | b :: l'' =>
          if (code a =? 194)%nat then b :: latin1_go l''
          else if (code a =? 195)%nat then ascii_of_nat (code b + 64) :: latin1_go l''
          else a :: latin1_go l'
      | [] => [a]
      end
  end.

Definition latin1 (s : string) : string := str (latin1_go (chars s)).

End Py.


(** ** Data model *)

(** [class Confidence(Enum)] *)
Inductive Confidence := HIGH | MEDIUM | LOW | NONE.

#[global] Instance Confidence_eq_dec : EqDecision Confidence.
Proof. solve_decision. Defined.

(** The value of [Confidence.x.value]. *)
Definition Confidence_value (c : Confidence) : string :=
  match c with HIGH => "alta" | MEDIUM => "media" | LOW => "baja" | NONE => "ninguna" end.

(** A cell of the dataset, as pandas hands it to the engine.  A finite float
    is given by the text [str] renders for it and by whether it differs from
    zero; a timestamp is a calendar date at midnight. *)
Inductive cell :=
| CNone
| CNaN
| CNaT
| CStr (s : string)
| CInt (n : Z)
| CFloat (text : string) (nonzero : bool)
| CTimestamp (year month day : Z).

(** Truth value of a cell, as in [if value] and [value or ""]. *)
Definition truthy (v : cell) : bool :=
  match v with
  | CNone => false
  | CNaN => true
  | CNaT => true
  | CStr s => negb (String.eqb s "")
  | CInt n => negb (n =? 0)%Z
  | CFloat _ nz => nz
  | CTimestamp _ _ _ => true
  end.

(** [str(value)] *)
Definition py_str (v : cell) : string :=
  match v with
  | CNone => "None"
  | CNaN => "nan"
  | CNaT => "NaT"
  | CStr s => s
  | CInt n => Py.str_of_Z n
  | CFloat text _ => text
  | CTimestamp y m d =>
      Py.pad 4 y +:+ "-" +:+ Py.pad 2 m +:+ "-" +:+ Py.pad 2 d +:+ " 00:00:00"
  end.

(** [is_nan_or_empty] *)
Definition is_nan_or_empty (value : cell) : bool :=
  match value with
  | CNone => true
  | CStr s => String.eqb (Py.strip s) ""
  | CNaN => true
  | CFloat _ _ => false
  | _ => false
  end.

(** The guard [not value or is_nan_or_empty(value)] of the resolvers. *)
Definition absent (value : cell) : bool := negb (truthy value) || is_nan_or_empty value.

(** [pandas.isna], the test behind [Series.dropna]. *)
Definition isna (v : cell) : bool :=
  match v with CNone | CNaN | CNaT => true | _ => false end.

(** [@dataclass FieldResult] *)
Record FieldResult := mkField {
  value : string;
  confidence : Confidence;
  source : string;
  notes : string
}.

(** [FieldResult(value, confidence)] and [FieldResult(value, confidence, source)] *)
Definition Field2 (v : string) (c : Confidence) : FieldResult := mkField v c "" "".
Definition Field3 (v : string) (c : Confidence) (src : string) : FieldResult := mkField v c src "".

(** [@dataclass GuestRecord]; an unset field is [None]. *)
Record GuestRecord := mkGuest {
  row_number : Z;
  documento : option FieldResult;
  tipo_documento : option FieldResult;
  nombres : option FieldResult;
  primer_apellido : option FieldResult;
  segundo_apellido : option FieldResult;
  nacionalidad : option FieldResult;
  fecha_nacimiento : option FieldResult;
  fecha_movimiento : option FieldResult;
  procedencia : option FieldResult;
  destino : option FieldResult;
  is_valid : bool;
  errors : list string;
  warnings : list string
}.

(** Lookup in a dict literal kept in insertion order. *)
Definition table_get (key : string) (table : list (string * string)) : option string :=
  snd <$> find (fun kv => String.eqb (fst kv) key) table.

(** The character class [A-ZÁÉÍÓÚÑÜ\s] of the resolvers' normalisation. *)
Definition is_key_char (c : ascii) : bool :=
  Py.is_upper_az c || Py.isspace c ||
  existsb (fun n => (Py.code c =? n)%nat) [193; 201; 205; 211; 218; 209; 220]%nat.

(** The three normalisation steps shared by the country and city resolvers:
    upper-case and strip, drop what is outside the class, collapse
    whitespace and strip. *)
Definition normalize_key (text : string) : string :=
  let normalized := Py.strip (Py.upper text) in
  let normalized := Py.keep is_key_char normalized in
  Py.strip (Py.collapse_ws normalized).

(** ** Reference tables and resolvers *)

Module CountryCodes.

(** The dict literal [CODES], in insertion order (its keys are distinct). *)
Definition CODES_text : list (string * string) :=
[
  ("ESTADOS UNIDOS", "249"); ("UNITED STATES", "249"); ("UNITED STATES OF AMERICA", "249");
  ("USA", "249"); ("US", "249"); ("AMERICA", "249"); ("E.E.U.U.", "249"); ("EEUU", "249");
  ("CANADA", "149"); ("CANADÁ", "149"); ("CAN", "149"); ("MEXICO", "493"); ("MÉXICO", "493");
  ("MEX", "493"); ("GROENLANDIA", "315"); ("GREENLAND", "315"); ("BERMUDAS", "90");
  ("BERMUDA", "90"); ("SAN PEDRO Y MIQUELON", "682"); ("SAINT PIERRE AND MIQUELON", "682");
  ("GUATEMALA", "317"); ("GTM", "317"); ("HONDURAS", "345"); ("HND", "345");
  ("EL SALVADOR", "242"); ("SLV", "242"); ("NICARAGUA", "521"); ("NIC", "521");
  ("COSTA RICA", "196"); ("CRI", "196"); ("PANAMA", "580"); ("PANAMÁ", "580");
  ("PAN", "580"); ("BELICE", "88"); ("BELIZE", "88"); ("BLZ", "88"); ("CUBA", "199");
  ("CUB", "199"); ("HAITI", "341"); ("HAITÍ", "341"); ("HTI", "341");
  ("REPUBLICA DOMINICANA", "647"); ("DOMINICAN REPUBLIC", "647"); ("DOM", "647");
  ("PUERTO RICO", "611"); ("PRI", "611"); ("JAMAICA", "391"); ("JAM", "391");
  ("TRINIDAD Y TOBAGO", "815"); ("TRINIDAD AND TOBAGO", "815"); ("TTO", "815");
  ("BAHAMAS", "77"); ("BAHAMAS ISLANDS", "77"); ("BHS", "77"); ("BARBADOS", "83");
  ("BRB", "83"); ("ANTIGUA Y BARBUDA", "43"); ("ANTIGUA AND BARBUDA", "43"); ("ATG", "43");
  ("DOMINICA", "235"); ("DMA", "235"); ("GRANADA", "297"); ("GRENADA", "297");
  ("GRD", "297"); ("SAN CRISTOBAL Y NIEVES", "695"); ("SAINT KITTS AND NEVIS", "695");
  ("KNA", "695"); ("SANTA LUCIA", "715"); ("SAINT LUCIA", "715"); ("LCA", "715");
  ("SAN VICENTE Y LAS GRANADINAS", "705"); ("SAINT VINCENT AND THE GRENADINES", "705");
  ("VCT", "705"); ("ARUBA", "67"); ("ABW", "67"); ("ANTILLAS HOLANDESAS", "921");
  ("NETHERLANDS ANTILLES", "921"); ("ANT", "921"); ("ANTILLAS NEERLANDESAS", "44");
  ("CURACAO", "201"); ("CURAZAO", "201"); ("ANGUILA", "895"); ("ANGUILLA", "895");
  ("AIA", "895"); ("ISLAS VIRGENES BRITANICAS", "866"); ("BRITISH VIRGIN ISLANDS", "866");
  ("VGB", "866"); ("ISLAS VIRGENES ESTADOUNIDENSES", "867"); ("US VIRGIN ISLANDS", "867");
  ("VIR", "867"); ("ISLAS CAIMAN", "137"); ("CAYMAN ISLANDS", "137"); ("CYM", "137");
  ("MONTSERRAT", "501"); ("MONSERRAT", "501"); ("MSR", "501");
  ("ISLAS TURCAS Y CAICOS", "900"); ("TURKS AND CAICOS ISLANDS", "900"); ("TCA", "900");
  ("GUADALUPE", "338"); ("GUADELOUPE", "338"); ("GLP", "338"); ("MARTINICA", "490");
  ("MARTINIQUE", "490"); ("MTQ", "490"); ("COLOMBIA", "169"); ("COL", "169");
  ("VENEZUELA", "850"); ("VEN", "850"); ("ECUADOR", "239"); ("ECU", "239"); ("PERU", "589");
  ("PERÚ", "589"); ("PER", "589"); ("BOLIVIA", "97"); ("BOL", "97"); ("CHILE", "211");
  ("CHL", "211"); ("ARGENTINA", "63"); ("ARG", "63"); ("URUGUAY", "845"); ("URY", "845");
  ("PARAGUAY", "586"); ("PRY", "586"); ("BRASIL", "105"); ("BRAZIL", "105"); ("BRA", "105");
  ("GUYANA", "325"); ("GUY", "325"); ("SURINAM", "770"); ("SURINAME", "770"); ("SUR", "770");
  ("GUAYANA FRANCESA", "340"); ("FRENCH GUIANA", "340"); ("GUF", "340"); ("ESPANA", "245");
  ("ESPAÑA", "245"); ("SPAIN", "245"); ("ESP", "245"); ("FRANCIA", "275"); ("FRANCE", "275");
  ("FRA", "275"); ("ALEMANIA", "23"); ("GERMANY", "23"); ("DEU", "23"); ("GER", "23");
  ("ITALIA", "386"); ("ITALY", "386"); ("ITA", "386"); ("PORTUGAL", "607"); ("PRT", "607");
  ("REINO UNIDO", "628"); ("UNITED KINGDOM", "628"); ("UK", "628"); ("GBR", "628");
  ("ENGLAND", "628"); ("GREAT BRITAIN", "628"); ("GRAN BRETAÑA", "628");
  ("INGLATERRA", "628"); ("IRLANDA", "375"); ("IRELAND", "375"); ("IRL", "375");
  ("EIRE", "375"); ("PAISES BAJOS", "573"); ("NETHERLANDS", "573"); ("HOLANDA", "573");
  ("NLD", "573"); ("BELGICA", "87"); ("BÉLGICA", "87"); ("BELGIUM", "87"); ("BEL", "87");
  ("LUXEMBURGO", "442"); ("LUXEMBOURG", "442"); ("LUX", "442"); ("SUIZA", "767");
  ("SWITZERLAND", "767"); ("CHE", "767"); ("AUSTRIA", "72"); ("AUT", "72");
  ("LIECHTENSTEIN", "441"); ("LIE", "441"); ("MONACO", "496"); ("MCO", "496");
  ("ANDORRA", "37"); ("AND", "37"); ("SAN MARINO", "701"); ("SMR", "701");
  ("CIUDAD DEL VATICANO", "717"); ("VATICAN", "717"); ("VATICANO", "717");
  ("SANTA SEDE", "717"); ("VAT", "717"); ("GIBRALTAR", "293"); ("GIB", "293");
  ("SUECIA", "764"); ("SWEDEN", "764"); ("SWE", "764"); ("NORUEGA", "538");
  ("NORWAY", "538"); ("NOR", "538"); ("DINAMARCA", "232"); ("DENMARK", "232");
  ("DNK", "232"); ("FINLANDIA", "271"); ("FINLAND", "271"); ("FIN", "271");
  ("ISLANDIA", "379"); ("ICELAND", "379"); ("ISL", "379"); ("ISLAS FEROE", "390");
  ("FAROE ISLANDS", "390"); ("FRO", "390"); ("ALAND", "384");
  ("SVALBARD Y JAN MAYEN", "730"); ("RUSIA", "673"); ("RUSSIA", "673");
  ("RUSSIAN FEDERATION", "673"); ("RUS", "673"); ("UCRANIA", "830"); ("UKRAINE", "830");
  ("UKR", "830"); ("BIELORRUSIA", "85"); ("BELARUS", "85"); ("BLR", "85");
  ("POLONIA", "603"); ("POLAND", "603"); ("POL", "603"); ("REPUBLICA CHECA", "207");
  ("CZECH REPUBLIC", "207"); ("CZECHIA", "207"); ("CZE", "207"); ("ESLOVAQUIA", "247");
  ("SLOVAKIA", "247"); ("SVK", "247"); ("HUNGRIA", "355"); ("HUNGARY", "355");
  ("HUN", "355"); ("RUMANIA", "670"); ("ROMANIA", "670"); ("ROU", "670");
  ("BULGARIA", "111"); ("BGR", "111"); ("MOLDAVIA", "495"); ("MOLDOVA", "495");
  ("MDA", "495"); ("GRECIA", "301"); ("GREECE", "301"); ("GRC", "301"); ("TURQUIA", "827");
  ("TURQUÍA", "827"); ("TURKEY", "827"); ("TUR", "827"); ("CROACIA", "198");
  ("CROATIA", "198"); ("HRV", "198"); ("SERBIA", "729"); ("SRB", "729"); ("BOSNIA", "99");
  ("BOSNIA HERZEGOVINA", "99"); ("BOSNIA AND HERZEGOVINA", "99"); ("BIH", "99");
  ("MONTENEGRO", "499"); ("MNE", "499"); ("ESLOVENIA", "248"); ("SLOVENIA", "248");
  ("SVN", "248"); ("MACEDONIA", "448"); ("ARY MACEDONIA", "448"); ("NORTH MACEDONIA", "448");
  ("MKD", "448"); ("REPUBLICA DE MACEDONIA", "642"); ("ALBANIA", "17"); ("ALB", "17");
  ("KOSOVO", "414"); ("LITUANIA", "429"); ("LITHUANIA", "429"); ("LTU", "429");
  ("LETONIA", "428"); ("LATVIA", "428"); ("LVA", "428"); ("ESTONIA", "251"); ("EST", "251");
  ("GEORGIA", "287"); ("GEO", "287"); ("ARMENIA", "65"); ("ARM", "65"); ("AZERBAIYAN", "75");
  ("AZERBAIJAN", "75"); ("AZE", "75"); ("CHINA", "215"); ("CHN", "215"); ("JAPON", "399");
  ("JAPÓN", "399"); ("JAPAN", "399"); ("JPN", "399"); ("COREA DEL SUR", "190");
  ("SOUTH KOREA", "190"); ("KOREA", "190"); ("KOR", "190"); ("COREA DEL NORTE", "651");
  ("NORTH KOREA", "651"); ("PRK", "651"); ("TAIWAN", "774"); ("TWN", "774");
  ("HONG KONG", "347"); ("HKG", "347"); ("MACAO", "447"); ("MACAU", "447"); ("MAC", "447");
  ("MONGOLIA", "497"); ("MNG", "497"); ("TAILANDIA", "776"); ("THAILAND", "776");
  ("THA", "776"); ("VIETNAM", "855"); ("VIET NAM", "855"); ("VNM", "855");
  ("FILIPINAS", "267"); ("PHILIPPINES", "267"); ("PHL", "267"); ("INDONESIA", "365");
  ("IDN", "365"); ("MALASIA", "455"); ("MALAYSIA", "455"); ("MYS", "455");
  ("SINGAPUR", "741"); ("SINGAPORE", "741"); ("SGP", "741"); ("MYANMAR", "507");
  ("BIRMANIA", "507"); ("BURMA", "507"); ("MMR", "507"); ("CAMBOYA", "141");
  ("CAMBODIA", "141"); ("KAMPUCHEA", "141"); ("KHM", "141"); ("LAOS", "420"); ("LAO", "420");
  ("BRUNEI", "108"); ("BRUNEI DARUSSALAM", "108"); ("BRN", "108"); ("TIMOR ORIENTAL", "783");
  ("EAST TIMOR", "783"); ("TIMOR LESTE", "783"); ("TLS", "783"); ("INDIA", "361");
  ("IND", "361"); ("PAKISTAN", "576"); ("PAK", "576"); ("BANGLADESH", "81"); ("BGD", "81");
  ("SRI LANKA", "750"); ("LKA", "750"); ("CEILAN", "750"); ("NEPAL", "517"); ("NPL", "517");
  ("BUTAN", "117"); ("BHUTAN", "117"); ("BTN", "117"); ("MALDIVAS", "461");
  ("MALDIVES", "461"); ("MDV", "461"); ("AFGANISTAN", "13"); ("AFGHANISTAN", "13");
  ("AFG", "13"); ("KAZAJISTAN", "406"); ("KAZAKHSTAN", "406"); ("KAZ", "406");
  ("UZBEKISTAN", "847"); ("UZB", "847"); ("TURKMENISTAN", "829"); ("TKM", "829");
  ("KIRGUISTAN", "412"); ("KYRGYZSTAN", "412"); ("KGZ", "412"); ("TAYIKISTAN", "775");
  ("TAJIKISTAN", "775"); ("TJK", "775"); ("ISRAEL", "383"); ("ISR", "383");
  ("PALESTINA", "600"); ("PALESTINE", "600"); ("PSE", "600"); ("LIBANO", "431");
  ("LEBANON", "431"); ("LBN", "431"); ("SIRIA", "744"); ("SYRIA", "744"); ("SYR", "744");
  ("JORDANIA", "403"); ("JORDAN", "403"); ("JOR", "403"); ("IRAQ", "369"); ("IRQ", "369");
  ("IRAK", "369"); ("IRAN", "372"); ("IRN", "372"); ("ARABIA SAUDITA", "55");
  ("SAUDI ARABIA", "55"); ("SAU", "55"); ("EMIRATOS ARABES UNIDOS", "244");
  ("UNITED ARAB EMIRATES", "244"); ("UAE", "244"); ("ARE", "244"); ("KUWAIT", "413");
  ("KWT", "413"); ("QATAR", "618"); ("QAT", "618"); ("BAHREIN", "80"); ("BAHRAIN", "80");
  ("BHR", "80"); ("OMAN", "542"); ("OMN", "542"); ("YEMEN", "880"); ("YEM", "880");
  ("CHIPRE", "221"); ("CYPRUS", "221"); ("CYP", "221"); ("AUSTRALIA", "69"); ("AUS", "69");
  ("NUEVA ZELANDA", "540"); ("NEW ZEALAND", "540"); ("NZL", "540");
  ("PAPUA NUEVA GUINEA", "582"); ("PAPUA NEW GUINEA", "582"); ("PNG", "582");
  ("FIYI", "255"); ("FIJI", "255"); ("FJI", "255"); ("ISLAS SALOMON", "395");
  ("SOLOMON ISLANDS", "395"); ("SLB", "395"); ("VANUATU", "849"); ("VUT", "849");
  ("SAMOA", "699"); ("WSM", "699"); ("SAMOA AMERICANA", "698"); ("AMERICAN SAMOA", "698");
  ("ASM", "698"); ("TONGA", "810"); ("TON", "810"); ("KIRIBATI", "411"); ("KIR", "411");
  ("TUVALU", "828"); ("TUV", "828"); ("NAURU", "508"); ("NRU", "508"); ("PALAOS", "578");
  ("PALAU", "578"); ("PLW", "578"); ("MICRONESIA", "503"); ("FSM", "503");
  ("ISLAS MARSHALL", "475"); ("MARSHALL ISLANDS", "475"); ("MHL", "475"); ("GUAM", "339");
  ("GUM", "339"); ("ISLAS MARIANAS DEL NORTE", "392"); ("NORTHERN MARIANA ISLANDS", "392");
  ("MNP", "392"); ("NUEVA CALEDONIA", "539"); ("NEW CALEDONIA", "539"); ("NCL", "539");
  ("POLINESIA FRANCESA", "609"); ("FRENCH POLYNESIA", "609"); ("PYF", "609");
  ("WALLIS Y FUTUNA", "394"); ("WALLIS AND FUTUNA", "394"); ("WLF", "394");
  ("ISLAS COOK", "388"); ("COOK ISLANDS", "388"); ("COK", "388"); ("NIUE", "531");
  ("NIU", "531"); ("TOKELAU", "812"); ("TKL", "812"); ("ISLAS PITCAIRN", "381");
  ("PITCAIRN", "381"); ("PCN", "381"); ("NORFOLK", "163"); ("NORFOLK ISLAND", "163");
  ("NFK", "163"); ("ISLAS COCOS", "178"); ("COCOS KEELING ISLANDS", "178"); ("CCK", "178");
  ("ISLA DE NAVIDAD", "387"); ("CHRISTMAS ISLAND", "387"); ("CXR", "387"); ("EGIPTO", "240");
  ("EGYPT", "240"); ("EGY", "240"); ("LIBIA", "438"); ("LIBYA", "438"); ("LBY", "438");
  ("TUNEZ", "820"); ("TUNISIA", "820"); ("TUN", "820"); ("ARGELIA", "59"); ("ALGERIA", "59");
  ("DZA", "59"); ("MARRUECOS", "474"); ("MOROCCO", "474"); ("MAR", "474");
  ("SAHARA OCCIDENTAL", "680"); ("WESTERN SAHARA", "680"); ("ESH", "680"); ("SUDAN", "759");
  ("SDN", "759"); ("NIGERIA", "525"); ("NGA", "525"); ("NIGER", "528"); ("NER", "528");
  ("GHANA", "289"); ("GHA", "289"); ("COSTA DE MARFIL", "193"); ("COTE D'IVOIRE", "193");
  ("IVORY COAST", "193"); ("CIV", "193"); ("SENEGAL", "728"); ("SEN", "728");
  ("MALI", "464"); ("MLI", "464"); ("BURKINA FASO", "113"); ("BFA", "113");
  ("GUINEA", "329"); ("GIN", "329"); ("GUINEA BISSAU", "334"); ("GUINEA-BISSAU", "334");
  ("GNB", "334"); ("SIERRA LEONA", "735"); ("SIERRA LEONE", "735"); ("SLE", "735");
  ("LIBERIA", "434"); ("LBR", "434"); ("TOGO", "800"); ("TGO", "800"); ("BENIN", "89");
  ("BEN", "89"); ("MAURITANIA", "488"); ("MRT", "488"); ("CABO VERDE", "127");
  ("CAPE VERDE", "127"); ("CPV", "127"); ("GAMBIA", "285"); ("GMB", "285");
  ("CAMERUN", "145"); ("CAMEROON", "145"); ("CMR", "145");
  ("REPUBLICA CENTROAFRICANA", "998"); ("CENTRAL AFRICAN REPUBLIC", "998"); ("CAF", "998");
  ("CHAD", "151"); ("TCD", "151"); ("REPUBLICA DEL CONGO", "170"); ("CONGO", "170");
  ("COG", "170"); ("REPUBLICA DEMOCRATICA DEL CONGO", "177"); ("ZAIRE", "177");
  ("COD", "177"); ("GUINEA ECUATORIAL", "331"); ("EQUATORIAL GUINEA", "331"); ("GNQ", "331");
  ("GABON", "281"); ("GAB", "281"); ("SANTO TOME Y PRINCIPE", "720");
  ("SAO TOME AND PRINCIPE", "720"); ("STP", "720"); ("ANGOLA", "40"); ("AGO", "40");
  ("KENIA", "410"); ("KENYA", "410"); ("KEN", "410"); ("ETIOPIA", "253");
  ("ETHIOPIA", "253"); ("ETH", "253"); ("TANZANIA", "780"); ("TZA", "780");
  ("UGANDA", "833"); ("UGA", "833"); ("RWANDA", "675"); ("RUANDA", "675"); ("RWA", "675");
  ("BURUNDI", "115"); ("BDI", "115"); ("SOMALIA", "748"); ("SOM", "748"); ("YIBUTI", "920");
  ("DJIBOUTI", "920"); ("DJI", "920"); ("ERITREA", "246"); ("ERI", "246");
  ("SEYCHELLES", "731"); ("SYC", "731"); ("MAURICIO", "485"); ("MAURITIUS", "485");
  ("MUS", "485"); ("COMORAS", "171"); ("COMOROS", "171"); ("COM", "171");
  ("MADAGASCAR", "450"); ("MDG", "450"); ("REUNION", "650"); ("REU", "650");
  ("MAYOTTE", "494"); ("SUDAFRICA", "756"); ("SUDÁFRICA", "756"); ("SOUTH AFRICA", "756");
  ("ZAF", "756"); ("NAMIBIA", "512"); ("NAM", "512"); ("BOTSWANA", "101"); ("BWA", "101");
  ("ZIMBABUE", "892"); ("ZIMBABWE", "892"); ("ZWE", "892"); ("ZAMBIA", "890");
  ("ZMB", "890"); ("MOZAMBIQUE", "505"); ("MOZ", "505"); ("MALAWI", "458"); ("MWI", "458");
  ("LESOTHO", "426"); ("LSO", "426"); ("SWAZILANDIA", "773"); ("ESWATINI", "773");
  ("SWAZILAND", "773"); ("SWZ", "773"); ("ISLAS ULTRAMARINAS DE ESTADOS UNIDOS", "200");
  ("TERRITORIO BRITANICO DEL OCEANO INDICO", "779");
  ("BRITISH INDIAN OCEAN TERRITORY", "779"); ("IOT", "779"); ("SANTA HELENA", "708");
  ("SAINT HELENA", "708"); ("SHN", "708"); ("ISLA DE MAN", "380"); ("ISLE OF MAN", "380");
  ("IMN", "380"); ("JERSEY", "160"); ("JEY", "160"); ("GUERNSEY", "146"); ("GGY", "146");
  ("ANTARTIDA", "143"); ("ANTARCTICA", "143"); ("ATA", "143"); ("ISLA BOUVET", "173");
  ("BOUVET ISLAND", "173"); ("ISLAS HEARD Y MCDONALD", "186"); ("ISLAS MALVINAS", "191");
  ("FALKLAND ISLANDS", "191"); ("FLK", "191"); ("TERRITORIOS AUSTRALES FRANCESES", "781");
  ("INTERPOL", "980"); ("NACIONES UNIDAS", "981"); ("NO APLICA", "0")
].

Definition CODES : list (string * string) :=
  Eval vm_compute in map (fun kv => (Py.latin1 (fst kv), snd kv)) CODES_text.

(** The loop [for key, code in CODES.items(): if normalized in key or key in
    normalized: return code, MEDIUM]. *)
Definition partial_match (normalized : string) : option (string * string) :=
  find (fun kv => Py.contains normalized (fst kv) || Py.contains (fst kv) normalized) CODES.

(** The loop over [words]: the first word of length at least 3 found inside
    some key. *)
Fixpoint word_match (words : list string) : option (string * string) :=
  match words with
  | [] => None
  | word :: rest =>
      if (3 <=? Py.len word)%nat
      then match find (fun kv => Py.contains word (fst kv)) CODES with
           | Some kv => Some kv
           | None => word_match rest
           end
      else word_match rest
  end.

Definition get_code (country : cell) : string * Confidence :=
  if absent country then ("", NONE)
  else
    let normalized := normalize_key (py_str country) in
    match table_get normalized CODES with
    | Some code => (code, HIGH)
    | None =>
        match partial_match normalized with
        | Some kv => (snd kv, MEDIUM)
        | None =>
            match word_match (Py.split normalized) with
            | Some kv => (snd kv, LOW)
            | None => ("", NONE)
            end
        end
    end.

Definition is_colombia (country : cell) : bool :=
  String.eqb (fst (get_code country)) "169".

End CountryCodes.

Module ColombianCities.

(** The dict literal [CITIES], in insertion order (its keys are distinct). *)
Definition CITIES_text : list (string * string) :=
[
  ("MEDELLIN", "5001"); ("MEDELLÍN", "5001"); ("BOGOTA", "11001"); ("BOGOTÁ", "11001");
  ("SANTA FE DE BOGOTA", "11001"); ("CALI", "76001"); ("SANTIAGO DE CALI", "76001");
  ("BARRANQUILLA", "8001"); ("CARTAGENA", "13001"); ("CARTAGENA DE INDIAS", "13001");
  ("SANTA MARTA", "47001"); ("BUCARAMANGA", "68001"); ("PEREIRA", "66001");
  ("MANIZALES", "17001"); ("CUCUTA", "54001"); ("CÚCUTA", "54001"); ("IBAGUE", "73001");
  ("IBAGUÉ", "73001"); ("VILLAVICENCIO", "50001"); ("PASTO", "52001");
  ("SAN JUAN DE PASTO", "52001"); ("MONTERIA", "23001"); ("MONTERÍA", "23001");
  ("NEIVA", "41001"); ("ARMENIA", "63001"); ("VALLEDUPAR", "20001"); ("POPAYAN", "19001");
  ("POPAYÁN", "19001"); ("SINCELEJO", "70001"); ("TUNJA", "15001"); ("RIOHACHA", "44001");
  ("QUIBDO", "27001"); ("QUIBDÓ", "27001"); ("FLORENCIA", "18001"); ("YOPAL", "85001");
  ("MOCOA", "86001"); ("LETICIA", "91001"); ("ARAUCA", "81001"); ("INIRIDA", "94001");
  ("INÍRIDA", "94001"); ("MITU", "97001"); ("MITÚ", "97001"); ("PUERTO CARRENO", "99001");
  ("PUERTO CARREÑO", "99001"); ("SAN JOSE DEL GUAVIARE", "95001");
  ("SAN JOSÉ DEL GUAVIARE", "95001"); ("SAN ANDRES", "88001"); ("SAN ANDRÉS", "88001");
  ("SAN ANDRES ISLA", "88001"); ("PROVIDENCIA", "88564"); ("BUGA", "76111");
  ("GUADALAJARA DE BUGA", "76111"); ("BUENAVENTURA", "76109"); ("BARICHARA", "68079");
  ("VILLA DE LEYVA", "15407"); ("GUATAPE", "5321"); ("GUATAPÉ", "5321"); ("JARDIN", "5364");
  ("JARDÍN", "5364"); ("SALENTO", "63690"); ("FILANDIA", "63272");
  ("SANTA FE DE ANTIOQUIA", "5042"); ("SANTAFE DE ANTIOQUIA", "5042"); ("RIONEGRO", "5615");
  ("ENVIGADO", "5266"); ("ITAGUI", "5360"); ("ITAGÜÍ", "5360"); ("BELLO", "5088");
  ("SABANETA", "5631"); ("LA CEJA", "5376"); ("MARINILLA", "5440"); ("EL RETIRO", "5607");
  ("RETIRO", "5607"); ("GIRARDOTA", "5308"); ("COPACABANA", "5212"); ("ZIPAQUIRA", "25899");
  ("ZIPAQUIRÁ", "25899"); ("CHIA", "25175"); ("CHÍA", "25175"); ("CAJICA", "25126");
  ("CAJICÁ", "25126"); ("SOACHA", "25754"); ("GIRARDOT", "25307"); ("MELGAR", "73449");
  ("VILLETA", "25873"); ("LA MESA", "25386"); ("FUSAGASUGA", "25290");
  ("FUSAGASUGÁ", "25290"); ("PALMIRA", "76520"); ("TULUA", "76834"); ("TULUÁ", "76834");
  ("CARTAGO", "76147"); ("JAMUNDI", "76364"); ("JAMUNDÍ", "76364"); ("YUMBO", "76892");
  ("SOLEDAD", "8758"); ("MALAMBO", "8433"); ("TURBACO", "13836"); ("MAGANGUE", "13430");
  ("MAGANGUÉ", "13430"); ("LORICA", "23417"); ("CERETE", "23162"); ("CERETÉ", "23162");
  ("SOGAMOSO", "15759"); ("DUITAMA", "15238"); ("PAIPA", "15516"); ("IPIALES", "52356");
  ("TUMACO", "52835"); ("COLOMBIA", "169")
].

Definition CITIES : list (string * string) :=
  Eval vm_compute in map (fun kv => (Py.latin1 (fst kv), snd kv)) CITIES_text.

Definition is_colombian_city (text : cell) : bool * string :=
  if absent text then (false, "")
  else
    let normalized := normalize_key (py_str text) in
    match table_get normalized CITIES with
    | Some code => (true, code)
    | None =>
        if (5 <=? Py.len normalized)%nat
        then match find (fun kv => Py.contains (fst kv) normalized) CITIES with
             | Some kv => (true, snd kv)
             | None => (false, "")
             end
        else (false, "")
    end.

Definition get_colombia_code_if_city (text : cell) : string * Confidence :=
  if fst (is_colombian_city text) then ("169", HIGH) else ("", NONE).

End ColombianCities.

Module DocumentTypes.

(** The dict literal [CODES], in insertion order (its keys are distinct). *)
Definition CODES : list (string * string) :=
[
  ("PASAPORTE", "3"); ("PASSPORT", "3"); ("PAS", "3"); ("PP", "3");
  ("CEDULA DE EXTRANJERIA", "5"); ("CEDULA EXTRANJERIA", "5"); ("CE", "5");
  ("CARNE DIPLOMATICO", "46"); ("DIPLOMATIC", "46"); ("DIPLOMATICO", "46");
  ("DOCUMENTO EXTRANJERO", "10"); ("FOREIGN DOCUMENT", "10"); ("PPT", "52");
  ("PERMISO PROTECCION TEMPORAL", "52"); ("VISA", "10"); ("DNI", "3"); ("ID", "3");
  ("NATIONAL ID", "3")
].

(** [any(word in normalized for word in words)] *)
Definition any_in (words : list string) (normalized : string) : bool :=
  existsb (fun word => Py.contains word normalized) words.

Definition get_code (doc_type : cell) : string * Confidence :=
  if absent doc_type then ("3", LOW)
  else
    let normalized := Py.strip (Py.upper (py_str doc_type)) in
    match find (fun kv => Py.contains (fst kv) normalized || Py.contains normalized (fst kv)) CODES with
    | Some kv => (snd kv, HIGH)
    | None =>
        if any_in ["PASAP"; "PASSPO"; "PP"] normalized then ("3", MEDIUM)
        else if any_in ["CEDULA"; "CE"; "EXTRAN"] normalized then ("5", MEDIUM)
        else if any_in ["DIPLOM"; "CARNE"] normalized then ("46", MEDIUM)
        else if any_in ["PPT"; "PROTEC"; "TEMPORAL"] normalized then ("52", MEDIUM)
        else ("3", LOW)
    end.

End DocumentTypes.

(** ** Regular expressions of the content patterns

    The patterns of the source use character classes, literals, alternation,
    concatenation and bounded repetition.  [re.match] asks whether some prefix
    of the text belongs to the language, which the derivative decides. *)

Module Re.

Inductive regex :=
| Null
| Eps
| Class (p : ascii -> bool)
| Seq (r1 r2 : regex)
| Alt (r1 r2 : regex).

Fixpoint nullable (r : regex) : bool :=
  match r with
  | Null => false
  | Eps => true
  | Class _ => false
  | Seq r1 r2 => nullable r1 && nullable r2
  | Alt r1 r2 => nullable r1 || nullable r2
  end.

Definition seq (r1 r2 : regex) : regex :=
  match r1, r2 with
  | Null, _ => Null
  | _, Null => Null
  | Eps, _ => r2
  | _, _ => Seq r1 r2
  end.

Definition alt (r1 r2 : regex) : regex :=
  match r1, r2 with
  | Null, _ => r2
  | _, Null => r1
  | _, _ => Alt r1 r2
  end.

Fixpoint deriv (c : ascii) (r : regex) : regex :=
  match r with
  | Null => Null
  | Eps => Null
  | Class p => if p c then Eps else Null
  | Seq r1 r2 =>
      if nullable r1 then alt (seq (deriv c r1) r2) (deriv c r2)
      else seq (deriv c r1) r2
  | Alt r1 r2 => alt (deriv c r1) (deriv c r2)
  end.

Fixpoint matches_prefix (r : regex) (l : list ascii) : bool :=
  nullable r ||
  match l with
  | [] => false
  | c :: l' => matches_prefix (deriv c r) l'
  end.

Fixpoint matches_full (r : regex) (l : list ascii) : bool :=
  match l with
  | [] => nullable r
  | c :: l' => matches_full (deriv c r) l'
  end.

(** [r{m}] and [r{m,n}] *)
Fixpoint power (m : nat) (r : regex) : regex :=
  match m with O => Eps | S m' => Seq r (power m' r) end.

Fixpoint upto (k : nat) (r : regex) : regex :=
  match k with O => Eps | S k' => Alt Eps (Seq r (upto k' r)) end.

Definition rep (m n : nat) (r : regex) : regex := Seq (power m r) (upto (n - m) r).

(** Classes and literals under [re.IGNORECASE]. *)
Definition digit : regex := Class Py.isdigit.
Definition letter : regex := Class (fun c => Py.is_upper_az c || Py.is_lower_az c).
Definition alnum : regex :=
  Class (fun c => Py.is_upper_az c || Py.is_lower_az c || Py.isdigit c).
Definition one_of (chars : list ascii) : regex :=
  Class (fun c => existsb (Ascii.eqb c) chars).
Definition lit_char (a : ascii) : regex :=
  Class (fun c => Ascii.eqb (Py.lower_char c) (Py.lower_char a)).

Fixpoint lit_chars (l : list ascii) : regex :=
  match l with [] => Eps | a :: l' => Seq (lit_char a) (lit_chars l') end.

Definition lit (s : string) : regex := lit_chars (Py.chars s).

Fixpoint alts (rs : list regex) : regex :=
  match rs with [] => Null | [r] => r | r :: rs' => Alt r (alts rs') end.

(** A pattern of the source: its body and whether it ends in [$], which
    matches at the end of the text or before a final newline. *)
Record pattern := mkPattern { body : regex; dollar : bool }.

Definition newline : regex := Class (fun c => (Py.code c =? 10)%nat).

(** [re.match(pattern, text, re.IGNORECASE)] as a truth value; a leading
    [^] adds nothing to [re.match]. *)
Definition re_match (p : pattern) (text : string) : bool :=
  if dollar p then matches_full (Seq (body p) (Alt Eps newline)) (Py.chars text)
  else matches_prefix (body p) (Py.chars text).

End Re.

(** ** Column detector *)

(** A tabular dataset: ordered column labels and ordered rows.  A row maps a
    label to its cell; [row.get(col)] is [None] where the row has none.  Rows
    are numbered from 0 in order (the default index). *)
Record DataFrame := mkFrame {
  columns : list string;
  rows : list (gmap string cell)
}.

Definition row_get (row : gmap string cell) (col : string) : cell :=
  default CNone (row !! col).

Module ColumnDetector.

(** One entry of [FIELD_PATTERNS].  [priority] is [None] where the source
    gives none; the key ['exclude_patterns'] of the source is never read. *)
Record FieldConfig := mkConfig {
  names : list string;
  content_patterns : list Re.pattern;
  exclude_column_keywords : list string;
  priority : option nat
}.

Definition tipo_documento_config : FieldConfig :=
  mkConfig
    ["tipo de documento"; "document type"; "tipo documento";
     "doc type"; "id type"; "tipo de id"; "tipo id"]
    [Re.mkPattern
       (Re.alts [Re.lit "pasaporte"; Re.lit "passport"; Re.lit "cedula";
                 Re.lit "dni"; Re.lit "visa"; Re.lit "ppt"]) false]
    []
    (Some 1%nat).

Definition numero_documento_names : list string :=
  Eval vm_compute in map Py.latin1
    ["document number"; "numero documento"; "número de documento";
     "numero de identificacion"; "número de identificación";
     "passport number"; "passport no"; "id number";
     "doc number"; "document no"; "numero del documento";
     "número del documento"; "no. documento"; "nro documento";
     "n documento"; "num documento"; "numero id"; "no identificacion";
     "número identificación"].

Definition numero_documento_config : FieldConfig :=
  mkConfig
    numero_documento_names
    [Re.mkPattern (Re.Seq (Re.rep 1 2 Re.letter) (Re.rep 6 9 Re.digit)) true;
     Re.mkPattern (Re.rep 8 12 Re.digit) true;
     Re.mkPattern (Re.rep 6 12 Re.alnum) true]
    ["tipo"]
    (Some 2%nat).

Definition names_only (l : list string) : FieldConfig := mkConfig l [] [] None.

Definition fecha_nacimiento_names : list string :=
  Eval vm_compute in map Py.latin1
    ["birthday"; "birth date"; "fecha nacimiento"; "date of birth";
     "birthdate"; "dob"; "nacimiento"; "born"; "cumpleaños";
     "fecha de nacimiento"; "f. nacimiento"].

Definition sep : Re.regex := Re.one_of ["/"%char; "-"%char].

Definition fecha_nacimiento_config : FieldConfig :=
  mkConfig
    fecha_nacimiento_names
    [Re.mkPattern
       (Re.Seq (Re.rep 1 2 Re.digit) (Re.Seq sep (Re.Seq (Re.rep 1 2 Re.digit)
          (Re.Seq sep (Re.rep 2 4 Re.digit))))) false;
     Re.mkPattern
       (Re.Seq (Re.rep 4 4 Re.digit) (Re.Seq sep (Re.Seq (Re.rep 1 2 Re.digit)
          (Re.Seq sep (Re.rep 1 2 Re.digit))))) false]
    []
    None.

Definition nombre_completo_names : list string :=
  Eval vm_compute in map Py.latin1
    ["guest name"; "nombre completo"; "full name"; "guest";
     "huesped"; "nombre y apellido"; "huésped"; "cliente"].

Definition nacionalidad_names : list string :=
  Eval vm_compute in map Py.latin1
    ["country"; "nationality"; "nacionalidad"; "pais"; "país";
     "citizen"; "citizenship"; "nation"].

(** The dict literal [FIELD_PATTERNS], in insertion order. *)
Definition FIELD_PATTERNS : list (string * FieldConfig) :=
  [ ("tipo_documento", tipo_documento_config);
    ("numero_documento", numero_documento_config);
    ("nombres", names_only
       ["name"; "first name"; "nombres"; "given name"; "firstname";
        "given names"; "nombre"; "primer nombre"]);
    ("primer_apellido", names_only
       ["surname"; "last name"; "apellido"; "primer apellido";
        "family name"; "lastname"; "apellidos"]);
    ("nombre_completo", names_only
       nombre_completo_names);
    ("nacionalidad", names_only
       nacionalidad_names);
    ("fecha_nacimiento", fecha_nacimiento_config);
    ("fecha_checkin", names_only
       ["arrival date"; "arrival"; "check-in"; "checkin"; "check in";
        "llegada"; "entrada"; "fecha entrada"; "fecha llegada";
        "fecha de llegada"; "ingreso"]);
    ("fecha_checkout", names_only
       ["departure date"; "departure"; "check-out"; "checkout";
        "check out"; "salida"; "fecha salida"; "fecha checkout";
        "fecha de salida"; "egreso"]);
    ("procedencia", names_only
       ["pais de procedencia"; "country of origin"; "origin country";
        "procedencia"; "from"; "origen"; "viene de"]);
    ("destino", names_only
       ["pais de destino"; "destination country"; "destino";
        "destination"; "to"; "va a"; "hacia"]) ].

(** [_similarity]: 1 on equal lower-cased texts, else shared words over the
    size of the larger word set, 0 when either set is empty. *)
Definition _similarity (s1 s2 : string) : Q :=
  let s1 := Py.lower s1 in
  let s2 := Py.lower s2 in
  if String.eqb s1 s2 then 1%Q
  else
    let words1 : gset string := list_to_set (Py.split s1) in
    let words2 : gset string := list_to_set (Py.split s2) in
    if bool_decide (words1 = ∅) || bool_decide (words2 = ∅) then 0%Q
    else
      let common := words1 ∩ words2 in
      (inject_Z (Z.of_nat (size common)) /
       inject_Z (Z.of_nat (Nat.max (size words1) (size words2))))%Q.

(** The score a pattern adds when it contains the column or is contained
    in it: [len(pattern) / max(len(col_lower), len(pattern)) + 0.3]. *)
Definition containment_score (col_lower pattern : string) : Q :=
  (inject_Z (Z.of_nat (Py.len pattern)) /
   inject_Z (Z.of_nat (Nat.max (Py.len col_lower) (Py.len pattern))) + (3 # 10))%Q.

(** The body of the loop of [_fuzzy_match] once the exact match has
    failed: the new [best_score]. *)
Definition fuzzy_step (col_lower : string) (best_score : Q) (pattern : string) : Q :=
  let best_score :=
    if Py.contains pattern col_lower || Py.contains col_lower pattern
    then Qmax best_score (containment_score col_lower pattern)
    else best_score in
  let similarity := _similarity col_lower pattern in
  Qmax best_score similarity.

Fixpoint fuzzy_loop (col_lower : string) (threshold best_score : Q)
    (patterns : list string) : bool * Q :=
  match patterns with
  | [] => (Qle_bool threshold best_score, best_score)
  | pattern :: rest =>
      if String.eqb col_lower pattern then (true, 1%Q)
      else fuzzy_loop col_lower threshold (fuzzy_step col_lower best_score pattern) rest
  end.

Definition _fuzzy_match (column : string) (patterns : list string) (threshold : Q) : bool * Q :=
  let col_lower := Py.strip (Py.lower column) in
  fuzzy_loop col_lower threshold 0%Q patterns.

(** The default [threshold=0.5]. *)
Definition default_threshold : Q := (5 # 10)%Q.

Definition _should_exclude_column (column : string) (config : FieldConfig) : bool :=
  let col_lower := Py.lower column in
  existsb (fun keyword => Py.contains (Py.lower keyword) col_lower)
          (exclude_column_keywords config).

(** [sorted(items, key=lambda x: x[1].get('priority', 99))]: stable. *)
Definition sort_key (item : string * FieldConfig) : nat :=
  default 99%nat (priority (snd item)).

Fixpoint insert_sorted (x : string * FieldConfig) (l : list (string * FieldConfig)) :=
  match l with
  | [] => [x]
  | y :: l' => if (sort_key x <? sort_key y)%nat then x :: l else y :: insert_sorted x l'
  end.

Definition sorted (l : list (string * FieldConfig)) : list (string * FieldConfig) :=
  fold_left (fun acc x => insert_sorted x acc) l [].

(** The state the three passes thread: [detected] and [used_columns]. *)
Record detection := mkDetection {
  detected : gmap string (string * Confidence);
  used_columns : gset string
}.

(** The inner loop [for col in columns], common to the three passes: the
    first column that is not used, not excluded, and passes [test]. *)
Definition first_column (test : string -> bool) (config : FieldConfig)
    (used : gset string) (cols : list string) : option string :=
  find (fun col => negb (bool_decide (col ∈ used))
                   && negb (_should_exclude_column col config)
                   && test col) cols.

(** [detected[field] = (col, conf); used_columns.add(col)] *)
Definition claim (field col : string) (conf : Confidence) (d : detection) : detection :=
  mkDetection (<[field := (col, conf)]> (detected d)) ({[col]} ∪ used_columns d).

(** First pass: score at least 0.8, HIGH. *)
Definition pass1_field (cols : list string) (d : detection)
    (item : string * FieldConfig) : detection :=
  let (field, config) := item in
  let test col := Qle_bool (8 # 10)%Q (snd (_fuzzy_match col (names config) default_threshold)) in
  match first_column test config (used_columns d) cols with
  | Some col => claim field col HIGH d
  | None => d
  end.

(** Second pass: fields still undetected, threshold 0.4, MEDIUM. *)
Definition pass2_field (cols : list string) (d : detection)
    (item : string * FieldConfig) : detection :=
  let (field, config) := item in
  if bool_decide (is_Some (detected d !! field)) then d
  else
    let test col := fst (_fuzzy_match col (names config) (4 # 10)%Q) in
    match first_column test config (used_columns d) cols with
    | Some col => claim field col MEDIUM d
    | None => d
    end.

Definition critical_fields : list string :=
  ["numero_documento"; "fecha_nacimiento"; "nacionalidad"].

(** [df[col].dropna().head(10).astype(str)] *)
Definition sample (df : DataFrame) (col : string) : list string :=
  map py_str (take 10 (filter (fun v => isna v = false) (map (fun row => row_get row col) (rows df)))).

(** The number of sampled values that match one of the patterns. *)
Definition count_matches (patterns : list Re.pattern) (values : list string) : nat :=
  length (filter (fun v => existsb (fun p => Re.re_match p (Py.strip v)) patterns = true) values).

(** [matches >= len(sample) * 0.5] *)
Definition content_test (df : DataFrame) (patterns : list Re.pattern) (col : string) : bool :=
  let values := sample df col in
  (length values <=? 2 * count_matches patterns values)%nat.

(** [cls.FIELD_PATTERNS.get(field, {}).get('content_patterns', [])] and the
    configuration the exclusions are read from. *)
Definition config_of (field : string) : FieldConfig :=
  default (mkConfig [] [] [] None)
          (snd <$> find (fun item => String.eqb (fst item) field) FIELD_PATTERNS).

(** Third pass: content of the columns, for the critical fields, LOW. *)
Definition pass3_field (df : DataFrame) (d : detection) (field : string) : detection :=
  if bool_decide (is_Some (detected d !! field)) then d
  else
    let config := config_of field in
    match content_patterns config with
    | [] => d
    | _ :: _ =>
        match first_column (content_test df (content_patterns config)) config
                           (used_columns d) (columns df) with
        | Some col => claim field col LOW d
        | None => d
        end
    end.

Definition sorted_fields : list (string * FieldConfig) := sorted FIELD_PATTERNS.

(** The state after the first, the second and the third pass. *)
Definition pass1_state (df : DataFrame) : detection :=
  fold_left (pass1_field (columns df)) sorted_fields (mkDetection ∅ ∅).

Definition pass2_state (df : DataFrame) : detection :=
  fold_left (pass2_field (columns df)) sorted_fields (pass1_state df).

Definition detect_state (df : DataFrame) : detection :=
  fold_left (pass3_field df) critical_fields (pass2_state df).

Definition detect_columns (df : DataFrame) : gmap string (string * Confidence) :=
  detected (detect_state df).

End ColumnDetector.

(** ** Results of code that can raise *)

(** The value of a computation, or the text of the exception it raised. *)
Inductive result (A : Type) :=
| Ok (a : A)
| Raised (message : string).

Arguments Ok {A} a.
Arguments Raised {A} message.

(** Sequencing: an exception ends the computation. *)
#[global] Instance result_bind : MBind result := fun A B k r =>
  match r with
  | Ok a => k a
  | Raised message => Raised message
  end.

(** ** Date parser *)

Module DateParser.

Definition FORMATS : list string :=
  [ "%d/%m/%Y"; "%Y-%m-%d"; "%d-%m-%Y"; "%m/%d/%Y";
    "%d.%m.%Y"; "%Y/%m/%d"; "%d %b %Y"; "%d %B %Y" ].

(** *** [datetime.strptime], for the directives these formats use

    [strptime] turns the format into a regular expression, matches it at
    the start of the text with backtracking, refuses text left over, and
    builds the date, which checks the year and the day of the month. *)

Inductive directive :=
| Day          (* %d *)
| Month        (* %m *)
| Year         (* %Y *)
| AbbrMonth    (* %b *)
| FullMonth    (* %B *)
| Lit (c : ascii)
| Space.       (* a run of whitespace in the format: \s+ *)

(** The directives of a format text; [None] on a directive outside the
    five above.  [in_ws] tells that the previous character was whitespace. *)
Fixpoint compile_go (in_ws : bool) (l : list ascii) : option (list directive) :=
  match l with
  | [] => Some []
  | c :: l' =>
      if Ascii.eqb c "%" then
        match l' with
        | d :: l'' =>
            let item :=
              if Ascii.eqb d "d" then Some Day
              else if Ascii.eqb d "m" then Some Month
              else if Ascii.eqb d "Y" then Some Year
              else if Ascii.eqb d "b" then Some AbbrMonth
              else if Ascii.eqb d "B" then Some FullMonth
              else None in
            match item, compile_go false l'' with
            | Some it, Some rest => Some (it :: rest)
            | _, _ => None
            end
        | [] => None
        end
      else if Py.isspace c then
        if in_ws then compile_go true l'
        else cons Space <$> compile_go true l'
      else cons (Lit c) <$> compile_go false l'
  end.

Definition compile (fmt : string) : option (list directive) := compile_go false (Py.chars fmt).

Definition digit_value (c : ascii) : Z := Z.of_nat (Py.code c - 48).

Definition month_abbr : list string :=
  ["jan"; "feb"; "mar"; "apr"; "may"; "jun"; "jul"; "aug"; "sep"; "oct"; "nov"; "dec"].

Definition month_name : list string :=
  ["january"; "february"; "march"; "april"; "may"; "june"; "july"; "august";
   "september"; "october"; "november"; "december"].

(** The months whose name starts the text, ignoring case, with the rest. *)
Fixpoint month_candidates (names : list string) (number : Z) (l : list ascii)
    : list (Z * list ascii) :=
  match names with
  | [] => []
  | name :: rest =>
      let n := Py.len name in
      (if Py.is_prefix (Py.chars name) (map Py.lower_char (take n l))
       then [(number, drop n l)] else [])
      ++ month_candidates rest (number + 1) l
  end.

(** The ways [\s+] can match, longest first. *)
Fixpoint space_candidates (l : list ascii) : list (Z * list ascii) :=
  match l with
  | c :: l' => if Py.isspace c then space_candidates l' ++ [(0%Z, l')] else []
  | [] => []
  end.

(** The ways one directive can match at the start of [l], in the order the
    regular expression tries its alternatives, each with the value read
    and the text left. *)
Definition candidates (item : directive) (l : list ascii) : list (Z * list ascii) :=
  match item with
  | Day =>
      (* 3[0-1]|[1-2]\d|0[1-9]|[1-9]| [1-9] *)
      match l with
      | a :: l1 =>
          (match l1 with
           | b :: l2 =>
               (if Ascii.eqb a "3" && Py.in_range 48 49 b
                then [(30 + digit_value b, l2)%Z] else [])
               ++ (if Py.in_range 49 50 a && Py.isdigit b
                   then [(10 * digit_value a + digit_value b, l2)%Z] else [])
               ++ (if Ascii.eqb a "0" && Py.in_range 49 57 b
                   then [(digit_value b, l2)] else [])
           | [] => []
           end)
          ++ (if Py.in_range 49 57 a then [(digit_value a, l1)] else [])
          ++ (match l1 with
              | b :: l2 => if Ascii.eqb a " " && Py.in_range 49 57 b
                           then [(digit_value b, l2)] else []
              | [] => []
              end)
      | [] => []
      end
  | Month =>
      (* 1[0-2]|0[1-9]|[1-9] *)
      match l with
      | a :: l1 =>
          (match l1 with
           | b :: l2 =>
               (if Ascii.eqb a "1" && Py.in_range 48 50 b
                then [(10 + digit_value b, l2)%Z] else [])
               ++ (if Ascii.eqb a "0" && Py.in_range 49 57 b
                   then [(digit_value b, l2)] else [])
           | [] => []
           end)
          ++ (if Py.in_range 49 57 a then [(digit_value a, l1)] else [])
      | [] => []
      end
  | Year =>
      (* \d\d\d\d *)
      match l with
      | a :: b :: c :: d :: l4 =>
          if Py.isdigit a && Py.isdigit b && Py.isdigit c && Py.isdigit d
          then [(1000 * digit_value a + 100 * digit_value b
                 + 10 * digit_value c + digit_value d, l4)%Z]
          else []
      | _ => []
      end
  | AbbrMonth => month_candidates month_abbr 1 l
  | FullMonth => month_candidates month_name 1 l
  | Lit c =>
      match l with
      | a :: l1 => if Ascii.eqb (Py.lower_char a) (Py.lower_char c) then [(0%Z, l1)] else []
      | [] => []
      end
  | Space => space_candidates l
  end.

(** Year, month and day read so far; [strptime] starts from 1900-01-01. *)
Record fields := mkFields { f_year : Z; f_month : Z; f_day : Z }.

Definition store (item : directive) (v : Z) (f : fields) : fields :=
  match item with
  | Day => mkFields (f_year f) (f_month f) v
  | Month | AbbrMonth | FullMonth => mkFields (f_year f) v (f_day f)
  | Year => mkFields v (f_month f) (f_day f)
  | Lit _ | Space => f
  end.

(** The first way, in the order of the alternatives, to match all the
    directives: the fields and the text left. *)
Fixpoint run (items : list directive) (l : list ascii) (f : fields)
    : option (fields * list ascii) :=
  match items with
  | [] => Some (f, l)
  | item :: rest =>
      (fix try (cands : list (Z * list ascii)) : option (fields * list ascii) :=
         match cands with
         | [] => None
         | (v, l') :: more =>
             match run rest l' (store item v f) with
             | Some r => Some r
             | None => try more
             end
         end) (candidates item l)
  end.

Definition is_leap (y : Z) : bool :=
  ((y mod 4 =? 0) && (negb (y mod 100 =? 0) || (y mod 400 =? 0)))%Z.

Definition days_in_month (y m : Z) : Z :=
  if (m =? 2)%Z then (if is_leap y then 29 else 28)%Z
  else if ((m =? 4) || (m =? 6) || (m =? 9) || (m =? 11))%Z then 30%Z
  else 31%Z.

(** [datetime.strptime(date_string, fmt)]: the date, or [None] where
    Python raises [ValueError]. *)
Definition strptime (date_string fmt : string) : option (Z * Z * Z) :=
  match compile fmt with
  | None => None
  | Some items =>
      match run items (Py.chars date_string) (mkFields 1900 1 1) with
      | Some (f, []) =>
          if ((1 <=? f_year f) && (1 <=? f_day f)
              && (f_day f <=? days_in_month (f_year f) (f_month f)))%Z
          then Some (f_year f, f_month f, f_day f)
          else None
      | _ => None
      end
  end.

(** [d.strftime('%d/%m/%Y')] *)
Definition strftime (y m d : Z) : string :=
  Py.pad 2 d +:+ "/" +:+ Py.pad 2 m +:+ "/" +:+ Py.pad 4 y.

(** The loop over [FORMATS]: the first format that parses the text to a
    year within 1900 .. now + 1. *)
Fixpoint try_formats (now_year : Z) (date_str : string) (fmts : list string)
    : string * Confidence :=
  match fmts with
  | [] => ("", LOW)
  | fmt :: rest =>
      match strptime date_str fmt with
      | Some (y, m, d) =>
          if ((1900 <=? y) && (y <=? now_year + 1))%Z
          then (strftime y m d,
                if existsb (String.eqb fmt) ["%d/%m/%Y"; "%Y-%m-%d"] then HIGH else MEDIUM)
          else try_formats now_year date_str rest
      | None => try_formats now_year date_str rest
      end
  end.

(** The text the formats are tried on: [str(date_val).strip()] cut at its
    first whitespace when it holds a space. *)
Definition first_token (date_str : string) : result string :=
  if Py.contains " " date_str
  then match Py.split date_str with
       | w :: _ => Ok w
       | [] => Raised "list index out of range"
       end
  else Ok date_str.

Definition is_none (v : cell) : bool := match v with CNone => true | _ => false end.

Definition parse (now_year : Z) (date_val : cell) : result (string * Confidence) :=
  if is_none date_val || is_nan_or_empty date_val then Ok ("", NONE)
  else
    match date_val with
    | CTimestamp y m d => Ok (strftime y m d, HIGH)
    | CNaT => Raised "NaTType does not support strftime"
    | _ =>
        let date_str := Py.strip (py_str date_val) in
        if String.eqb date_str ""
           || existsb (String.eqb (Py.lower date_str)) ["nan"; "none"; "nat"; ""]
        then Ok ("", NONE)
        else
          date_str ← first_token date_str;
          Ok (try_formats now_year date_str FORMATS)
    end.

End DateParser.

(** ** Text normaliser *)

Module TextNormalizer.

(** The class [a-zA-ZÀ-ÿ\s\-\'] kept by [normalize_name]. *)
Definition is_name_char (c : ascii) : bool :=
  Py.is_lower_az c || Py.is_upper_az c || Py.in_range 192 255 c || Py.isspace c
  || Ascii.eqb c "-" || Ascii.eqb c "'".

Definition normalize_name (text : cell) : string :=
  if absent text then ""
  else
    let text := py_str text in
    let normalized := Py.keep is_name_char text in
    let normalized := Py.strip (Py.collapse_ws normalized) in
    Py.upper normalized.

(** [parts[:-1]] and [parts[:-2]] *)
Definition drop_last (k : nat) (parts : list string) : list string :=
  take (length parts - k) parts.

(** [parts[-1]] and [parts[-2]] of a list that is long enough. *)
Definition from_end (k : nat) (parts : list string) : string :=
  default "" (parts !! (length parts - k)%nat).

(** Returns (primer_apellido, segundo_apellido, nombres). *)
Definition split_full_name (full_name : cell) : string * string * string :=
  if absent full_name then ("", "", "")
  else
    let parts := Py.split (normalize_name full_name) in
    match parts with
    | [] => ("", "", "")
    | [p0] => (p0, "", "")
    | [p0; p1] => (p1, "", p0)
    | [_; _; _] => (from_end 1 parts, "", Py.join " " (drop_last 1 parts))
    | _ => (from_end 2 parts, from_end 1 parts, Py.join " " (drop_last 2 parts))
    end.

End TextNormalizer.

(** ** Inference engine *)

Module InferenceEngine.

Definition infer_nationality_from_origin (procedencia : cell) : string * Confidence :=
  let (code, conf) := CountryCodes.get_code procedencia in
  if negb (String.eqb code "")
  then (code, if decide (conf = HIGH) then MEDIUM else LOW)
  else ("", NONE).

Definition infer_origin_from_nationality (nacionalidad : cell) : string * Confidence :=
  let (code, conf) := CountryCodes.get_code nacionalidad in
  if negb (String.eqb code "")
  then (code, if decide (conf = HIGH) then MEDIUM else LOW)
  else ("", NONE).

End InferenceEngine.

(** ** Document validator *)

Module DocumentValidator.

Definition msg_vacio : string := Eval vm_compute in Py.latin1 "Documento vacío".
Definition msg_corto : string := "Documento muy corto".
Definition msg_largo : string := "Documento muy largo".
Definition msg_invalido : string := Eval vm_compute in Py.latin1 "Documento inválido".
Definition msg_patron : string := Eval vm_compute in Py.latin1 "Documento con patrón inválido".

(** [len(set(text))] *)
Definition distinct_chars (text : string) : nat := length (remove_dups (Py.chars text)).

Definition validate_document (doc_number : string) : bool * string :=
  if String.eqb doc_number "" then (false, msg_vacio)
  else
    let doc_number := Py.upper (Py.strip doc_number) in
    if (Py.len doc_number <? 5)%nat then (false, msg_corto)
    else if (20 <? Py.len doc_number)%nat then (false, msg_largo)
    else if existsb (String.eqb doc_number) ["NAN"; "NONE"; "NULL"; "N/A"; "-"]
    then (false, msg_invalido)
    else if (distinct_chars (Py.remove_char "-" doc_number) =? 1)%nat
    then (false, msg_patron)
    else (true, "OK").

End DocumentValidator.

(** ** Converter *)

(** The counters of [self.stats]. *)
Record Stats := mkStats {
  total : nat;
  valid : nat;
  skipped : nat;
  colombianos : nat;
  duplicados : nat;
  inferidos : nat
}.

Definition incr_valid (s : Stats) : Stats :=
  mkStats (total s) (S (valid s)) (skipped s) (colombianos s) (duplicados s) (inferidos s).
Definition incr_skipped (s : Stats) : Stats :=
  mkStats (total s) (valid s) (S (skipped s)) (colombianos s) (duplicados s) (inferidos s).
Definition incr_colombianos (s : Stats) : Stats :=
  mkStats (total s) (valid s) (skipped s) (S (colombianos s)) (duplicados s) (inferidos s).
Definition incr_duplicados (s : Stats) : Stats :=
  mkStats (total s) (valid s) (skipped s) (colombianos s) (S (duplicados s)) (inferidos s).
Definition incr_inferidos (s : Stats) : Stats :=
  mkStats (total s) (valid s) (skipped s) (colombianos s) (duplicados s) (S (inferidos s)).

Module SireConverter.

(** The configuration given to [__init__]. *)
Record Config := mkConverter {
  hotel_code : string;
  city_code : string
}.

(** What [convert] mutates while it walks the rows: its local [lines] and
    [seen_keys], and [self.stats], [self.errors], [self.warnings]. *)
Record State := mkState {
  lines : list string;
  seen_keys : gset string;
  stats : Stats;
  errors_log : list string;
  warnings_log : list string
}.

Definition _get_value (column_map : gmap string (string * Confidence))
    (row : gmap string cell) (field : string) : cell :=
  match column_map !! field with
  | None => CNone
  | Some (col, _) => row_get row col
  end.

Definition has_field (column_map : gmap string (string * Confidence)) (field : string) : bool :=
  bool_decide (is_Some (column_map !! field)).

(** [field_result and field_result.value] of the final check *)
Definition filled (f : option FieldResult) : bool :=
  match f with
  | Some r => negb (String.eqb (value r) "")
  | None => false
  end.

(** The text read from the document cell before validation. *)
Definition document_text (doc_val : cell) : string :=
  let doc_str := if truthy doc_val then Py.strip (py_str doc_val) else "" in
  if existsb (String.eqb (Py.lower doc_str)) ["nan"; "none"; ""; "null"] then "" else doc_str.

(** The surname fields read from the column of [primer_apellido]. *)
Definition surnames_of (cell_value : cell) : FieldResult * FieldResult :=
  let apellido_raw := py_str (if truthy cell_value then cell_value else CStr "") in
  let apellido_parts := Py.split (Py.strip apellido_raw) in
  let (primer_ap, segundo_ap) :=
    if (2 <=? length apellido_parts)%nat
    then (TextNormalizer.normalize_name (CStr (default "" (head apellido_parts))),
          TextNormalizer.normalize_name (CStr (Py.join " " (tail apellido_parts))))
    else (TextNormalizer.normalize_name (CStr apellido_raw), "") in
  (Field3 primer_ap HIGH "primer_apellido",
   Field2 segundo_ap (if String.eqb segundo_ap "" then NONE else HIGH)).

(** The errors of the final check, in the order of [required_fields]. *)
Definition missing_fields (required_fields : list (string * option FieldResult)) : list string :=
  map (fun item => "Falta " +:+ fst item)
      (filter (fun item => filled (snd item) = false) required_fields).

(** The block "NOMBRES Y APELLIDOS" of [_process_guest]: [nombres],
    [primer_apellido], [segundo_apellido], and whether the branch that
    splits the full name, and counts an inferred field, was taken. *)
Definition names_block (column_map : gmap string (string * Confidence))
    (row : gmap string cell)
    : option FieldResult * option FieldResult * option FieldResult * bool :=
  let get := _get_value column_map row in
  let (primer_apellido, segundo_apellido) :=
    if has_field column_map "primer_apellido"
    then let (p, s) := surnames_of (get "primer_apellido") in (Some p, Some s)
    else (None, None) in
  if has_field column_map "nombres"
  then (Some (Field3 (TextNormalizer.normalize_name (get "nombres")) HIGH "nombres"),
        primer_apellido, segundo_apellido, false)
  else if has_field column_map "nombre_completo" && negb (bool_decide (is_Some primer_apellido))
  then let '(primer_ap, segundo_ap, nombres) :=
         TextNormalizer.split_full_name (get "nombre_completo") in
       (Some (Field3 nombres MEDIUM "nombre_completo (inferido)"),
        Some (Field3 primer_ap MEDIUM "nombre_completo (inferido)"),
        Some (Field2 segundo_ap MEDIUM),
        true)
  else (None, primer_apellido, segundo_apellido, false).

(** The block "NACIONALIDAD" up to the domestic check: the code, its
    confidence, the warnings so far, and whether the nationality was
    inferred from [procedencia], which counts an inferred field. *)
Definition nationality_block (column_map : gmap string (string * Confidence))
    (row : gmap string cell) : string * Confidence * list string * bool :=
  let get := _get_value column_map row in
  let (nac_code, nac_conf) := CountryCodes.get_code (get "nacionalidad") in
  if String.eqb nac_code "" && has_field column_map "procedencia"
  then let (code, conf) := InferenceEngine.infer_nationality_from_origin (get "procedencia") in
       if negb (String.eqb code "")
       then (code, conf, ["Nacionalidad inferida desde procedencia"], true)
       else (code, conf, [], false)
  else (nac_code, nac_conf, [], false).

(** The block "PROCEDENCIA": the field and the warnings after it. *)
Definition origin_block (proc_val : cell) (nacionalidad : FieldResult) (warnings : list string)
    : FieldResult * list string :=
  let (proc_code, proc_conf) := CountryCodes.get_code proc_val in
  let '(proc_code, proc_conf, warnings) :=
    if String.eqb proc_code "" && negb (String.eqb (value nacionalidad) "")
    then (value nacionalidad, LOW, warnings ++ ["Procedencia inferida desde nacionalidad"])
    else (proc_code, proc_conf, warnings) in
  let proc_value := if negb (String.eqb proc_code "") then proc_code else value nacionalidad in
  let proc_final_conf := if decide (proc_conf = NONE) then LOW else proc_conf in
  (Field2 proc_value proc_final_conf, warnings).

(** The block "DESTINO". *)
Definition destination_block (dest_val : cell) : FieldResult :=
  let (dest_code, dest_conf) := ColombianCities.get_colombia_code_if_city dest_val in
  let (dest_code, dest_conf) :=
    if String.eqb dest_code "" then CountryCodes.get_code dest_val else (dest_code, dest_conf) in
  let dest_value := if negb (String.eqb dest_code "") then dest_code else "169" in
  let dest_final_conf := if decide (dest_conf = NONE) then LOW else dest_conf in
  Field2 dest_value dest_final_conf.

(** The record [_process_guest] returns when the document is refused. *)
Definition refused (row_number : Z) (doc_msg : string) : GuestRecord :=
  mkGuest row_number None None None None None None None None None None
          false ["Documento: " +:+ doc_msg] [].

(** [_process_guest] after the domestic check: the blocks "FECHAS",
    "PROCEDENCIA", "DESTINO" and "VALIDACIÓN FINAL". *)
Definition complete_guest (now_year : Z) (column_map : gmap string (string * Confidence))
    (row : gmap string cell) (row_number : Z) (movement_type : string)
    (documento tipo_documento : FieldResult)
    (nombres primer_apellido segundo_apellido : option FieldResult)
    (nacionalidad : FieldResult) (warnings : list string) : result (option GuestRecord) :=
  let get := _get_value column_map row in
  let fecha_mov_val :=
    if String.eqb movement_type "E" then get "fecha_checkin" else get "fecha_checkout" in
  '(fecha_mov, fecha_mov_conf) ← DateParser.parse now_year fecha_mov_val;
  let fecha_movimiento := Field2 fecha_mov fecha_mov_conf in
  '(fecha_nac, fecha_nac_conf) ← DateParser.parse now_year (get "fecha_nacimiento");
  let fecha_nacimiento := Field2 fecha_nac fecha_nac_conf in
  let (procedencia, warnings) := origin_block (get "procedencia") nacionalidad warnings in
  let destino := destination_block (get "destino") in
  let required_fields :=
    [ ("documento", Some documento); ("nombres", nombres);
      ("primer_apellido", primer_apellido); ("nacionalidad", Some nacionalidad);
      ("fecha_movimiento", Some fecha_movimiento);
      ("fecha_nacimiento", Some fecha_nacimiento) ] in
  let errors := missing_fields required_fields in
  Ok (Some (mkGuest row_number (Some documento) (Some tipo_documento) nombres
                    primer_apellido segundo_apellido (Some nacionalidad)
                    (Some fecha_nacimiento) (Some fecha_movimiento)
                    (Some procedencia) (Some destino)
                    (bool_decide (errors = [])) errors warnings)).

(** [self.stats["inferidos"] += 1] where the block inferred a field. *)
Definition count_inferred (inferred : bool) (stats : Stats) : Stats :=
  if inferred then incr_inferidos stats else stats.

(** [_process_guest]: the new statistics and what the call returns:
    [Raised] for an exception, [Ok None] for a domestic row, [Ok (Some
    guest)] otherwise. *)
Definition _process_guest (now_year : Z) (column_map : gmap string (string * Confidence))
    (row : gmap string cell) (idx : Z) (movement_type : string) (stats : Stats)
    : Stats * result (option GuestRecord) :=
  let get := _get_value column_map row in
  let row_number := (idx + 2)%Z in
  let doc_str := document_text (get "numero_documento") in
  let (is_valid_doc, doc_msg) := DocumentValidator.validate_document doc_str in
  if negb is_valid_doc then (stats, Ok (Some (refused row_number doc_msg)))
  else
    let documento := Field3 doc_str HIGH "numero_documento" in
    let (tipo_code, tipo_conf) := DocumentTypes.get_code (get "tipo_documento") in
    let tipo_documento := Field3 tipo_code tipo_conf "tipo_documento" in
    let '(nombres, primer_apellido, segundo_apellido, inferred) :=
      names_block column_map row in
    let stats := count_inferred inferred stats in
    let '(nac_code, nac_conf, warnings, inferred) := nationality_block column_map row in
    let stats := count_inferred inferred stats in
    if String.eqb nac_code "169" then (stats, Ok None)
    else
      let nacionalidad := Field3 nac_code nac_conf "nacionalidad" in
      (stats,
       complete_guest now_year column_map row row_number movement_type
                      documento tipo_documento nombres primer_apellido segundo_apellido
                      nacionalidad warnings).

(** [x.value if x else d] *)
Definition value_or (d : string) (f : option FieldResult) : string :=
  match f with Some r => value r | None => d end.

(** The 13 fields of a line, in order. *)
Definition sire_fields (self : Config) (movement_type : string) (guest : GuestRecord)
    (documento fecha_movimiento : FieldResult) : list string :=
  [ hotel_code self;
    city_code self;
    value_or "3" (tipo_documento guest);
    value documento;
    value_or "" (nacionalidad guest);
    value_or "" (primer_apellido guest);
    value_or "" (segundo_apellido guest);
    value_or "" (nombres guest);
    movement_type;
    value fecha_movimiento;
    value_or "" (procedencia guest);
    value_or "169" (destino guest);
    value_or "" (fecha_nacimiento guest) ].

Definition tab : string := String (ascii_of_nat 9) "".

Definition fila (n : Z) (text : string) : string := "Fila " +:+ Py.str_of_Z n +:+ ": " +:+ text.

(** The [except Exception] handler of the loop. *)
Definition on_exception (idx : Z) (message : string) (stats : Stats) (st : State) : State :=
  mkState (lines st) (seen_keys st) (incr_skipped stats)
          (errors_log st ++ [fila (idx + 2) ("Error inesperado - " +:+ message)])%list
          (warnings_log st).

Definition unique_key (documento fecha_movimiento : FieldResult) (movement_type : string) : string :=
  value documento +:+ "|" +:+ value fecha_movimiento +:+ "|" +:+ movement_type.

(** One turn of the loop [for idx, row in df.iterrows()]. *)
Definition convert_row (self : Config) (now_year : Z)
    (column_map : gmap string (string * Confidence)) (movement_type : string)
    (st : State) (idx : Z) (row : gmap string cell) : State :=
  match _process_guest now_year column_map row idx movement_type (stats st) with
  | (stats, Raised message) => on_exception idx message stats st
  | (stats, Ok None) =>
      mkState (lines st) (seen_keys st) (incr_colombianos stats) (errors_log st) (warnings_log st)
  | (stats, Ok (Some guest)) =>
      if negb (is_valid guest)
      then mkState (lines st) (seen_keys st) (incr_skipped stats)
                   (errors_log st ++ map (fila (row_number guest)) (errors guest))%list
                   (warnings_log st)
      else
        match documento guest, fecha_movimiento guest with
        | Some documento, Some fecha_movimiento =>
            let key := unique_key documento fecha_movimiento movement_type in
            if bool_decide (key ∈ seen_keys st)
            then mkState (lines st) (seen_keys st) (incr_duplicados stats)
                         (errors_log st) (warnings_log st)
            else
              let fields := sire_fields self movement_type guest documento fecha_movimiento in
              mkState (lines st ++ [Py.join tab fields])%list ({[key]} ∪ seen_keys st)
                      (incr_valid stats) (errors_log st)
                      (warnings_log st ++ map (fila (row_number guest)) (warnings guest))%list
        | _, _ =>
            on_exception idx "'NoneType' object has no attribute 'value'" stats st
        end
  end.

Fixpoint convert_loop (self : Config) (now_year : Z)
    (column_map : gmap string (string * Confidence)) (movement_type : string)
    (st : State) (idx : Z) (rows : list (gmap string cell)) : State :=
  match rows with
  | [] => st
  | row :: rest =>
      convert_loop self now_year column_map movement_type
        (convert_row self now_year column_map movement_type st idx row) (idx + 1) rest
  end.

(** The state [convert] starts its loop from. *)
Definition initial (df : DataFrame) : State :=
  mkState [] ∅ (mkStats (length (rows df)) 0 0 0 0 0) [] [].

(** The state [convert] ends in. *)
Definition convert_state (self : Config) (now_year : Z) (df : DataFrame)
    (movement_type : string) : State :=
  let column_map := ColumnDetector.detect_columns df in
  convert_loop self now_year column_map movement_type (initial df) 0 (rows df).

(** [convert]: the lines and the statistics. *)
Definition convert (self : Config) (now_year : Z) (df : DataFrame)
    (movement_type : string) : list string * Stats :=
  let st := convert_state self now_year df movement_type in
  (lines st, stats st).

End SireConverter.

(** ** Definitions used by the statements *)

(** A text of [n] hyphens. *)
Definition hyphens (n : nat) : string := Py.str (replicate n "-"%char).

(** The word similarity as the amended claim words it.  It is 1 when the two
    texts are equal ignoring case.  Otherwise take the distinct
    whitespace-separated words of each lower-cased text: the similarity is 0
    when either text has no word, and else the number of words of the first
    that are also words of the second, divided by the larger of the two
    numbers of distinct words. *)
Definition word_similarity (a b : string) : Q :=
  if String.eqb (Py.lower a) (Py.lower b) then 1%Q
  else
    let words_a := remove_dups (Py.split (Py.lower a)) in
    let words_b := remove_dups (Py.split (Py.lower b)) in
    match words_a, words_b with
    | [], _ | _, [] => 0%Q
    | _, _ =>
        (inject_Z (Z.of_nat (length (filter (fun w => w ∈ words_b) words_a))) /
         inject_Z (Z.of_nat (Nat.max (length words_a) (length words_b))))%Q
    end.

(** The score as the specification words it, for one column name and one
    variant: 1 on case-insensitive equality, else the larger of
    [len(shorter)/len(longer) + 0.3] when one text contains the other and of
    the share of common words in the larger word set. *)
Definition spec_fuzzy_score (column variant : string) : Q :=
  let c := Py.lower column in
  let v := Py.lower variant in
  if String.eqb c v then 1%Q
  else
    let containment :=
      if Py.contains v c || Py.contains c v
      then (inject_Z (Z.of_nat (Nat.min (Py.len c) (Py.len v))) /
            inject_Z (Z.of_nat (Nat.max (Py.len c) (Py.len v))) + (3 # 10))%Q
      else 0%Q in
    let words1 : gset string := list_to_set (Py.split c) in
    let words2 : gset string := list_to_set (Py.split v) in
    let jaccard :=
      (inject_Z (Z.of_nat (size (words1 ∩ words2))) /
       inject_Z (Z.of_nat (Nat.max (size words1) (size words2))))%Q in
    Qmax containment jaccard.

(** A year the date parser accepts. *)
Definition sane_year (now_year y : Z) : Prop := (1900 <= y <= now_year + 1)%Z.




(** Every assigned column is in [used_columns], and no column is assigned
    to two fields. *)
Definition injective_on_used (d : ColumnDetector.detection) : Prop :=
  (forall field col conf,
      ColumnDetector.detected d !! field = Some (col, conf) -> col ∈ ColumnDetector.used_columns d)
  /\ (forall f1 f2 col c1 c2,
        ColumnDetector.detected d !! f1 = Some (col, c1) ->
        ColumnDetector.detected d !! f2 = Some (col, c2) -> f1 = f2).

(** The four buckets a row can fall in. *)
Definition buckets (s : Stats) : nat * nat * nat * nat :=
  (valid s, skipped s, colombianos s, duplicados s).

(** The scenario of the specification: one foreign guest, no type, origin or
    destination column. *)
Definition scenario_row : gmap string cell :=
  {[ "Numero Documento" := CStr "AB123456"; "Nombre" := CStr "MARIA";
     "Apellido" := CStr "GARCIA LOPEZ"; "Nacionalidad" := CStr "ESTADOS UNIDOS";
     "Fecha Nacimiento" := CStr "15/03/1990"; "Check-in" := CStr "01/06/2024" ]}.

Definition scenario_columns : list string :=
  ["Numero Documento"; "Nombre"; "Apellido"; "Nacionalidad"; "Fecha Nacimiento"; "Check-in"].

Definition scenario_frame : DataFrame := mkFrame scenario_columns [scenario_row].

(** The record [_process_guest] builds for that row. *)
Definition scenario_guest (row_number : Z) : GuestRecord :=
  mkGuest row_number
    (Some (Field3 "AB123456" HIGH "numero_documento"))
    (Some (Field3 "3" LOW "tipo_documento"))
    (Some (Field3 "MARIA" HIGH "nombres"))
    (Some (Field3 "GARCIA" HIGH "primer_apellido"))
    (Some (Field2 "LOPEZ" HIGH))
    (Some (Field3 "249" HIGH "nacionalidad"))
    (Some (Field2 "15/03/1990" HIGH))
    (Some (Field2 "01/06/2024" HIGH))
    (Some (Field2 "249" LOW))
    (Some (Field2 "169" LOW))
    true [] ["Procedencia inferida desde nacionalidad"].

(** A domestic guest whose document cell is empty. *)
Definition domestic_frame : DataFrame :=
  mkFrame ["Numero Documento"; "Nacionalidad"]
    [ {[ "Numero Documento" := CStr ""; "Nacionalidad" := CStr "COLOMBIA" ]} ].

(** What [_process_guest] returns for the row numbered [idx]; it does not
    depend on the counters. *)
Definition guest_of (now_year : Z) (column_map : gmap string (string * Confidence))
    (movement_type : string) (idx : nat) (row : gmap string cell) : result (option GuestRecord) :=
  snd (SireConverter._process_guest now_year column_map row (Z.of_nat idx) movement_type
         (mkStats 0 0 0 0 0 0)).

(** The row is emittable but for duplicates: [_process_guest] returns a
    valid record with this document and this movement date. *)
Definition emittable (now_year : Z) (column_map : gmap string (string * Confidence))
    (movement_type : string) (idx : nat) (row : gmap string cell)
    (guest : GuestRecord) (doc fecha : FieldResult) : Prop :=
  guest_of now_year column_map movement_type idx row = Ok (Some guest)
  /\ is_valid guest = true
  /\ documento guest = Some doc
  /\ fecha_movimiento guest = Some fecha.

(** The state of [convert] after its first [k] rows. *)
Definition state_after (self : SireConverter.Config) (now_year : Z) (df : DataFrame)
    (movement_type : string) (k : nat) : SireConverter.State :=
  SireConverter.convert_loop self now_year (ColumnDetector.detect_columns df) movement_type
    (SireConverter.initial df) 0 (take k (rows df)).


Definition demo_converter : SireConverter.Config := SireConverter.mkConverter "H1" "5001".

(** [(key, code)] is the first entry of the table, in its order, whose key
    satisfies [p]. *)
Definition first_match (p : string -> bool) (table : list (string * string))
    (key code : string) : Prop :=
  exists before rest,
    table = before ++ (key, code) :: rest
    /\ p key = true
    /\ forall kv, In kv before -> p (fst kv) = false.

(** Some key of the table satisfies [p]. *)
Definition some_key (p : string -> bool) (table : list (string * string)) : Prop :=
  exists key code, In (key, code) table /\ p key = true.

(** One text contains the other. *)
Definition either_contains (a b : string) : bool := Py.contains a b || Py.contains b a.

(** A document column found by its name, and two columns with no cell at
    all and names that resemble no variant. *)
Definition empty_columns_frame : DataFrame :=
  mkFrame ["Numero Documento"; "zz1"; "zz2"]
    [ {[ "Numero Documento" := CStr "AB123456" ]};
      {[ "Numero Documento" := CStr "CD789012"; "zz1" := CNone; "zz2" := CNaN ]} ].

(** The state of the third pass when it reaches the critical field that
    follows [before]. *)
Definition pass3_state_at (df : DataFrame) (before : list string) : ColumnDetector.detection :=
  fold_left (ColumnDetector.pass3_field df) before (ColumnDetector.pass2_state df).

(** At state [d], the field may take the column: the column is not used and
    not excluded for the field. *)
Definition open_for (d : ColumnDetector.detection) (field col : string) : Prop :=
  (col ∉ ColumnDetector.used_columns d)
  /\ ColumnDetector._should_exclude_column col (ColumnDetector.config_of field) = false.

(** The delimiter of the output lines, and the texts that do not hold it. *)
Definition tab_char : ascii := ascii_of_nat 9.

Definition tab_free (s : string) : bool :=
  forallb (fun c => negb (Ascii.eqb c tab_char)) (Py.chars s).

(** The nine fields of a line that are derived from the row, other than the
    document number, hold no delimiter. *)
Definition derived_fields_clean (g : GuestRecord) : Prop :=
  tab_free (SireConverter.value_or "3" (tipo_documento g)) = true
  /\ tab_free (SireConverter.value_or "" (nacionalidad g)) = true
  /\ tab_free (SireConverter.value_or "" (primer_apellido g)) = true
  /\ tab_free (SireConverter.value_or "" (segundo_apellido g)) = true
  /\ tab_free (SireConverter.value_or "" (nombres g)) = true
  /\ tab_free (SireConverter.value_or "" (procedencia g)) = true
  /\ tab_free (SireConverter.value_or "169" (destino g)) = true
  /\ tab_free (SireConverter.value_or "" (fecha_nacimiento g)) = true.

(** The scenario with a tab inside the document number. *)
Definition tabbed_frame : DataFrame :=
  mkFrame scenario_columns
    [ <[ "Numero Documento" := CStr ("AB" +:+ String tab_char "123456") ]> scenario_row ].

(** One turn of the loop adds one to exactly one bucket. *)
Definition one_more (b b' : nat * nat * nat * nat) : Prop :=
  let '(v, s, c, d) := b in
  b' = (S v, s, c, d) \/ b' = (v, S s, c, d) \/ b' = (v, s, S c, d) \/ b' = (v, s, c, S d).

(** The rows counted in some bucket. *)
Definition accounted (s : Stats) : nat := valid s + skipped s + colombianos s + duplicados s.

(** A domestic guest with an accepted document. *)
Definition domestic_row : gmap string cell :=
  {[ "Numero Documento" := CStr "CC1234567"; "Nacionalidad" := CStr "Colombia" ]}.

(** ** Definitions used by the further properties *)

(** What holds of a column assigned to a field: it is a column of the
    dataset, the field's configuration does not exclude it, and a LOW
    assignment is to a critical field that has content patterns. *)
Definition sound_assignment (df : DataFrame) (field col : string) (conf : Confidence) : Prop :=
  In col (columns df)
  /\ (exists config, In (field, config) ColumnDetector.FIELD_PATTERNS
                     /\ ColumnDetector._should_exclude_column col config = false)
  /\ (conf = LOW ->
      In field ColumnDetector.critical_fields
      /\ ColumnDetector.content_patterns (ColumnDetector.config_of field) <> []).

Definition sound_detection (df : DataFrame) (d : ColumnDetector.detection) : Prop :=
  forall field col conf,
    ColumnDetector.detected d !! field = Some (col, conf) -> sound_assignment df field col conf.

(** No format of the list parses the text to a year of the accepted range. *)
Definition all_formats_fail_in (now_year : Z) (date_str : string) (fmts : list string) : Prop :=
  forall fmt y m d, In fmt fmts ->
    DateParser.strptime date_str fmt = Some (y, m, d) -> ~ sane_year now_year y.

(** The non-empty pieces of a split name, in reading order: given names,
    first surname, second surname. *)
Definition name_pieces (r : string * string * string) : list string :=
  let '(primer_apellido, segundo_apellido, nombres) := r in
  List.filter (fun s => negb (String.eqb s "")) [nombres; primer_apellido; segundo_apellido].

(** The code points a normalised name is written with: the capital letters
    A-Z, U+00C0..U+00DE, the division sign U+00F7, U+0178 (the capital of
    U+00FF), the space, the hyphen and the apostrophe. *)
Definition normal_name_point (p : N) : bool :=
  ((65 <=? p) && (p <=? 90) || (192 <=? p) && (p <=? 222)
   || (p =? 247) || (p =? 376) || (p =? 32) || (p =? 45) || (p =? 39))%N.
(** ** Sanity checks of the string primitives *)

Example latin1_accents : Py.latin1 "CANADÁ" = "CANAD" +:+ String (ascii_of_nat 193) "".
Proof. reflexivity. Qed.

Example upper_accents : Py.upper (Py.latin1 "medellín ñu") = Py.latin1 "MEDELLÍN ÑU".
Proof. reflexivity. Qed.

(** The two capitals outside Latin-1, and the sharp s. *)
Example upper_outside_latin1 :
  Py.points_of_upper (Py.upper (Py.latin1 "ÿµß")) = [376%N; 924%N; 83%N; 83%N].
Proof. vm_compute. reflexivity. Qed.

Example split_demo : Py.split "  a  bc d " = ["a"; "bc"; "d"].
Proof. reflexivity. Qed.

Example collapse_demo : Py.collapse_ws " a   b " = " a b ".
Proof. reflexivity. Qed.

Example pad_demo : Py.pad 2 5 = "05" /\ Py.pad 4 2024 = "2024" /\ Py.str_of_Z 0 = "0".
Proof. repeat split; reflexivity. Qed.


Example country_exact : CountryCodes.get_code (CStr "Estados Unidos") = ("249", HIGH).
Proof. vm_compute. reflexivity. Qed.

Example country_colombia : CountryCodes.get_code (CStr " colombia ") = ("169", HIGH).
Proof. vm_compute. reflexivity. Qed.

Example country_partial : CountryCodes.get_code (CStr "Republica de Colombia") = ("169", MEDIUM).
Proof. vm_compute. reflexivity. Qed.

Example city_demo : ColombianCities.get_colombia_code_if_city (CStr (Py.latin1 "Medellín, Antioquia")) = ("169", HIGH).
Proof. vm_compute. reflexivity. Qed.

Example sorted_fields_order :
  map fst ColumnDetector.sorted_fields =
  ["tipo_documento"; "numero_documento"; "nombres"; "primer_apellido"; "nombre_completo";
   "nacionalidad"; "fecha_nacimiento"; "fecha_checkin"; "fecha_checkout"; "procedencia"; "destino"].
Proof. reflexivity. Qed.

Example detect_demo :
  let df := mkFrame ["Tipo de Documento"; "Numero Documento"; "Nombre"; "Apellidos"; "Pais"; "x1"]
                    [ {[ "x1" := CStr "01/02/1990" ]} ] in
  map (fun field => ColumnDetector.detect_columns df !! field)
      ["tipo_documento"; "numero_documento"; "nombres"; "fecha_nacimiento"; "destino"] =
  [ Some ("Tipo de Documento", HIGH); Some ("Numero Documento", HIGH);
    Some ("Nombre", HIGH); Some ("x1", LOW); None ].
Proof. vm_compute. reflexivity. Qed.

Example parse_dmy : DateParser.parse 2026 (CStr "15/03/1990") = Ok ("15/03/1990", HIGH).
Proof. vm_compute. reflexivity. Qed.

Example parse_iso_time : DateParser.parse 2026 (CStr "2024-06-01 14:30:00") = Ok ("01/06/2024", HIGH).
Proof. vm_compute. reflexivity. Qed.

Example parse_us : DateParser.parse 2026 (CStr "12/31/2024") = Ok ("31/12/2024", MEDIUM).
Proof. vm_compute. reflexivity. Qed.

Example parse_1899 : DateParser.parse 2026 (CStr "31/12/1899") = Ok ("", LOW).
Proof. vm_compute. reflexivity. Qed.

Example parse_1900 : DateParser.parse 2026 (CStr "01/01/1900") = Ok ("01/01/1900", HIGH).
Proof. vm_compute. reflexivity. Qed.

Example parse_feb30 : DateParser.parse 2026 (CStr "30/02/2024") = Ok ("", LOW).
Proof. vm_compute. reflexivity. Qed.

Example name_demo :
  TextNormalizer.normalize_name (CStr (Py.latin1 "  maria-josé  d'Arc 3rd ")) = Py.latin1 "MARIA-JOSÉ D'ARC RD".
Proof. vm_compute. reflexivity. Qed.

Example split3_demo : TextNormalizer.split_full_name (CStr "Ana Maria Lopez") = ("LOPEZ", "", "ANA MARIA").
Proof. vm_compute. reflexivity. Qed.

Example split4_demo :
  TextNormalizer.split_full_name (CStr "Ana Maria Lopez Diaz") = ("LOPEZ", "DIAZ", "ANA MARIA").
Proof. vm_compute. reflexivity. Qed.

Example validate_repeated : DocumentValidator.validate_document "11111111" = (false, DocumentValidator.msg_patron).
Proof. vm_compute. reflexivity. Qed.

Example validate_ok : DocumentValidator.validate_document "AB123456" = (true, "OK").
Proof. vm_compute. reflexivity. Qed.

Example scenario_converts :
  SireConverter.convert (SireConverter.mkConverter "H1" "5001") 2026 scenario_frame "E" =
  ([Py.join SireConverter.tab
      ["H1"; "5001"; "3"; "AB123456"; "249"; "GARCIA"; "LOPEZ"; "MARIA"; "E";
       "01/06/2024"; "249"; "169"; "15/03/1990"]],
   mkStats 1 1 0 0 0 0).
Proof. vm_compute. reflexivity. Qed.

(** * Lemmas on the string primitives *)

Lemma chars_str (l : list ascii) : Py.chars (Py.str l) = l.
Proof. apply list_ascii_of_string_of_list_ascii. Qed.

Lemma str_chars (s : string) : Py.str (Py.chars s) = s.
Proof. apply string_of_list_ascii_of_string. Qed.


Lemma eqb_false_neq (a b : string) : String.eqb a b = false <-> a <> b.
Proof. apply String.eqb_neq. Qed.







(** * Texts without the delimiter *)

Lemma tab_free_iff (s : string) :
  tab_free s = true <-> forall c, In c (Py.chars s) -> c <> tab_char.
Proof.
  unfold tab_free. rewrite forallb_forall. split; intros H c Hc.
  - specialize (H c Hc). apply negb_true_iff in H. apply Ascii.eqb_neq. exact H.
  - apply negb_true_iff, Ascii.eqb_neq. apply H. exact Hc.
Qed.

Lemma tab_free_str (l : list ascii) :
  (forall c, In c l -> c <> tab_char) -> tab_free (Py.str l) = true.
Proof. intros H. apply tab_free_iff. rewrite chars_str. exact H. Qed.

Lemma chars_append (a b : string) : Py.chars (a +:+ b) = Py.chars a ++ Py.chars b.
Proof.
  unfold Py.chars. induction a as [|c a IH]; [reflexivity|].
  cbn. rewrite <- IH. reflexivity.
Qed.

Lemma tab_free_append (a b : string) :
  tab_free a = true -> tab_free b = true -> tab_free (a +:+ b) = true.
Proof.
  rewrite !tab_free_iff, chars_append. intros Ha Hb c Hc.
  apply in_app_or in Hc. destruct Hc; auto.
Qed.

Lemma tab_free_empty : tab_free "" = true.
Proof. reflexivity. Qed.

(** [split_on] reads a text without the separator as one field. *)
Lemma split_on_go_free (sep : ascii) (cur l : list ascii) :
  (forall c, In c l -> c <> sep) -> Py.split_on_go sep cur l = [rev cur ++ l].
Proof.
  revert cur. induction l as [|a l IH]; intros cur H; cbn [Py.split_on_go].
  - rewrite app_nil_r. reflexivity.
  - rewrite (proj2 (Ascii.eqb_neq a sep)) by (apply H; left; reflexivity).
    rewrite IH by (intros c Hc; apply H; right; exact Hc).
    cbn [rev]. rewrite <- app_assoc. reflexivity.
Qed.

Lemma split_on_go_field (sep : ascii) (cur l rest : list ascii) :
  (forall c, In c l -> c <> sep) ->
  Py.split_on_go sep cur (l ++ sep :: rest) = (rev cur ++ l) :: Py.split_on_go sep [] rest.
Proof.
  revert cur. induction l as [|a l IH]; intros cur H; cbn [Py.split_on_go app].
  - rewrite Ascii.eqb_refl, app_nil_r. reflexivity.
  - rewrite (proj2 (Ascii.eqb_neq a sep)) by (apply H; left; reflexivity).
    rewrite IH by (intros c Hc; apply H; right; exact Hc).
    cbn [rev]. rewrite <- app_assoc. reflexivity.
Qed.

(** Splitting a line on the delimiter gives back the fields it was joined
    from, when no field holds the delimiter. *)
Lemma split_on_join (sep : ascii) (fields : list string) :
  fields <> [] ->
  (forall f, In f fields -> forall c, In c (Py.chars f) -> c <> sep) ->
  Py.split_on sep (Py.join (String sep "") fields) = fields.
Proof.
  unfold Py.split_on. induction fields as [|f fields IH]; [contradiction|].
  intros _ H. destruct fields as [|g fields].
  - cbn [Py.join]. rewrite split_on_go_free by (apply H; left; reflexivity).
    cbn. rewrite str_chars. reflexivity.
  - change (Py.join (String sep "") (f :: g :: fields))
      with (f +:+ String sep "" +:+ Py.join (String sep "") (g :: fields)).
    rewrite !chars_append. cbn [Py.chars list_ascii_of_string app].
    rewrite split_on_go_field by (apply H; left; reflexivity).
    cbn [map rev app]. rewrite str_chars. f_equal.
    apply IH; [discriminate|]. intros h Hh. apply H. right. exact Hh.
Qed.

Lemma in_drop_while (p : ascii -> bool) (l : list ascii) (c : ascii) :
  In c (Py.drop_while p l) -> In c l.
Proof.
  induction l as [|a l IH]; cbn [Py.drop_while]; [tauto|].
  destruct (p a); [intros H; right; apply IH, H | tauto].
Qed.

Lemma in_strip_chars (l : list ascii) (c : ascii) : In c (Py.strip_chars l) -> In c l.
Proof.
  unfold Py.strip_chars, Py.rstrip_chars, Py.lstrip_chars. intros H.
  apply in_rev, in_drop_while, in_rev in H. apply in_drop_while in H. exact H.
Qed.

Lemma tab_free_strip (s : string) : tab_free s = true -> tab_free (Py.strip s) = true.
Proof.
  intros H. apply tab_free_str. intros c Hc. apply in_strip_chars in Hc.
  apply (proj1 (tab_free_iff s) H c Hc).
Qed.

Lemma tab_is_space : Py.isspace tab_char = true.
Proof. reflexivity. Qed.

(** After [collapse_ws] the only whitespace left is the space. *)
Lemma in_collapse_go (in_ws : bool) (l : list ascii) (c : ascii) :
  In c (Py.collapse_go in_ws l) -> c <> tab_char.
Proof.
  revert in_ws. induction l as [|a l IH]; intros in_ws; cbn [Py.collapse_go]; [tauto|].
  destruct (Py.isspace a) eqn:E.
  - destruct in_ws; [apply IH|]. intros [<-|H]; [discriminate | exact (IH _ H)].
  - intros [<-|H]; [|exact (IH _ H)]. intros ->. rewrite tab_is_space in E. discriminate.
Qed.

Lemma tab_free_collapse (s : string) : tab_free (Py.collapse_ws s) = true.
Proof. apply tab_free_str. intros c. apply in_collapse_go. Qed.

(** Upper-casing makes no delimiter. *)
Lemma upper_chars_no_tab (c : ascii) :
  c <> tab_char -> forall x, In x (Py.upper_chars c) -> x <> tab_char.
Proof.
  intros Hc x Hx Heq. subst x. revert Hc Hx.
  destruct c as [[] [] [] [] [] [] [] []]; vm_compute; intuition congruence.
Qed.

Lemma tab_free_upper (s : string) : tab_free s = true -> tab_free (Py.upper s) = true.
Proof.
  intros H. apply tab_free_str. intros x Hx. apply in_flat_map in Hx.
  destruct Hx as (c & Hc & Hx). apply (upper_chars_no_tab c); [|exact Hx].
  apply (proj1 (tab_free_iff s) H c Hc).
Qed.

(** * The derived fields of a record hold no delimiter *)

Lemma tab_free_normalize_name (text : cell) :
  tab_free (TextNormalizer.normalize_name text) = true.
Proof.
  unfold TextNormalizer.normalize_name. destruct (absent text); [reflexivity|].
  apply tab_free_upper, tab_free_strip, tab_free_collapse.
Qed.

Lemma in_split_go (cur l t : list ascii) (c : ascii) :
  In t (Py.split_go cur l) -> In c t -> In c cur \/ In c l.
Proof.
  revert cur. induction l as [|a l IH]; intros cur; cbn [Py.split_go].
  - destruct cur as [|b cur]; [contradiction|].
    intros [<-|[]] Hc. left. apply in_rev. exact Hc.
  - destruct (Py.isspace a).
    + destruct cur as [|b cur].
      * intros Ht Hc. destruct (IH [] Ht Hc) as [[]|H]. right. right. exact H.
      * intros [<-|Ht] Hc.
        -- left. apply in_rev. exact Hc.
        -- destruct (IH [] Ht Hc) as [[]|H]. right. right. exact H.
    + intros Ht Hc. destruct (IH (a :: cur) Ht Hc) as [[<-|H]|H].
      * right. left. reflexivity.
      * left. exact H.
      * right. right. exact H.
Qed.

Lemma tab_free_split (s t : string) :
  tab_free s = true -> In t (Py.split s) -> tab_free t = true.
Proof.
  intros Hs Ht. unfold Py.split in Ht. apply in_map_iff in Ht.
  destruct Ht as (l & <- & Hl). apply tab_free_str. intros c Hc.
  destruct (in_split_go [] (Py.chars s) l c Hl Hc) as [[]|H].
  apply (proj1 (tab_free_iff s) Hs c H).
Qed.

Lemma tab_free_join (sep : string) (parts : list string) :
  tab_free sep = true -> (forall p, In p parts -> tab_free p = true) ->
  tab_free (Py.join sep parts) = true.
Proof.
  intros Hsep. induction parts as [|p parts IH]; intros H; [reflexivity|].
  destruct parts as [|q parts].
  - apply H. left. reflexivity.
  - change (Py.join sep (p :: q :: parts)) with (p +:+ sep +:+ Py.join sep (q :: parts)).
    apply tab_free_append; [apply H; left; reflexivity|].
    apply tab_free_append; [exact Hsep|]. apply IH. intros r Hr. apply H. right. exact Hr.
Qed.

Lemma in_take (n : nat) (l : list string) (x : string) : In x (take n l) -> In x l.
Proof.
  revert n. induction l as [|y l IH]; intros [|n]; cbn; try tauto.
  intros [<-|H]; [left; reflexivity | right; exact (IH n H)].
Qed.

Lemma tab_free_from_end (k : nat) (parts : list string) :
  (forall p, In p parts -> tab_free p = true) ->
  tab_free (TextNormalizer.from_end k parts) = true.
Proof.
  intros H. unfold TextNormalizer.from_end.
  destruct (parts !! (length parts - k)%nat) as [p|] eqn:E; [|reflexivity].
  apply H. apply list_elem_of_In. eapply list_elem_of_lookup_2. exact E.
Qed.

Lemma tab_free_drop_last_join (k : nat) (parts : list string) :
  (forall p, In p parts -> tab_free p = true) ->
  tab_free (Py.join " " (TextNormalizer.drop_last k parts)) = true.
Proof.
  intros H. apply tab_free_join; [reflexivity|].
  intros p Hp. apply H. unfold TextNormalizer.drop_last in Hp. eapply in_take. exact Hp.
Qed.

Lemma tab_free_split_full_name (full_name : cell) :
  let '(primer_ap, segundo_ap, nombres) := TextNormalizer.split_full_name full_name in
  tab_free primer_ap = true /\ tab_free segundo_ap = true /\ tab_free nombres = true.
Proof.
  unfold TextNormalizer.split_full_name. destruct (absent full_name); [repeat split|].
  pose proof (fun t => tab_free_split _ t (tab_free_normalize_name full_name)) as H.
  destruct (Py.split (TextNormalizer.normalize_name full_name)) as [|p0 [|p1 [|p2 [|p3 parts]]]].
  - repeat split.
  - repeat split. apply H. left. reflexivity.
  - repeat split; apply H; cbn; tauto.
  - repeat split; [apply tab_free_from_end, H | apply tab_free_drop_last_join, H].
  - repeat split;
      [apply tab_free_from_end, H | apply tab_free_from_end, H | apply tab_free_drop_last_join, H].
Qed.

Lemma tab_free_surnames_of (v : cell) :
  tab_free (value (fst (SireConverter.surnames_of v))) = true
  /\ tab_free (value (snd (SireConverter.surnames_of v))) = true.
Proof.
  unfold SireConverter.surnames_of.
  destruct (2 <=? length _)%nat; cbn; split;
    first [apply tab_free_normalize_name | reflexivity].
Qed.

(** Numbers and dates. *)
Lemma tab_free_string_of_uint (d : Decimal.uint) : tab_free (NilEmpty.string_of_uint d) = true.
Proof.
  induction d; cbn [NilEmpty.string_of_uint]; [reflexivity|..];
    (apply (tab_free_append (String _ "") _); [reflexivity | exact IHd]).
Qed.

Lemma tab_free_str_of_Z (n : Z) : tab_free (Py.str_of_Z n) = true.
Proof.
  unfold Py.str_of_Z, NilZero.string_of_int, NilZero.string_of_uint.
  destruct (Z.to_int n) as [d|d].
  - destruct d; try reflexivity; apply tab_free_string_of_uint.
  - apply (tab_free_append "-" _); [reflexivity|].
    destruct d; try reflexivity; apply tab_free_string_of_uint.
Qed.

Lemma tab_free_zeros (k : nat) : tab_free (Py.zeros k) = true.
Proof.
  induction k as [|k IH]; [reflexivity|].
  apply (tab_free_append "0" _); [reflexivity | exact IH].
Qed.

Lemma tab_free_pad (w : nat) (n : Z) : tab_free (Py.pad w n) = true.
Proof.
  unfold Py.pad. apply tab_free_append; [apply tab_free_zeros | apply tab_free_str_of_Z].
Qed.

Lemma tab_free_strftime (y m d : Z) : tab_free (DateParser.strftime y m d) = true.
Proof.
  unfold DateParser.strftime.
  repeat (apply tab_free_append; [first [apply tab_free_pad | reflexivity]|]).
  apply tab_free_pad.
Qed.

Lemma tab_free_try_formats (now_year : Z) (date_str : string) (fmts : list string) :
  tab_free (fst (DateParser.try_formats now_year date_str fmts)) = true.
Proof.
  induction fmts as [|fmt fmts IH]; [reflexivity|]. cbn [DateParser.try_formats].
  destruct (DateParser.strptime date_str fmt) as [[[y m] d]|]; [|exact IH].
  destruct (_ && _); [apply tab_free_strftime | exact IH].
Qed.

Lemma tab_free_parse (now_year : Z) (date_val : cell) (text : string) (conf : Confidence) :
  DateParser.parse now_year date_val = Ok (text, conf) -> tab_free text = true.
Proof.
  unfold DateParser.parse.
  destruct (_ || _); [intros [= <- _]; reflexivity|].
  assert (Hstr : forall s,
    (if String.eqb s "" || existsb (String.eqb (Py.lower s)) ["nan"; "none"; "nat"; ""]
     then Ok ("", NONE)
     else DateParser.first_token s ≫= λ date_str : string,
            Ok (DateParser.try_formats now_year date_str DateParser.FORMATS)) = Ok (text, conf) ->
    tab_free text = true).
  { intros s. destruct (_ || _); [intros [= <- _]; reflexivity|].
    destruct (DateParser.first_token s) as [tok|msg]; cbn [mbind result_bind]; [|discriminate].
    intros H. pose proof (tab_free_try_formats now_year tok DateParser.FORMATS) as Hc.
    replace (DateParser.try_formats now_year tok DateParser.FORMATS) with (text, conf) in Hc
      by congruence.
    exact Hc. }
  destruct date_val; try apply Hstr.
  - discriminate.
  - intros [= <- _]. apply tab_free_strftime.
Qed.

Lemma country_table_clean :
  forallb (fun kv => tab_free (snd kv)) CountryCodes.CODES = true.
Proof. vm_compute. reflexivity. Qed.

Lemma document_table_clean :
  forallb (fun kv => tab_free (snd kv)) DocumentTypes.CODES = true.
Proof. vm_compute. reflexivity. Qed.

Lemma found_clean (p : string * string -> bool) (table : list (string * string))
    (kv : string * string) :
  forallb (fun kv => tab_free (snd kv)) table = true ->
  find p table = Some kv -> tab_free (snd kv) = true.
Proof.
  intros Hclean Hfind. apply find_some in Hfind. destruct Hfind as [Hin _].
  exact (proj1 (forallb_forall _ _) Hclean kv Hin).
Qed.

Lemma word_match_clean (words : list string) (kv : string * string) :
  CountryCodes.word_match words = Some kv -> tab_free (snd kv) = true.
Proof.
  induction words as [|w words IH]; cbn [CountryCodes.word_match]; [discriminate|].
  destruct (3 <=? Py.len w)%nat; [|exact IH].
  destruct (find _ CountryCodes.CODES) as [kv'|] eqn:E; [|exact IH].
  intros [= <-]. exact (found_clean _ _ _ country_table_clean E).
Qed.

Lemma table_get_clean (key : string) (table : list (string * string)) (code : string) :
  forallb (fun kv => tab_free (snd kv)) table = true ->
  table_get key table = Some code -> tab_free code = true.
Proof.
  intros Hclean. unfold table_get.
  destruct (find _ table) as [kv|] eqn:E; cbn; [|discriminate].
  intros [= <-]. exact (found_clean _ _ _ Hclean E).
Qed.

Lemma tab_free_country_code (country : cell) :
  tab_free (fst (CountryCodes.get_code country)) = true.
Proof.
  unfold CountryCodes.get_code. destruct (absent country); [reflexivity|].
  destruct (table_get _ CountryCodes.CODES) as [code|] eqn:E; cbn [fst].
  - exact (table_get_clean _ _ _ country_table_clean E).
  - destruct (CountryCodes.partial_match _) as [kv|] eqn:E2; cbn [fst].
    + exact (found_clean _ _ _ country_table_clean E2).
    + destruct (CountryCodes.word_match _) as [kv|] eqn:E3; cbn [fst]; [|reflexivity].
      exact (word_match_clean _ _ E3).
Qed.

Lemma tab_free_document_type (doc_type : cell) :
  tab_free (fst (DocumentTypes.get_code doc_type)) = true.
Proof.
  unfold DocumentTypes.get_code. destruct (absent doc_type); [reflexivity|].
  destruct (find _ DocumentTypes.CODES) as [kv|] eqn:E; cbn [fst].
  - exact (found_clean _ _ _ document_table_clean E).
  - repeat (destruct (DocumentTypes.any_in _ _); [reflexivity|]). reflexivity.
Qed.

Lemma tab_free_infer_nationality (procedencia : cell) :
  tab_free (fst (InferenceEngine.infer_nationality_from_origin procedencia)) = true.
Proof.
  unfold InferenceEngine.infer_nationality_from_origin.
  pose proof (tab_free_country_code procedencia) as H.
  destruct (CountryCodes.get_code procedencia) as [code conf]. cbn [fst] in H.
  destruct (negb _); [exact H | reflexivity].
Qed.

Section CleanBlocks.

Import SireConverter.

Variables (column_map : gmap string (string * Confidence)) (row : gmap string cell).

Lemma names_block_clean :
  let '(nombres, primer_apellido, segundo_apellido, _) := names_block column_map row in
  tab_free (value_or "" nombres) = true
  /\ tab_free (value_or "" primer_apellido) = true
  /\ tab_free (value_or "" segundo_apellido) = true.
Proof.
  unfold names_block.
  pose proof (tab_free_surnames_of (_get_value column_map row "primer_apellido")) as [Hp Hs].
  pose proof (tab_free_split_full_name (_get_value column_map row "nombre_completo")) as Hf.
  pose proof (tab_free_normalize_name (_get_value column_map row "nombres")) as Hn.
  destruct (surnames_of _) as [p s]. cbn [fst snd] in Hp, Hs.
  destruct (TextNormalizer.split_full_name _) as [[pa sa] n]. destruct Hf as (Hf1 & Hf2 & Hf3).
  destruct (has_field column_map "primer_apellido");
    destruct (has_field column_map "nombres");
    destruct (has_field column_map "nombre_completo"); cbn; auto.
Qed.

Lemma nationality_block_clean :
  let '(nac_code, _, _, _) := nationality_block column_map row in
  tab_free nac_code = true.
Proof.
  unfold nationality_block.
  pose proof (tab_free_country_code (_get_value column_map row "nacionalidad")) as Hc.
  pose proof (tab_free_infer_nationality (_get_value column_map row "procedencia")) as Hi.
  destruct (CountryCodes.get_code _) as [code conf]. cbn [fst] in Hc.
  destruct (InferenceEngine.infer_nationality_from_origin _) as [icode iconf]. cbn [fst] in Hi.
  destruct (_ && _); [|exact Hc]. destruct (negb _); exact Hi.
Qed.

Lemma origin_block_clean proc_val nacionalidad warnings :
  tab_free (value nacionalidad) = true ->
  tab_free (value (fst (origin_block proc_val nacionalidad warnings))) = true.
Proof.
  intros Hn. unfold origin_block.
  pose proof (tab_free_country_code proc_val) as Hc.
  destruct (CountryCodes.get_code proc_val) as [code conf]. cbn [fst] in Hc.
  destruct (String.eqb code "" && negb (String.eqb (value nacionalidad) "")); cbn.
  - destruct (negb _); exact Hn.
  - destruct (negb _); [exact Hc | exact Hn].
Qed.

Lemma destination_block_clean dest_val :
  tab_free (value (destination_block dest_val)) = true.
Proof.
  unfold destination_block, ColombianCities.get_colombia_code_if_city.
  pose proof (tab_free_country_code dest_val) as Hc.
  destruct (fst (ColombianCities.is_colombian_city dest_val)); cbn; [reflexivity|].
  destruct (CountryCodes.get_code dest_val) as [code conf]. cbn [fst] in Hc. cbn.
  destruct (negb _); [exact Hc | reflexivity].
Qed.

(** What [complete_guest] returns, when it returns a record. *)
Lemma complete_guest_fields now_year row_number movement_type doc tipo
    noms primer segundo nac warns guest :
  complete_guest now_year column_map row row_number movement_type doc tipo
                 noms primer segundo nac warns = Ok (Some guest) ->
  tab_free (value nac) = true ->
  documento guest = Some doc
  /\ tipo_documento guest = Some tipo
  /\ nombres guest = noms
  /\ primer_apellido guest = primer
  /\ segundo_apellido guest = segundo
  /\ nacionalidad guest = Some nac
  /\ (exists fecha, fecha_movimiento guest = Some fecha /\ tab_free (value fecha) = true)
  /\ tab_free (value_or "" (fecha_nacimiento guest)) = true
  /\ tab_free (value_or "" (procedencia guest)) = true
  /\ tab_free (value_or "169" (destino guest)) = true.
Proof.
  intros H Hn. unfold complete_guest in H.
  destruct (DateParser.parse now_year (if String.eqb movement_type "E" then _ else _))
    as [[fm fmc]|msg] eqn:Em; cbn [mbind result_bind] in H; [|discriminate].
  destruct (DateParser.parse now_year (_get_value column_map row "fecha_nacimiento"))
    as [[fn fnc]|msg] eqn:En; cbn [mbind result_bind] in H; [|discriminate].
  pose proof (origin_block_clean (_get_value column_map row "procedencia") nac warns Hn) as Ho.
  destruct (origin_block _ nac warns) as [proc w]. cbn [fst] in Ho.
  injection H as <-. cbn.
  repeat split; try reflexivity.
  - eexists. split; [reflexivity|]. cbn. eapply tab_free_parse. exact Em.
  - eapply tab_free_parse. exact En.
  - exact Ho.
  - apply destination_block_clean.
Qed.

End CleanBlocks.

(** * Properties *)

(** ** Document validator *)

(** C10. A document number made only of hyphens, 5 to 20 of them, is
    accepted with message "OK": without its hyphens it has no character
    left, so its set of characters has size 0, not 1, and no other rule
    rejects it. *)
Theorem validate_document_hyphens (n : nat) :
  (5 <= n <= 20)%nat ->
  DocumentValidator.distinct_chars (Py.remove_char "-" (Py.upper (Py.strip (hyphens n)))) = 0%nat
  /\ DocumentValidator.validate_document (hyphens n) = (true, "OK").
Proof.
  intros [Hlo Hhi].
  do 21 (destruct n as [|n]; [first [lia | split; vm_compute; reflexivity] |]).
  lia.
Qed.

Lemma validate_document_hyphens_witness :
  (5 <= 5 <= 20)%nat /\ DocumentValidator.validate_document "-----" = (true, "OK").
Proof.
  split; [lia | apply (validate_document_hyphens 5); lia].
Defined.

(** ** Fuzzy score of the column detector *)

Lemma Qmax_zero_l (x : Q) : (0 <= x)%Q -> (Qmax 0 x == x)%Q.
Proof. intros H. apply Q.max_r. exact H. Qed.

Lemma ratio_nonneg (a b : nat) : (0 <= inject_Z (Z.of_nat a) / inject_Z (Z.of_nat b))%Q.
Proof.
  destruct b as [|b].
  - unfold Qdiv, Qinv. simpl. rewrite Qmult_0_r. apply Qle_refl.
  - apply Qle_shift_div_l.
    + unfold Qlt, inject_Z. simpl. lia.
    + rewrite Qmult_0_l. unfold Qle, inject_Z. simpl. lia.
Qed.

Lemma containment_score_nonneg (c p : string) : (0 <= ColumnDetector.containment_score c p)%Q.
Proof.
  unfold ColumnDetector.containment_score.
  apply Qle_trans with (0 + 0)%Q; [apply Qle_refl|].
  apply Qplus_le_compat; [apply ratio_nonneg | unfold Qle; simpl; lia].
Qed.

(** C3, as stated, fails: for the column "doc" and the variant "doc type"
    the code scores 8/8 + 0.3 = 1.3, the stated formula 3/8 + 0.3. *)
Lemma fuzzy_score_counterexample :
  (snd (ColumnDetector._fuzzy_match "doc" ["doc type"] ColumnDetector.default_threshold) == 13 # 10)%Q
  /\ (spec_fuzzy_score "doc" "doc type" == 27 # 40)%Q
  /\ ~ (snd (ColumnDetector._fuzzy_match "doc" ["doc type"] ColumnDetector.default_threshold)
        == spec_fuzzy_score "doc" "doc type")%Q.
Proof.
  repeat split; try (vm_compute; reflexivity).
  vm_compute. discriminate.
Qed.

(** The word sets of [_similarity], counted on lists without duplicates. *)
Lemma words_set (l : list string) :
  (list_to_set l : gset string) = list_to_set (remove_dups l).
Proof.
  apply set_eq. intros x. rewrite !elem_of_list_to_set, elem_of_remove_dups. reflexivity.
Qed.

Lemma words_size (l : list string) :
  size (list_to_set l : gset string) = length (remove_dups l).
Proof. rewrite words_set. apply size_list_to_set, NoDup_remove_dups. Qed.

Lemma words_empty (l : list string) :
  (list_to_set l : gset string) = ∅ <-> remove_dups l = [].
Proof.
  split; intros H.
  - apply (f_equal size) in H. rewrite words_size, size_empty in H.
    apply nil_length_inv. exact H.
  - rewrite words_set, H. reflexivity.
Qed.

Lemma words_common (l1 l2 : list string) :
  size ((list_to_set l1 : gset string) ∩ list_to_set l2)
  = length (filter (fun w => w ∈ remove_dups l2) (remove_dups l1)).
Proof.
  rewrite <- (size_list_to_set (C := gset string))
    by (apply NoDup_filter, NoDup_remove_dups).
  f_equal. apply set_eq. intros x.
  rewrite elem_of_intersection, !elem_of_list_to_set, list_elem_of_filter,
    !elem_of_remove_dups.
  tauto.
Qed.

(** [_similarity] computes the word similarity of the amended claim. *)
Lemma similarity_words (a b : string) :
  ColumnDetector._similarity a b = word_similarity a b.
Proof.
  unfold ColumnDetector._similarity, word_similarity.
  destruct (String.eqb (Py.lower a) (Py.lower b)); [reflexivity|].
  rewrite words_common, !words_size.
  destruct (remove_dups (Py.split (Py.lower a))) as [|x xs] eqn:Ea.
  - rewrite bool_decide_eq_true_2 by (apply words_empty; exact Ea). reflexivity.
  - rewrite (bool_decide_eq_false_2 (list_to_set (Py.split (Py.lower a)) = ∅))
      by (rewrite words_empty, Ea; discriminate).
    destruct (remove_dups (Py.split (Py.lower b))) as [|y ys] eqn:Eb.
    + rewrite bool_decide_eq_true_2 by (apply words_empty; exact Eb). reflexivity.
    + rewrite bool_decide_eq_false_2 by (rewrite words_empty, Eb; discriminate).
      reflexivity.
Qed.

(** C3, amended.  For a column name, lower-cased and stripped, and one
    variant, the score is 1 when the two are equal, and otherwise the larger
    of (a) [len(variant) / max(len(column), len(variant)) + 0.3] when one
    contains the other, and (b) the word similarity: 1 when the two are
    equal ignoring case, 0 when either has no word, and else the number of
    distinct words the two share divided by the larger number of distinct
    words. *)
Theorem fuzzy_match_score (column variant : string) (threshold : Q) :
  let col_lower := Py.strip (Py.lower column) in
  (snd (ColumnDetector._fuzzy_match column [variant] threshold) ==
   if String.eqb col_lower variant then 1
   else Qmax (if Py.contains variant col_lower || Py.contains col_lower variant
              then inject_Z (Z.of_nat (Py.len variant)) /
                   inject_Z (Z.of_nat (Nat.max (Py.len col_lower) (Py.len variant))) + (3 # 10)
              else 0)
             (word_similarity col_lower variant))%Q.
Proof.
  intros col_lower. unfold ColumnDetector._fuzzy_match. fold col_lower. simpl.
  destruct (String.eqb col_lower variant); simpl; [reflexivity|].
  unfold ColumnDetector.fuzzy_step. rewrite similarity_words.
  destruct (Py.contains variant col_lower || Py.contains col_lower variant).
  - fold (ColumnDetector.containment_score col_lower variant).
    rewrite (Qmax_zero_l _ (containment_score_nonneg col_lower variant)). reflexivity.
  - reflexivity.
Qed.

(** ** Date parser *)






(** ** Column detection *)

Section DetectionInvariant.

Import ColumnDetector.

Lemma empty_injective : injective_on_used (mkDetection ∅ ∅).
Proof.
  split; simpl; intros *; rewrite lookup_empty; discriminate.
Qed.

Lemma first_column_unused test config used cols col :
  first_column test config used cols = Some col -> col ∉ used.
Proof.
  unfold first_column. intros H. apply find_some in H. destruct H as [_ H].
  apply andb_true_iff in H. destruct H as [H _].
  apply andb_true_iff in H. destruct H as [H _].
  apply negb_true_iff, bool_decide_eq_false in H. exact H.
Qed.

Lemma claim_injective field col conf d :
  col ∉ used_columns d -> injective_on_used d -> injective_on_used (claim field col conf d).
Proof.
  intros Hfresh [Hused Hinj]. split; simpl.
  - intros f c k. rewrite lookup_insert_Some.
    intros [[_ [= <- _]] | [_ Hl]]; [set_solver|].
    apply Hused in Hl. set_solver.
  - intros f1 f2 c k1 k2. rewrite !lookup_insert_Some.
    intros [[<- [= <- _]] | [Hn1 H1]] [[<- E2] | [Hn2 H2]].
    + reflexivity.
    + exfalso. apply Hfresh. eapply Hused. exact H2.
    + exfalso. injection E2 as <- _. apply Hfresh. eapply Hused. exact H1.
    + eapply Hinj; eassumption.
Qed.

Lemma pass1_field_injective cols d item :
  injective_on_used d -> injective_on_used (pass1_field cols d item).
Proof.
  intros Hd. destruct item as [field config]. unfold pass1_field.
  destruct (first_column _ config (used_columns d) cols) as [col|] eqn:E; [|exact Hd].
  apply claim_injective; [|exact Hd]. eapply first_column_unused. exact E.
Qed.

Lemma pass2_field_injective cols d item :
  injective_on_used d -> injective_on_used (pass2_field cols d item).
Proof.
  intros Hd. destruct item as [field config]. unfold pass2_field.
  destruct (bool_decide _); [exact Hd|].
  destruct (first_column _ config (used_columns d) cols) as [col|] eqn:E; [|exact Hd].
  apply claim_injective; [|exact Hd]. eapply first_column_unused. exact E.
Qed.

Lemma pass3_field_injective df d field :
  injective_on_used d -> injective_on_used (pass3_field df d field).
Proof.
  intros Hd. unfold pass3_field.
  destruct (bool_decide _); [exact Hd|].
  destruct (content_patterns (config_of field)) as [|p ps]; [exact Hd|].
  destruct (first_column _ _ (used_columns d) (columns df)) as [col|] eqn:E; [|exact Hd].
  apply claim_injective; [|exact Hd]. eapply first_column_unused. exact E.
Qed.

Lemma fold_left_invariant {A B : Type} (P : A -> Prop) (f : A -> B -> A) (l : list B) (a : A) :
  (forall a b, P a -> P (f a b)) -> P a -> P (fold_left f l a).
Proof.
  intros Hstep. revert a. induction l as [|b l IH]; intros a Ha; simpl; [exact Ha|].
  apply IH, Hstep, Ha.
Qed.

Lemma detect_state_injective df : injective_on_used (detect_state df).
Proof.
  unfold detect_state, pass2_state, pass1_state.
  apply fold_left_invariant; [intros; apply pass3_field_injective; assumption|].
  apply fold_left_invariant; [intros; apply pass2_field_injective; assumption|].
  apply fold_left_invariant; [intros; apply pass1_field_injective; assumption|].
  apply empty_injective.
Qed.

(** An assigned column is in [used_columns] at the end. *)
Lemma detect_columns_used df field col conf :
  detect_columns df !! field = Some (col, conf) -> col ∈ used_columns (detect_state df).
Proof.
  unfold detect_columns. apply (proj1 (detect_state_injective df)).
Qed.

End DetectionInvariant.

(** C8. The map [detect_columns] returns is injective: a source column is
    the assigned column of at most one canonical field, whatever pass
    assigned it. *)
Theorem detect_columns_injective (df : DataFrame) (f1 f2 col : string) (c1 c2 : Confidence) :
  ColumnDetector.detect_columns df !! f1 = Some (col, c1) ->
  ColumnDetector.detect_columns df !! f2 = Some (col, c2) ->
  f1 = f2.
Proof.
  unfold ColumnDetector.detect_columns.
  apply (detect_state_injective df).
Qed.

Lemma detect_columns_injective_witness :
  ColumnDetector.detect_columns scenario_frame !! "nombres" = Some ("Nombre", HIGH)
  /\ "nombres" = "nombres".
Proof.
  split; [vm_compute; reflexivity|].
  apply (detect_columns_injective scenario_frame "nombres" "nombres" "Nombre" HIGH HIGH);
    vm_compute; reflexivity.
Defined.

(** ** The conversion loop *)

Section ConvertLoop.

Import SireConverter.

Variables (self : Config) (now_year : Z) (column_map : gmap string (string * Confidence))
          (movement_type : string).

Lemma count_inferred_buckets b s :
  total (count_inferred b s) = total s /\ buckets (count_inferred b s) = buckets s.
Proof. destruct b; split; reflexivity. Qed.

(** [_process_guest] touches no counter but [inferidos]. *)
Lemma process_guest_buckets row idx s :
  let s' := fst (_process_guest now_year column_map row idx movement_type s) in
  total s' = total s /\ buckets s' = buckets s.
Proof.
  unfold _process_guest.
  destruct (DocumentValidator.validate_document _) as [[] msg]; cbn [negb fst];
    [|split; reflexivity].
  destruct (DocumentTypes.get_code _) as [tc tf].
  destruct (names_block column_map row) as [[[n p] sg] i1].
  destruct (nationality_block column_map row) as [[[nc nf] w] i2].
  destruct (count_inferred_buckets i1 s) as [Ht1 Hb1].
  destruct (count_inferred_buckets i2 (count_inferred i1 s)) as [Ht2 Hb2].
  destruct (String.eqb nc "169"); cbn [fst]; rewrite Ht2, Hb2, Ht1, Hb1; split; reflexivity.
Qed.

(** What [_process_guest] returns does not depend on the counters. *)
Lemma process_guest_outcome row idx s s' :
  snd (_process_guest now_year column_map row idx movement_type s) =
  snd (_process_guest now_year column_map row idx movement_type s').
Proof.
  unfold _process_guest.
  destruct (DocumentValidator.validate_document _) as [[] msg]; cbn [negb snd];
    [|reflexivity].
  destruct (DocumentTypes.get_code _) as [tc tf].
  destruct (names_block column_map row) as [[[n p] sg] i1].
  destruct (nationality_block column_map row) as [[[nc nf] w] i2].
  destruct (String.eqb nc "169"); reflexivity.
Qed.

Lemma convert_row_counts st idx row :
  let st' := convert_row self now_year column_map movement_type st idx row in
  total (stats st') = total (stats st) /\ one_more (buckets (stats st)) (buckets (stats st')).
Proof.
  unfold convert_row.
  pose proof (process_guest_buckets row idx (stats st)) as [Ht Hb].
  destruct (_process_guest now_year column_map row idx movement_type (stats st)) as [s' r].
  cbn [fst] in Ht, Hb. unfold buckets in *. injection Hb as Hv Hs Hc Hd.
  unfold one_more.
  destruct r as [[guest|]|message]; cbn.
  - destruct (is_valid guest); cbn; [|rewrite Ht, Hv, Hs, Hc, Hd; tauto].
    destruct (documento guest), (fecha_movimiento guest); cbn;
      try (rewrite Ht, Hv, Hs, Hc, Hd; tauto).
    destruct (bool_decide _); cbn; rewrite Ht, Hv, Hs, Hc, Hd; tauto.
  - rewrite Ht, Hv, Hs, Hc, Hd; tauto.
  - rewrite Ht, Hv, Hs, Hc, Hd; tauto.
Qed.

Lemma one_more_accounted s s' :
  one_more (buckets s) (buckets s') -> accounted s' = S (accounted s).
Proof.
  unfold one_more, buckets, accounted.
  intros [H|[H|[H|H]]]; injection H as -> -> -> ->; lia.
Qed.

Lemma convert_loop_counts rows st idx :
  let st' := convert_loop self now_year column_map movement_type st idx rows in
  total (stats st') = total (stats st)
  /\ accounted (stats st') = (accounted (stats st) + length rows)%nat.
Proof.
  revert st idx. induction rows as [|row rows IH]; intros st idx; cbn.
  - split; [reflexivity | lia].
  - destruct (IH (convert_row self now_year column_map movement_type st idx row) (idx + 1)%Z)
      as [Ht Ha].
    destruct (convert_row_counts st idx row) as [Ht1 H1].
    apply one_more_accounted in H1.
    cbn in Ht, Ha. rewrite Ht, Ha, Ht1, H1. split; [reflexivity | lia].
Qed.

(** A row whose nationality resolves to "169" adds no line; when its
    document is accepted it is counted in [colombianos] alone. *)
Lemma convert_row_domestic st idx row :
  fst (CountryCodes.get_code (_get_value column_map row "nacionalidad")) = "169" ->
  let st' := convert_row self now_year column_map movement_type st idx row in
  lines st' = lines st
  /\ (fst (DocumentValidator.validate_document
             (document_text (_get_value column_map row "numero_documento"))) = true ->
      buckets (stats st') =
      (valid (stats st), skipped (stats st), S (colombianos (stats st)), duplicados (stats st))).
Proof.
  intros Hnac. unfold convert_row.
  pose proof (process_guest_buckets row idx (stats st)) as [_ Hb]. revert Hb.
  unfold _process_guest.
  destruct (DocumentValidator.validate_document _) as [[] msg]; cbn [negb fst].
  - destruct (DocumentTypes.get_code _) as [tc tf].
    destruct (names_block column_map row) as [[[n p] sg] i1].
    unfold nationality_block.
    destruct (CountryCodes.get_code (_get_value column_map row "nacionalidad")) as [nc nf].
    cbn [fst] in Hnac. subst nc. cbn.
    intros Hb. split; [reflexivity|]. intros _.
    unfold buckets in *. cbn. injection Hb as -> -> -> ->. reflexivity.
  - intros _. cbn. split; [reflexivity | discriminate].
Qed.






Lemma convert_loop_app l1 l2 st idx :
  convert_loop self now_year column_map movement_type st idx (l1 ++ l2) =
  convert_loop self now_year column_map movement_type
    (convert_loop self now_year column_map movement_type st idx l1)
    (idx + Z.of_nat (length l1)) l2.
Proof.
  revert st idx. induction l1 as [|r l1 IH]; intros st idx; cbn [convert_loop app length].
  - f_equal. lia.
  - rewrite IH. f_equal. lia.
Qed.

End ConvertLoop.

(** C1. When [convert] returns, [total == valid + skipped + colombianos +
    duplicados]: each turn of its loop adds one to exactly one of the four
    buckets, and [inferidos] is in none of them. *)
Theorem convert_accounts_for_every_row (self : SireConverter.Config) (now_year : Z)
    (df : DataFrame) (movement_type : string) :
  let s := snd (SireConverter.convert self now_year df movement_type) in
  (total s = valid s + skipped s + colombianos s + duplicados s)%nat
  /\ forall column_map st idx row,
       one_more (buckets (SireConverter.stats st))
                (buckets (SireConverter.stats
                   (SireConverter.convert_row self now_year column_map movement_type st idx row))).
Proof.
  split.
  - unfold SireConverter.convert, SireConverter.convert_state. cbn [snd].
    destruct (convert_loop_counts self now_year (ColumnDetector.detect_columns df) movement_type
                (rows df) (SireConverter.initial df) 0%Z) as [Ht Ha].
    cbn in Ht, Ha. unfold accounted in Ha. cbn in Ha. lia.
  - intros column_map st idx row.
    apply (convert_row_counts self now_year column_map movement_type st idx row).
Qed.

(** ** Rows of a dataset: domestic rows and duplicates *)

Section Rows.

Import SireConverter.

Variables (self : Config) (now_year : Z) (df : DataFrame) (movement_type : string).

Local Abbreviation column_map := (ColumnDetector.detect_columns df).
Local Abbreviation after := (state_after self now_year df movement_type).

Lemma state_after_S k row :
  rows df !! k = Some row ->
  after (S k) = convert_row self now_year column_map movement_type (after k) (Z.of_nat k) row.
Proof.
  intros Hk. unfold state_after.
  rewrite (take_S_r _ _ _ Hk), convert_loop_app. cbn [convert_loop].
  rewrite length_take, Nat.min_l by (apply lookup_lt_Some in Hk; lia).
  reflexivity.
Qed.

Lemma state_after_ge k : (length (rows df) <= k)%nat -> after (S k) = after k.
Proof.
  intros Hk. unfold state_after. rewrite !take_ge by lia. reflexivity.
Qed.






End Rows.

(** C2, as stated, fails: the only row of [domestic_frame] has a nationality
    that resolves to "169" and an empty document; it is counted in
    [skipped], not in [colombianos]. *)
Lemma domestic_row_skipped_counterexample :
  CountryCodes.get_code (CStr "COLOMBIA") = ("169", HIGH)
  /\ SireConverter.convert demo_converter 2026 domestic_frame "E" = ([], mkStats 1 0 1 0 0 0).
Proof.
  split; vm_compute; reflexivity.
Qed.

(** C2, amended.  A row whose nationality value resolves to "169" adds no
    line to the output; when its document passes validation, the turn of
    the loop on it adds one to [colombianos] and leaves [skipped], [valid]
    and [duplicados] as they were. *)
Theorem domestic_row_counted (self : SireConverter.Config) (now_year : Z)
    (column_map : gmap string (string * Confidence)) (movement_type : string)
    (st : SireConverter.State) (idx : Z) (row : gmap string cell) :
  fst (CountryCodes.get_code (SireConverter._get_value column_map row "nacionalidad")) = "169" ->
  let st' := SireConverter.convert_row self now_year column_map movement_type st idx row in
  SireConverter.lines st' = SireConverter.lines st
  /\ (fst (DocumentValidator.validate_document
             (SireConverter.document_text
                (SireConverter._get_value column_map row "numero_documento"))) = true ->
      colombianos (SireConverter.stats st') = S (colombianos (SireConverter.stats st))
      /\ skipped (SireConverter.stats st') = skipped (SireConverter.stats st)
      /\ valid (SireConverter.stats st') = valid (SireConverter.stats st)
      /\ duplicados (SireConverter.stats st') = duplicados (SireConverter.stats st)).
Proof.
  intros Hnac st'.
  destruct (convert_row_domestic self now_year column_map movement_type st idx row Hnac)
    as [Hl Hb].
  split; [exact Hl|]. intros Hdoc. specialize (Hb Hdoc).
  unfold buckets in Hb. injection Hb as Hv Hs Hc Hd. auto.
Qed.

Lemma domestic_row_counted_witness :
  let column_map := ColumnDetector.detect_columns domestic_frame in
  let st := SireConverter.initial domestic_frame in
  let st' := SireConverter.convert_row demo_converter 2026 column_map "E" st 0 domestic_row in
  SireConverter.lines st' = SireConverter.lines st
  /\ colombianos (SireConverter.stats st') = S (colombianos (SireConverter.stats st)).
Proof.
  intros column_map st st'.
  destruct (domestic_row_counted demo_converter 2026 column_map "E" st 0 domestic_row)
    as [Hl Hb].
  - vm_compute. reflexivity.
  - split; [exact Hl|]. apply Hb. vm_compute. reflexivity.
Defined.



(** ** Reference resolvers *)

Lemma find_first_match (p : string -> bool) (table : list (string * string)) :
  some_key p table ->
  exists key code,
    find (fun kv => p (fst kv)) table = Some (key, code) /\ first_match p table key code.
Proof.
  intros (k0 & c0 & Hin & Hp).
  induction table as [|[k c] table IH]; [contradiction|].
  cbn [find fst]. destruct (p k) eqn:E.
  - exists k, c. split; [reflexivity|]. exists [], table. repeat split; [exact E|]. contradiction.
  - destruct Hin as [Heq|Hin]; [injection Heq as -> ->; congruence|].
    destruct (IH Hin) as (key & code & Hf & before & rest & Ht & Hk & Hb).
    exists key, code. split; [exact Hf|].
    exists ((k, c) :: before), rest. rewrite Ht. repeat split; [exact Hk|].
    intros kv [<-|Hkv]; [exact E | apply Hb, Hkv].
Qed.

Lemma country_partial_medium (text : cell) :
  let normalized := normalize_key (py_str text) in
  absent text = false ->
  table_get normalized CountryCodes.CODES = None ->
  some_key (either_contains normalized) CountryCodes.CODES ->
  exists key code,
    first_match (either_contains normalized) CountryCodes.CODES key code
    /\ CountryCodes.get_code text = (code, MEDIUM).
Proof.
  intros normalized Habs Hexact Hsome.
  destruct (find_first_match _ _ Hsome) as (key & code & Hfind & Hfirst).
  exists key, code. split; [exact Hfirst|].
  unfold CountryCodes.get_code. rewrite Habs. fold normalized. rewrite Hexact.
  unfold CountryCodes.partial_match. unfold either_contains in Hfind. rewrite Hfind.
  reflexivity.
Qed.

(** C4.  The code at the failing inputs.  "PASS" is not a key of the
    document types and is a substring of the key "PASSPORT": the loop the
    source comments as its exact match tests containment and answers HIGH,
    not MEDIUM.  "MEDEL" is not a city key and is a substring of the key
    "MEDELLIN": the source comments its test as "the text is contained in
    the city", tests whether the city is contained in the text, and finds
    nothing. *)
Lemma containment_failing_inputs :
  (table_get (Py.strip (Py.upper "PASS")) DocumentTypes.CODES = None
   /\ Py.contains (Py.strip (Py.upper "PASS")) "PASSPORT" = true
   /\ DocumentTypes.get_code (CStr "PASS") = ("3", HIGH))
  /\ (table_get (normalize_key "MEDEL") ColombianCities.CITIES = None
      /\ (5 <= Py.len (normalize_key "MEDEL"))%nat
      /\ Py.contains (normalize_key "MEDEL") "MEDELLIN" = true
      /\ ColombianCities.is_colombian_city (CStr "MEDEL") = (false, "")
      /\ ColombianCities.get_colombia_code_if_city (CStr "MEDEL") = ("", NONE)).
Proof.
  repeat split; vm_compute; first [reflexivity | lia].
Qed.

(** X21.  The country resolver follows the containment step: for an input
    that is not empty and whose normalised text is no key of the table but
    contains a key or is contained in one, it answers the code of the first
    such key, in table order, with MEDIUM confidence. *)
Theorem country_containment_medium (text : cell) :
  absent text = false ->
  table_get (normalize_key (py_str text)) CountryCodes.CODES = None ->
  some_key (either_contains (normalize_key (py_str text))) CountryCodes.CODES ->
  exists key code,
    first_match (either_contains (normalize_key (py_str text))) CountryCodes.CODES key code
    /\ CountryCodes.get_code text = (code, MEDIUM).
Proof.
  intros Habs Hexact Hsome.
  destruct (country_partial_medium text Habs Hexact Hsome) as (key & code & Hfirst & Hget).
  exists key, code. split; [exact Hfirst | exact Hget].
Qed.

Lemma country_containment_medium_witness :
  CountryCodes.get_code (CStr "Republica de Colombia") = ("169", MEDIUM).
Proof.
  destruct (country_containment_medium (CStr "Republica de Colombia")) as (key & code & _ & Hget).
  - reflexivity.
  - vm_compute. reflexivity.
  - exists "COLOMBIA", "169". split; vm_compute; tauto.
  - rewrite Hget. f_equal.
    assert (E : fst (CountryCodes.get_code (CStr "Republica de Colombia")) = "169")
      by (vm_compute; reflexivity).
    rewrite Hget in E. exact E.
Defined.

(** ** Third pass of the detection *)

Section ThirdPass.

Import ColumnDetector.

Lemma find_first {A : Type} (p : A -> bool) (before : list A) (x : A) (rest : list A) :
  p x = true -> (forall y, In y before -> p y = false) ->
  find p (before ++ x :: rest) = Some x.
Proof.
  intros Hx Hb. induction before as [|y before IH]; cbn [app find].
  - rewrite Hx. reflexivity.
  - rewrite (Hb y) by (left; reflexivity). apply IH. intros z Hz. apply Hb. right. exact Hz.
Qed.

(** A sample with no value passes the test of any field. *)
Lemma content_test_empty df patterns col :
  sample df col = [] -> content_test df patterns col = true.
Proof. unfold content_test. intros ->. reflexivity. Qed.

(** Once a field is detected, the third pass leaves it alone. *)
Lemma pass3_field_keeps df d field field' assigned :
  detected d !! field = Some assigned ->
  detected (pass3_field df d field') !! field = Some assigned.
Proof.
  intros H. unfold pass3_field.
  destruct (bool_decide (is_Some (detected d !! field'))) eqn:E; [exact H|].
  destruct (content_patterns (config_of field')); [exact H|].
  destruct (first_column _ _ _ _); [|exact H].
  cbn [claim detected]. rewrite lookup_insert_ne; [exact H|].
  intros ->. apply bool_decide_eq_false in E. apply E. rewrite H. eauto.
Qed.

Lemma pass3_fold_keeps df fields d field assigned :
  detected d !! field = Some assigned ->
  detected (fold_left (pass3_field df) fields d) !! field = Some assigned.
Proof.
  revert d. induction fields as [|f fields IH]; intros d H; cbn [fold_left]; [exact H|].
  apply IH, pass3_field_keeps, H.
Qed.

(** The turn of the third pass on an undetected field with content
    patterns: it claims the first open column that passes the test. *)
Lemma pass3_field_claims df d field cols_before col cols_rest :
  detected d !! field = None ->
  content_patterns (config_of field) <> [] ->
  columns df = cols_before ++ col :: cols_rest ->
  open_for d field col ->
  content_test df (content_patterns (config_of field)) col = true ->
  (forall c, In c cols_before ->
     ~ open_for d field c
     \/ content_test df (content_patterns (config_of field)) c = false) ->
  pass3_field df d field = claim field col LOW d.
Proof.
  intros Hnone Hpat Hcols [Hfree Hexcl] Htest Hbefore. unfold pass3_field.
  rewrite bool_decide_eq_false_2 by (rewrite Hnone; intros [? ?]; discriminate).
  destruct (content_patterns (config_of field)) as [|p ps] eqn:Ep; [contradiction|].
  unfold first_column. rewrite Hcols, (find_first _ cols_before col cols_rest); [reflexivity| |].
  - rewrite bool_decide_eq_false_2 by exact Hfree. rewrite Hexcl, Htest. reflexivity.
  - intros c Hc. destruct (Hbefore c Hc) as [Hopen|Hfail].
    + destruct (decide (c ∈ used_columns d)) as [Hin|Hnin].
      * rewrite bool_decide_eq_true_2 by exact Hin. reflexivity.
      * rewrite bool_decide_eq_false_2 by exact Hnin. cbn [negb andb].
        destruct (_should_exclude_column c (config_of field)) eqn:Ex; [reflexivity|].
        exfalso. apply Hopen. split; assumption.
    + rewrite Hfail. apply andb_false_r.
Qed.

(** A column outside [used_columns] at the end is assigned to no field. *)
Lemma unused_never_assigned df col :
  bool_decide (col ∈ used_columns (detect_state df)) = false ->
  forall field conf, detect_columns df !! field <> Some (col, conf).
Proof.
  intros Hfree field conf H. apply bool_decide_eq_false in Hfree. apply Hfree.
  exact (detect_columns_used df field col conf H).
Qed.

End ThirdPass.

(** C9, as stated, fails: in [empty_columns_frame] the columns "zz1" and
    "zz2" have no cell; after the second pass both are unclaimed,
    [fecha_nacimiento] is the first unclaimed critical field with content
    patterns and excludes neither; it claims "zz1", and "zz2", whose empty
    sample passes the test as well, is claimed by no field. *)
Lemma empty_column_unclaimed_counterexample :
  ColumnDetector.sample empty_columns_frame "zz2" = []
  /\ ColumnDetector.content_test empty_columns_frame
       (ColumnDetector.content_patterns (ColumnDetector.config_of "fecha_nacimiento")) "zz2" = true
  /\ bool_decide ("zz2" ∈ ColumnDetector.used_columns (ColumnDetector.pass2_state empty_columns_frame))
     = false
  /\ ColumnDetector.detected (ColumnDetector.pass2_state empty_columns_frame) !! "numero_documento"
     = Some ("Numero Documento", HIGH)
  /\ ColumnDetector.detected (ColumnDetector.pass2_state empty_columns_frame) !! "fecha_nacimiento"
     = None
  /\ ColumnDetector._should_exclude_column "zz2" (ColumnDetector.config_of "fecha_nacimiento") = false
  /\ ColumnDetector.detect_columns empty_columns_frame !! "fecha_nacimiento" = Some ("zz1", LOW)
  /\ forall field conf,
       ColumnDetector.detect_columns empty_columns_frame !! field <> Some ("zz2", conf).
Proof.
  split; [vm_compute; reflexivity|].
  split; [vm_compute; reflexivity|].
  split; [vm_compute; reflexivity|].
  split; [vm_compute; reflexivity|].
  split; [vm_compute; reflexivity|].
  split; [vm_compute; reflexivity|].
  split; [vm_compute; reflexivity|].
  apply unused_never_assigned. vm_compute. reflexivity.
Qed.

(** C9, amended.  In the third pass, when a critical field is reached that
    is still undetected and has content patterns, a column that it may take
    (unclaimed, not excluded) and whose sample of non-empty cells is empty
    passes the test at 0 matches of 0 and is claimed by that field at LOW
    confidence, provided every column before it, in column order, is
    claimed, excluded or fails the test: a field claims one column only. *)
Theorem empty_column_claimed (df : DataFrame) (before : list string) (field : string)
    (rest : list string) (cols_before : list string) (col : string) (cols_rest : list string) :
  let d := pass3_state_at df before in
  let patterns := ColumnDetector.content_patterns (ColumnDetector.config_of field) in
  ColumnDetector.critical_fields = before ++ field :: rest ->
  ColumnDetector.detected d !! field = None ->
  patterns <> [] ->
  columns df = cols_before ++ col :: cols_rest ->
  open_for d field col ->
  ColumnDetector.sample df col = [] ->
  (forall c, In c cols_before ->
     ~ open_for d field c \/ ColumnDetector.content_test df patterns c = false) ->
  ColumnDetector.content_test df patterns col = true
  /\ ColumnDetector.detect_columns df !! field = Some (col, LOW).
Proof.
  intros d patterns Hfields Hnone Hpat Hcols Hopen Hsample Hbefore.
  pose proof (content_test_empty df patterns col Hsample) as Htest.
  split; [exact Htest|].
  unfold ColumnDetector.detect_columns, ColumnDetector.detect_state.
  rewrite Hfields, fold_left_app. cbn [fold_left]. fold (pass3_state_at df before). fold d.
  rewrite (pass3_field_claims df d field cols_before col cols_rest
             Hnone Hpat Hcols Hopen Htest Hbefore).
  apply pass3_fold_keeps. cbn [ColumnDetector.claim ColumnDetector.detected].
  apply lookup_insert_eq.
Qed.

Lemma empty_column_claimed_witness :
  ColumnDetector.detect_columns empty_columns_frame !! "fecha_nacimiento" = Some ("zz1", LOW).
Proof.
  assert (Hfree : forall d c, bool_decide (c ∈ ColumnDetector.used_columns d) = false ->
                              c ∉ ColumnDetector.used_columns d).
  { intros d c H. apply bool_decide_eq_false in H. exact H. }
  assert (Hused : forall d c, bool_decide (c ∈ ColumnDetector.used_columns d) = true ->
                              c ∈ ColumnDetector.used_columns d).
  { intros d c H. apply bool_decide_eq_true in H. exact H. }
  apply (empty_column_claimed empty_columns_frame ["numero_documento"] "fecha_nacimiento"
           ["nacionalidad"] ["Numero Documento"] "zz1" ["zz2"]).
  - reflexivity.
  - vm_compute. reflexivity.
  - vm_compute. discriminate.
  - reflexivity.
  - split; [apply Hfree|]; vm_compute; reflexivity.
  - vm_compute. reflexivity.
  - intros c [<-|[]]. left. intros [Hnot _]. apply Hnot, Hused. vm_compute. reflexivity.
Defined.

(** ** Output lines *)

Section Lines.

Import SireConverter.

Variables (self : Config) (now_year : Z) (column_map : gmap string (string * Confidence))
          (movement_type : string).

(** The record of an emittable row: its document is the text read from
    the document cell, and its other derived fields hold no delimiter. *)
Lemma emittable_clean k row guest doc fecha :
  emittable now_year column_map movement_type k row guest doc fecha ->
  value doc = document_text (_get_value column_map row "numero_documento")
  /\ tab_free (value fecha) = true
  /\ derived_fields_clean guest.
Proof.
  intros (Ho & Hvalid & Hdoc & Hfecha). unfold guest_of, _process_guest in Ho.
  destruct (DocumentValidator.validate_document _) as [[] msg]; cbn [negb snd] in Ho.
  2:{ injection Ho as <-. discriminate Hvalid. }
  pose proof (tab_free_document_type (_get_value column_map row "tipo_documento")) as Ht.
  destruct (DocumentTypes.get_code _) as [tc tf]. cbn [fst] in Ht.
  pose proof (names_block_clean column_map row) as Hn.
  destruct (names_block column_map row) as [[[n p] sg] i1]. destruct Hn as (Hn1 & Hn2 & Hn3).
  pose proof (nationality_block_clean column_map row) as Hc.
  destruct (nationality_block column_map row) as [[[nc nf] w] i2].
  destruct (String.eqb nc "169"); cbn [snd] in Ho; [discriminate|].
  apply complete_guest_fields in Ho; [|exact Hc].
  destruct Ho as (E1 & E2 & E3 & E4 & E5 & E6 & (f & E7 & Hf) & H8 & H9 & H10).
  rewrite E1 in Hdoc. injection Hdoc as <-.
  rewrite E7 in Hfecha. injection Hfecha as <-.
  split; [reflexivity|]. split; [exact Hf|].
  unfold derived_fields_clean. rewrite E2, E3, E4, E5, E6. cbn [value_or value Field3].
  repeat split; assumption.
Qed.

(** A turn of the loop only adds the line of an emittable row. *)
Lemma convert_row_lines st k row line :
  In line (lines (convert_row self now_year column_map movement_type st (Z.of_nat k) row)) ->
  In line (lines st)
  \/ exists guest doc fecha,
       emittable now_year column_map movement_type k row guest doc fecha
       /\ line = Py.join tab (sire_fields self movement_type guest doc fecha).
Proof.
  unfold convert_row, emittable, guest_of.
  rewrite (process_guest_outcome now_year column_map movement_type
             row (Z.of_nat k) (mkStats 0 0 0 0 0 0) (stats st)).
  destruct (_process_guest now_year column_map row (Z.of_nat k) movement_type (stats st))
    as [s' r].
  destruct r as [[guest|]|message]; cbn; auto.
  destruct (is_valid guest) eqn:Hv; cbn; auto.
  destruct (documento guest) as [doc|] eqn:Hd; cbn; auto.
  destruct (fecha_movimiento guest) as [fecha|] eqn:Hf; cbn; auto.
  destruct (bool_decide _); cbn; auto.
  intros H. apply in_app_or in H. destruct H as [H|[<-|[]]]; [auto|].
  right. exists guest, doc, fecha. auto.
Qed.

(** A line of 13 fields without the delimiter splits into them. *)
Lemma split_line guest doc fecha :
  tab_free (hotel_code self) = true -> tab_free (city_code self) = true ->
  tab_free movement_type = true -> tab_free (value doc) = true ->
  tab_free (value fecha) = true -> derived_fields_clean guest ->
  Py.split_on tab_char (Py.join tab (sire_fields self movement_type guest doc fecha))
  = sire_fields self movement_type guest doc fecha.
Proof.
  intros Hh Hc Hm Hd Hf (H1 & H2 & H3 & H4 & H5 & H6 & H7 & H8).
  apply (split_on_join tab_char); [discriminate|].
  intros f Hin. apply tab_free_iff. unfold sire_fields in Hin. cbn [In] in Hin.
  repeat (destruct Hin as [<-|Hin]; [assumption|]). contradiction.
Qed.

End Lines.

Section LinesOfConvert.

Import SireConverter.

Variables (self : Config) (now_year : Z) (df : DataFrame) (movement_type : string).

Local Abbreviation column_map := (ColumnDetector.detect_columns df).
Local Abbreviation after := (state_after self now_year df movement_type).

(** Every line comes from an emittable row. *)
Lemma lines_after_origin k line :
  In line (lines (after k)) ->
  exists k' row guest doc fecha,
    rows df !! k' = Some row
    /\ emittable now_year column_map movement_type k' row guest doc fecha
    /\ line = Py.join tab (sire_fields self movement_type guest doc fecha).
Proof.
  induction k as [|k IH].
  - unfold state_after. rewrite take_0. cbn [convert_loop initial lines]. contradiction.
  - destruct (rows df !! k) as [row|] eqn:E.
    + rewrite (state_after_S self now_year df movement_type k row E). intros H.
      apply convert_row_lines in H. destruct H as [H | (guest & doc & fecha & He & ->)].
      * exact (IH H).
      * exists k, row, guest, doc, fecha. auto.
    + rewrite (state_after_ge self now_year df movement_type k)
        by (apply lookup_ge_None; exact E).
      exact IH.
Qed.

Lemma convert_lines :
  fst (convert self now_year df movement_type) = lines (after (length (rows df))).
Proof.
  unfold convert, convert_state, state_after. cbn [fst]. rewrite firstn_all. reflexivity.
Qed.

End LinesOfConvert.

(** C7, as stated, fails: a document number with a tab inside passes
    validation and goes verbatim into its line, which then splits into 14
    fields. *)
Lemma tabbed_document_counterexample :
  map (fun line => length (Py.split_on tab_char line))
      (fst (SireConverter.convert demo_converter 2026 tabbed_frame "E")) = [14%nat].
Proof. vm_compute. reflexivity. Qed.

(** C7, amended.  Every output line is the tab-join of the 13 fields of an
    accepted record, in the fixed order of [sire_fields]; when the
    establishment code, the city code, the movement code and the document
    numbers read from the dataset hold no tab, splitting the line on the
    tab gives exactly those 13 fields. *)
Theorem output_line_fields (self : SireConverter.Config) (now_year : Z) (df : DataFrame)
    (movement_type : string) :
  tab_free (SireConverter.hotel_code self) = true ->
  tab_free (SireConverter.city_code self) = true ->
  tab_free movement_type = true ->
  (forall row, In row (rows df) ->
     tab_free (SireConverter.document_text
                 (SireConverter._get_value (ColumnDetector.detect_columns df) row
                    "numero_documento")) = true) ->
  forall line,
    In line (fst (SireConverter.convert self now_year df movement_type)) ->
    exists k row guest doc fecha,
      rows df !! k = Some row
      /\ emittable now_year (ColumnDetector.detect_columns df) movement_type k row guest doc fecha
      /\ line = Py.join SireConverter.tab
                  (SireConverter.sire_fields self movement_type guest doc fecha)
      /\ Py.split_on tab_char line = SireConverter.sire_fields self movement_type guest doc fecha
      /\ length (Py.split_on tab_char line) = 13%nat.
Proof.
  intros Hh Hc Hm Hdocs line Hline.
  rewrite convert_lines in Hline. apply lines_after_origin in Hline.
  destruct Hline as (k & row & guest & doc & fecha & Hrow & He & ->).
  exists k, row, guest, doc, fecha. split; [exact Hrow|]. split; [exact He|].
  split; [reflexivity|].
  destruct (emittable_clean _ _ _ _ _ _ _ _ He) as (Hd & Hf & Hclean).
  assert (Hsplit : Py.split_on tab_char
                     (Py.join SireConverter.tab
                        (SireConverter.sire_fields self movement_type guest doc fecha))
                   = SireConverter.sire_fields self movement_type guest doc fecha).
  { apply split_line; try assumption. rewrite Hd. apply Hdocs.
    apply list_elem_of_In. eapply list_elem_of_lookup_2. exact Hrow. }
  split; [exact Hsplit|]. rewrite Hsplit. reflexivity.
Qed.

Lemma output_line_fields_witness :
  let line := Py.join SireConverter.tab
                ["H1"; "5001"; "3"; "AB123456"; "249"; "GARCIA"; "LOPEZ"; "MARIA"; "E";
                 "01/06/2024"; "249"; "169"; "15/03/1990"] in
  In line (fst (SireConverter.convert demo_converter 2026 scenario_frame "E"))
  /\ length (Py.split_on tab_char line) = 13%nat.
Proof.
  intros line.
  assert (Hline : In line (fst (SireConverter.convert demo_converter 2026 scenario_frame "E")))
    by (vm_compute; left; reflexivity).
  split; [exact Hline|].
  destruct (output_line_fields demo_converter 2026 scenario_frame "E") with (line := line)
    as (k & row & guest & doc & fecha & _ & _ & _ & _ & H).
  - reflexivity.
  - reflexivity.
  - reflexivity.
  - intros row [<-|[]]. vm_compute. reflexivity.
  - exact Hline.
  - exact H.
Defined.

(** * Further properties of the engine *)

(** ** Document validator *)

Lemma null_token_short (d : string) :
  existsb (String.eqb d) ["NAN"; "NONE"; "NULL"; "N/A"; "-"] = true -> (Py.len d < 5)%nat.
Proof.
  cbn [existsb]. rewrite !orb_true_iff.
  intros [H|[H|[H|[H|[H|H]]]]]; try discriminate;
    apply String.eqb_eq in H; subst d; cbn; lia.
Qed.

(** X1.  The verdict of [validate_document] is decided by emptiness, the length
    of the stripped, upper-cased text and the number of distinct characters
    left without hyphens; the rule on null-like tokens never fires, since
    every such token is shorter than 5, and the message "Documento inválido"
    is never returned. *)
Theorem validate_document_verdict (doc_number : string) :
  let d := Py.upper (Py.strip doc_number) in
  DocumentValidator.validate_document doc_number =
    (if String.eqb doc_number "" then (false, DocumentValidator.msg_vacio)
     else if (Py.len d <? 5)%nat then (false, DocumentValidator.msg_corto)
     else if (20 <? Py.len d)%nat then (false, DocumentValidator.msg_largo)
     else if (DocumentValidator.distinct_chars (Py.remove_char "-" d) =? 1)%nat
          then (false, DocumentValidator.msg_patron)
     else (true, "OK"))
  /\ snd (DocumentValidator.validate_document doc_number) <> DocumentValidator.msg_invalido.
Proof.
  intros d.
  assert (E : DocumentValidator.validate_document doc_number =
    (if String.eqb doc_number "" then (false, DocumentValidator.msg_vacio)
     else if (Py.len d <? 5)%nat then (false, DocumentValidator.msg_corto)
     else if (20 <? Py.len d)%nat then (false, DocumentValidator.msg_largo)
     else if (DocumentValidator.distinct_chars (Py.remove_char "-" d) =? 1)%nat
          then (false, DocumentValidator.msg_patron)
     else (true, "OK"))).
  { unfold DocumentValidator.validate_document. fold d.
    destruct (String.eqb doc_number ""); [reflexivity|].
    destruct (Py.len d <? 5)%nat eqn:E5; [reflexivity|].
    destruct (20 <? Py.len d)%nat; [reflexivity|].
    destruct (existsb (String.eqb d) ["NAN"; "NONE"; "NULL"; "N/A"; "-"]) eqn:En; [|reflexivity].
    apply null_token_short in En. apply Nat.ltb_ge in E5. lia. }
  split; [exact E|]. rewrite E.
  destruct (String.eqb doc_number ""); [vm_compute; discriminate|].
  destruct (Py.len d <? 5)%nat; [vm_compute; discriminate|].
  destruct (20 <? Py.len d)%nat; [vm_compute; discriminate|].
  destruct (_ =? 1)%nat; vm_compute; discriminate.
Qed.

(** ** Country resolver *)

Lemma country_codes_nonempty :
  forallb (fun kv => negb (String.eqb (snd kv) "")) CountryCodes.CODES = true.
Proof. vm_compute. reflexivity. Qed.

Lemma found_nonempty (p : string * string -> bool) (kv : string * string) :
  find p CountryCodes.CODES = Some kv -> snd kv <> "".
Proof.
  intros Hfind. apply find_some in Hfind. destruct Hfind as [Hin _].
  pose proof (proj1 (forallb_forall _ _) country_codes_nonempty kv Hin) as H.
  apply negb_true_iff, String.eqb_neq in H. exact H.
Qed.

Lemma word_match_nonempty (words : list string) (kv : string * string) :
  CountryCodes.word_match words = Some kv -> snd kv <> "".
Proof.
  induction words as [|w words IH]; cbn [CountryCodes.word_match]; [discriminate|].
  destruct (3 <=? Py.len w)%nat; [|exact IH].
  destruct (find _ CountryCodes.CODES) as [kv'|] eqn:E; [|exact IH].
  intros [= <-]. exact (found_nonempty _ _ E).
Qed.

Lemma country_empty_none (country : cell) :
  fst (CountryCodes.get_code country) = "" <-> snd (CountryCodes.get_code country) = NONE.
Proof.
  unfold CountryCodes.get_code. destruct (absent country); [cbn; tauto|].
  unfold table_get.
  destruct (find (fun kv => String.eqb (fst kv) _) CountryCodes.CODES) as [kv|] eqn:E;
    cbn [fmap option_fmap option_map fst snd].
  - pose proof (found_nonempty _ _ E). split; [contradiction | discriminate].
  - destruct (CountryCodes.partial_match _) as [kv|] eqn:E2; cbn [fst snd].
    + pose proof (found_nonempty _ _ E2). split; [contradiction | discriminate].
    + destruct (CountryCodes.word_match _) as [kv|] eqn:E3; cbn [fst snd]; [|tauto].
      pose proof (word_match_nonempty _ _ E3). split; [contradiction | discriminate].
Qed.

(** X2.  The country resolver answers the empty code exactly with confidence
    NONE: a resolved code is never empty. *)
Theorem country_code_empty_iff_none (country : cell) :
  fst (CountryCodes.get_code country) = "" <-> snd (CountryCodes.get_code country) = NONE.
Proof.
  destruct (country_empty_none country) as [H1 H2]. split; [exact H1 | exact H2].
Qed.

(** X3.  Every key of the country table that its own normalisation leaves
    unchanged resolves, as an exact match, to the code the table gives it,
    with HIGH confidence. *)
Theorem country_key_resolves (key code : string) :
  In (key, code) CountryCodes.CODES ->
  normalize_key key = key ->
  CountryCodes.get_code (CStr key) = (code, HIGH).
Proof.
  intros Hin Hnorm.
  assert (Hall : forallb (fun kv =>
            implb (String.eqb (normalize_key (fst kv)) (fst kv))
                  (let r := CountryCodes.get_code (CStr (fst kv)) in
                   String.eqb (fst r) (snd kv) && bool_decide (snd r = HIGH)))
            CountryCodes.CODES = true) by (vm_compute; reflexivity).
  pose proof (proj1 (forallb_forall _ _) Hall (key, code) Hin) as H. cbn [fst snd] in H.
  rewrite Hnorm, String.eqb_refl in H. cbn [implb] in H.
  apply andb_true_iff in H. destruct H as [H1 H2].
  apply String.eqb_eq in H1. apply bool_decide_eq_true in H2.
  destruct (CountryCodes.get_code (CStr key)) as [c k]. cbn [fst snd] in *. congruence.
Qed.

Lemma country_key_resolves_witness :
  CountryCodes.get_code (CStr "COSTA DE MARFIL") = ("193", HIGH).
Proof.
  apply country_key_resolves; vm_compute; [tauto | reflexivity].
Defined.

(** X4.  An input that is not empty but has no letter left after normalisation
    (digits, punctuation) is not refused: the empty text is contained in the
    first key of the table, so the answer is that entry's code, "249", with
    MEDIUM confidence. *)
Theorem country_code_without_letters (country : cell) :
  absent country = false ->
  normalize_key (py_str country) = "" ->
  CountryCodes.get_code country = ("249", MEDIUM).
Proof.
  intros Habs Hnorm. unfold CountryCodes.get_code. rewrite Habs, Hnorm. reflexivity.
Qed.

Lemma country_code_without_letters_witness :
  CountryCodes.get_code (CInt 57) = ("249", MEDIUM).
Proof.
  apply country_code_without_letters; reflexivity.
Defined.

(** ** Document types *)

Lemma document_type_coded (doc_type : cell) :
  In (fst (DocumentTypes.get_code doc_type)) ["3"; "5"; "46"; "10"; "52"]
  /\ snd (DocumentTypes.get_code doc_type) <> NONE.
Proof.
  unfold DocumentTypes.get_code. destruct (absent doc_type); [cbn; split; [tauto|discriminate]|].
  destruct (find _ DocumentTypes.CODES) as [kv|] eqn:E; cbn [fst snd].
  - split; [|discriminate]. apply find_some in E. destruct E as [Hin _].
    assert (Hall : forallb (fun kv => existsb (String.eqb (snd kv)) ["3"; "5"; "46"; "10"; "52"])
                           DocumentTypes.CODES = true) by reflexivity.
    pose proof (proj1 (forallb_forall _ _) Hall kv Hin) as H.
    apply existsb_exists in H. destruct H as (x & Hx & Heq).
    apply String.eqb_eq in Heq. rewrite Heq. exact Hx.
  - repeat (destruct (DocumentTypes.any_in _ _); [cbn; split; [tauto|discriminate]|]).
    cbn. split; [tauto|discriminate].
Qed.

(** X5.  The document-type resolver always answers one of the five SIRE codes,
    and never with confidence NONE: a document always carries a type. *)
Theorem document_type_always_coded (doc_type : cell) :
  In (fst (DocumentTypes.get_code doc_type)) ["3"; "5"; "46"; "10"; "52"]
  /\ snd (DocumentTypes.get_code doc_type) <> NONE.
Proof.
  destruct (document_type_coded doc_type) as [Hcode Hconf]. split; [exact Hcode | exact Hconf].
Qed.

(** ** Inference engine *)

(** X6.  Inferring a nationality from the origin gives the code of the country
    resolver with its confidence lowered: HIGH becomes MEDIUM, NONE stays
    NONE with the empty code, anything else becomes LOW; the result is never
    HIGH.  Inferring the origin from the nationality is the same function. *)
Theorem inference_downgrades (text : cell) :
  InferenceEngine.infer_nationality_from_origin text =
    (fst (CountryCodes.get_code text),
     match snd (CountryCodes.get_code text) with
     | HIGH => MEDIUM
     | NONE => NONE
     | _ => LOW
     end)
  /\ snd (InferenceEngine.infer_nationality_from_origin text) <> HIGH
  /\ InferenceEngine.infer_origin_from_nationality text
     = InferenceEngine.infer_nationality_from_origin text.
Proof.
  assert (E : InferenceEngine.infer_nationality_from_origin text =
    (fst (CountryCodes.get_code text),
     match snd (CountryCodes.get_code text) with
     | HIGH => MEDIUM
     | NONE => NONE
     | _ => LOW
     end)).
  { unfold InferenceEngine.infer_nationality_from_origin.
    pose proof (country_empty_none text) as Hiff.
    destruct (CountryCodes.get_code text) as [code conf]. cbn [fst snd] in *.
    destruct (String.eqb code "") eqn:Ec; cbn [negb].
    - apply String.eqb_eq in Ec. rewrite (proj1 Hiff Ec), Ec. reflexivity.
    - apply String.eqb_neq in Ec. destruct conf; try reflexivity.
      exfalso. apply Ec, Hiff. reflexivity. }
  split; [exact E|]. split; [|reflexivity].
  rewrite E. cbn [snd]. destruct (snd (CountryCodes.get_code text)); discriminate.
Qed.

(** ** Conversion loop *)

Section LoopInvariants.

Import SireConverter.

Variables (self : Config) (now_year : Z) (column_map : gmap string (string * Confidence))
          (movement_type : string).

Lemma process_guest_valid_counter row idx s :
  valid (fst (_process_guest now_year column_map row idx movement_type s)) = valid s
  /\ skipped (fst (_process_guest now_year column_map row idx movement_type s)) = skipped s.
Proof.
  destruct (process_guest_buckets now_year column_map movement_type row idx s) as [_ Hb].
  unfold buckets in Hb. injection Hb as Hv Hs _ _. auto.
Qed.

(** The lines, the keys seen and the counter of valid rows move together. *)
Lemma convert_row_lines_valid st idx row :
  length (lines st) = valid (stats st) /\ size (seen_keys st) = valid (stats st) ->
  let st' := convert_row self now_year column_map movement_type st idx row in
  length (lines st') = valid (stats st') /\ size (seen_keys st') = valid (stats st').
Proof.
  intros [Hl Hk]. unfold convert_row.
  destruct (process_guest_valid_counter row idx (stats st)) as [Hv _].
  destruct (_process_guest now_year column_map row idx movement_type (stats st)) as [s' r].
  cbn [fst] in Hv.
  destruct r as [[guest|]|message]; cbn; try (rewrite Hv; auto).
  destruct (is_valid guest); cbn; try (rewrite Hv; auto).
  destruct (documento guest); cbn; try (rewrite Hv; auto).
  destruct (fecha_movimiento guest); cbn; try (rewrite Hv; auto).
  destruct (bool_decide _) eqn:E; cbn; rewrite Hv; [auto|].
  apply bool_decide_eq_false in E. rewrite length_app. cbn [length].
  rewrite size_union by (apply disjoint_singleton_l; exact E).
  rewrite size_singleton. lia.
Qed.

Lemma convert_loop_lines_valid rows st idx :
  length (lines st) = valid (stats st) /\ size (seen_keys st) = valid (stats st) ->
  let st' := convert_loop self now_year column_map movement_type st idx rows in
  length (lines st') = valid (stats st') /\ size (seen_keys st') = valid (stats st').
Proof.
  revert st idx. induction rows as [|row rows IH]; intros st idx H; cbn [convert_loop].
  - exact H.
  - apply IH. apply convert_row_lines_valid. exact H.
Qed.

(** The record [complete_guest] returns, when it returns one. *)
Lemma complete_guest_shape row row_number doc tipo noms primer segundo nac warns guest :
  complete_guest now_year column_map row row_number movement_type doc tipo
                 noms primer segundo nac warns = Ok (Some guest) ->
  exists fecha_mov fecha_nac,
    let origin := origin_block (_get_value column_map row "procedencia") nac warns in
    let errs := missing_fields
                  [ ("documento", Some doc); ("nombres", noms); ("primer_apellido", primer);
                    ("nacionalidad", Some nac); ("fecha_movimiento", Some fecha_mov);
                    ("fecha_nacimiento", Some fecha_nac) ] in
    guest = mkGuest row_number (Some doc) (Some tipo) noms primer segundo (Some nac)
                    (Some fecha_nac) (Some fecha_mov) (Some (fst origin))
                    (Some (destination_block (_get_value column_map row "destino")))
                    (bool_decide (errs = [])) errs (snd origin).
Proof.
  unfold complete_guest.
  destruct (DateParser.parse now_year (if String.eqb movement_type "E" then _ else _))
    as [[fm fmc]|msg]; cbn [mbind result_bind]; [|discriminate].
  destruct (DateParser.parse now_year (_get_value column_map row "fecha_nacimiento"))
    as [[fn fnc]|msg]; cbn [mbind result_bind]; [|discriminate].
  destruct (origin_block _ nac warns) as [proc w] eqn:Eo.
  intros [= <-]. exists (Field2 fm fmc), (Field2 fn fnc). reflexivity.
Qed.

(** A record that [_process_guest] marks invalid carries an error. *)
Lemma process_guest_invalid_has_error row idx s guest :
  snd (_process_guest now_year column_map row idx movement_type s) = Ok (Some guest) ->
  is_valid guest = false -> errors guest <> [].
Proof.
  unfold _process_guest.
  destruct (DocumentValidator.validate_document _) as [[] msg]; cbn [negb snd].
  2:{ intros [= <-] _. discriminate. }
  destruct (DocumentTypes.get_code _) as [tc tf].
  destruct (names_block column_map row) as [[[n p] sg] i1].
  destruct (nationality_block column_map row) as [[[nc nf] w] i2].
  destruct (String.eqb nc "169"); cbn [snd]; [discriminate|].
  intros H. apply complete_guest_shape in H. destruct H as (fm & fn & ->).
  cbn [is_valid errors]. intros H. apply bool_decide_eq_false in H. exact H.
Qed.

(** Every row counted as skipped leaves at least one entry in the error
    log. *)
Lemma convert_row_errors st idx row :
  (skipped (stats st) <= length (errors_log st))%nat ->
  let st' := convert_row self now_year column_map movement_type st idx row in
  (skipped (stats st') <= length (errors_log st'))%nat.
Proof.
  intros H. unfold convert_row.
  destruct (process_guest_valid_counter row idx (stats st)) as [_ Hs].
  pose proof (process_guest_invalid_has_error row idx (stats st)) as Herr.
  destruct (_process_guest now_year column_map row idx movement_type (stats st)) as [s' r].
  cbn [fst snd] in Hs, Herr.
  destruct r as [[guest|]|message]; cbn.
  - destruct (is_valid guest) eqn:Ev; cbn.
    + destruct (documento guest); cbn; [|rewrite Hs, length_app; cbn; lia].
      destruct (fecha_movimiento guest); cbn; [|rewrite Hs, length_app; cbn; lia].
      destruct (bool_decide _); cbn; rewrite Hs; exact H.
    + specialize (Herr guest eq_refl Ev).
      rewrite Hs, length_app, length_map.
      destruct (errors guest); [contradiction|]. cbn [length]. lia.
  - rewrite Hs. exact H.
  - rewrite Hs, length_app. cbn [length]. lia.
Qed.

Lemma convert_loop_errors rows st idx :
  (skipped (stats st) <= length (errors_log st))%nat ->
  let st' := convert_loop self now_year column_map movement_type st idx rows in
  (skipped (stats st') <= length (errors_log st'))%nat.
Proof.
  revert st idx. induction rows as [|row rows IH]; intros st idx H; cbn [convert_loop].
  - exact H.
  - apply IH. apply convert_row_errors. exact H.
Qed.

End LoopInvariants.

(** X7.  [convert] returns as many lines as its counter of valid rows says, and
    as many as the distinct keys (document, date, direction) it has seen. *)
Theorem convert_lines_match_valid (self : SireConverter.Config) (now_year : Z)
    (df : DataFrame) (movement_type : string) :
  length (fst (SireConverter.convert self now_year df movement_type))
  = valid (snd (SireConverter.convert self now_year df movement_type))
  /\ size (SireConverter.seen_keys (SireConverter.convert_state self now_year df movement_type))
     = valid (snd (SireConverter.convert self now_year df movement_type)).
Proof.
  unfold SireConverter.convert, SireConverter.convert_state. cbn [fst snd].
  apply convert_loop_lines_valid. split; reflexivity.
Qed.

(** X8.  When [convert] returns, the error log has at least one entry for every
    row counted as skipped. *)
Theorem convert_skipped_rows_logged (self : SireConverter.Config) (now_year : Z)
    (df : DataFrame) (movement_type : string) :
  (skipped (snd (SireConverter.convert self now_year df movement_type))
   <= length (SireConverter.errors_log
                (SireConverter.convert_state self now_year df movement_type)))%nat.
Proof.
  unfold SireConverter.convert, SireConverter.convert_state. cbn [snd].
  apply convert_loop_errors. cbn. lia.
Qed.

(** ** Records *)

Lemma document_text_absent (doc_val : cell) :
  absent doc_val = true -> SireConverter.document_text doc_val = "".
Proof.
  unfold absent, SireConverter.document_text.
  destruct doc_val as [| | |s|n|text nz|y m d]; cbn [truthy is_nan_or_empty negb orb py_str];
    try discriminate; try reflexivity.
  - destruct (String.eqb s "") eqn:Es; cbn [negb orb]; [reflexivity|].
    intros H. apply String.eqb_eq in H. rewrite H. reflexivity.
  - destruct (n =? 0)%Z; cbn; [reflexivity | discriminate].
  - destruct nz; cbn; [discriminate | reflexivity].
Qed.

Lemma convert_row_missing_document (self : SireConverter.Config) (now_year : Z)
    (column_map : gmap string (string * Confidence)) (movement_type : string)
    (st : SireConverter.State) (idx : Z) (row : gmap string cell) :
  absent (SireConverter._get_value column_map row "numero_documento") = true ->
  SireConverter.convert_row self now_year column_map movement_type st idx row =
  SireConverter.mkState
    (SireConverter.lines st) (SireConverter.seen_keys st)
    (incr_skipped (SireConverter.stats st))
    (SireConverter.errors_log st
     ++ [SireConverter.fila (idx + 2) ("Documento: " +:+ DocumentValidator.msg_vacio)])
    (SireConverter.warnings_log st).
Proof.
  intros Habs. unfold SireConverter.convert_row, SireConverter._process_guest.
  rewrite (document_text_absent _ Habs).
  change (DocumentValidator.validate_document "") with (false, DocumentValidator.msg_vacio).
  reflexivity.
Qed.

(** X9.  A row whose document cell is missing (no document column detected,
    [None], NaN, a blank text, zero) is skipped: no line, one more skipped
    row, and the error "Documento: Documento vacío" logged under the row
    number [idx + 2]. *)
Theorem missing_document_skipped (self : SireConverter.Config) (now_year : Z)
    (column_map : gmap string (string * Confidence)) (movement_type : string)
    (st : SireConverter.State) (idx : Z) (row : gmap string cell) :
  absent (SireConverter._get_value column_map row "numero_documento") = true ->
  SireConverter.convert_row self now_year column_map movement_type st idx row =
  SireConverter.mkState
    (SireConverter.lines st) (SireConverter.seen_keys st)
    (incr_skipped (SireConverter.stats st))
    (SireConverter.errors_log st
     ++ [SireConverter.fila (idx + 2) ("Documento: " +:+ DocumentValidator.msg_vacio)])
    (SireConverter.warnings_log st).
Proof.
  intros Habs. rewrite (convert_row_missing_document self now_year column_map movement_type
                          st idx row Habs).
  reflexivity.
Qed.

Lemma missing_document_skipped_witness :
  SireConverter.convert demo_converter 2026
    (mkFrame ["Nombre"; "Apellido"] [ {[ "Nombre" := CStr "ANA"; "Apellido" := CStr "DIAZ" ]} ]) "E"
  = ([], mkStats 1 0 1 0 0 0).
Proof.
  unfold SireConverter.convert, SireConverter.convert_state.
  cbn [rows SireConverter.convert_loop].
  rewrite missing_document_skipped by (vm_compute; reflexivity).
  reflexivity.
Defined.

Section EmittedRecords.

Import SireConverter.

Variables (now_year : Z) (column_map : gmap string (string * Confidence))
          (movement_type : string).

Lemma missing_fields_nil (required : list (string * option FieldResult)) :
  missing_fields required = [] ->
  forall item, In item required -> filled (snd item) = true.
Proof.
  unfold missing_fields. induction required as [|a required IH]; [contradiction|].
  rewrite filter_cons. intros H item Hin.
  destruct (decide (filled (snd a) = false)) as [Hf|Hf]; [discriminate|].
  destruct Hin as [<-|Hin].
  - destruct (filled (snd a)); [reflexivity | contradiction].
  - apply IH; assumption.
Qed.

Lemma origin_block_nonempty proc_val nac warns :
  value nac <> "" -> value (fst (origin_block proc_val nac warns)) <> "".
Proof.
  intros Hn. unfold origin_block.
  destruct (CountryCodes.get_code proc_val) as [code conf].
  apply String.eqb_neq in Hn. rewrite Hn. cbn [negb]. rewrite andb_true_r.
  destruct (String.eqb code "") eqn:Ec; cbn.
  - rewrite Hn. cbn. apply String.eqb_neq. exact Hn.
  - rewrite Ec. cbn. apply String.eqb_neq. exact Ec.
Qed.

Lemma destination_block_nonempty dest_val : value (destination_block dest_val) <> "".
Proof.
  unfold destination_block, ColombianCities.get_colombia_code_if_city.
  destruct (fst (ColombianCities.is_colombian_city dest_val)); cbn; [discriminate|].
  destruct (CountryCodes.get_code dest_val) as [code conf]. cbn.
  destruct (String.eqb code "") eqn:Ec; cbn; [discriminate|].
  apply String.eqb_neq. exact Ec.
Qed.

Lemma emittable_complete k row guest doc fecha :
  emittable now_year column_map movement_type k row guest doc fecha ->
  value doc <> "" /\ value fecha <> ""
  /\ filled (tipo_documento guest) = true
  /\ filled (nombres guest) = true
  /\ filled (primer_apellido guest) = true
  /\ filled (fecha_nacimiento guest) = true
  /\ (exists nac, nacionalidad guest = Some nac /\ value nac <> "" /\ value nac <> "169")
  /\ filled (procedencia guest) = true
  /\ filled (destino guest) = true.
Proof.
  intros (Ho & Hvalid & Hdoc & Hfecha). unfold guest_of, _process_guest in Ho.
  destruct (DocumentValidator.validate_document _) as [[] msg]; cbn [negb snd] in Ho.
  2:{ injection Ho as <-. discriminate Hvalid. }
  pose proof (document_type_coded (_get_value column_map row "tipo_documento")) as [Ht _].
  destruct (DocumentTypes.get_code _) as [tc tf]. cbn [fst] in Ht.
  destruct (names_block column_map row) as [[[n p] sg] i1].
  destruct (nationality_block column_map row) as [[[nc nf] w] i2].
  destruct (String.eqb nc "169") eqn:E169; cbn [snd] in Ho; [discriminate|].
  apply complete_guest_shape in Ho. destruct Ho as (fm & fn & ->).
  cbn [is_valid documento fecha_movimiento] in Hvalid, Hdoc, Hfecha.
  injection Hdoc as <-. injection Hfecha as <-.
  apply bool_decide_eq_true in Hvalid.
  pose proof (missing_fields_nil _ Hvalid) as Hall. cbn [In] in Hall.
  assert (Hd := Hall ("documento", _) ltac:(tauto)).
  assert (Hn := Hall ("nombres", n) ltac:(tauto)).
  assert (Hp := Hall ("primer_apellido", p) ltac:(tauto)).
  assert (Hc := Hall ("nacionalidad", _) ltac:(tauto)).
  assert (Hm := Hall ("fecha_movimiento", Some fm) ltac:(tauto)).
  assert (Hb := Hall ("fecha_nacimiento", Some fn) ltac:(tauto)).
  clear Hall. cbn [snd filled] in Hd, Hn, Hp, Hc, Hm, Hb.
  apply negb_true_iff, String.eqb_neq in Hd, Hc, Hm.
  cbn [tipo_documento nombres primer_apellido fecha_nacimiento nacionalidad procedencia destino
       filled].
  repeat split; try assumption.
  - apply negb_true_iff, String.eqb_neq. cbn [value Field3].
    cbn [In] in Ht. intros ->. intuition discriminate.
  - exists (Field3 nc nf "nacionalidad"). split; [reflexivity|]. split; [exact Hc|].
    cbn [value Field3]. apply String.eqb_neq. exact E169.
  - apply negb_true_iff, String.eqb_neq, origin_block_nonempty. exact Hc.
  - apply negb_true_iff, String.eqb_neq, destination_block_nonempty.
Qed.

End EmittedRecords.

(** X10.  The record behind an emitted line is complete: document number, type,
    given names, first surname, nationality, movement date, birth date,
    origin and destination are all present and not empty, and the
    nationality is not the home country's code "169". *)
Theorem emitted_record_complete (now_year : Z) (column_map : gmap string (string * Confidence))
    (movement_type : string) (k : nat) (row : gmap string cell)
    (guest : GuestRecord) (doc fecha : FieldResult) :
  emittable now_year column_map movement_type k row guest doc fecha ->
  value doc <> "" /\ value fecha <> ""
  /\ SireConverter.filled (tipo_documento guest) = true
  /\ SireConverter.filled (nombres guest) = true
  /\ SireConverter.filled (primer_apellido guest) = true
  /\ SireConverter.filled (fecha_nacimiento guest) = true
  /\ (exists nac, nacionalidad guest = Some nac /\ value nac <> "" /\ value nac <> "169")
  /\ SireConverter.filled (procedencia guest) = true
  /\ SireConverter.filled (destino guest) = true.
Proof.
  intros He. apply (emittable_complete now_year column_map movement_type k row). exact He.
Qed.

Lemma emitted_record_complete_witness :
  SireConverter.filled (procedencia (scenario_guest 2)) = true
  /\ SireConverter.filled (destino (scenario_guest 2)) = true.
Proof.
  destruct (emitted_record_complete 2026 (ColumnDetector.detect_columns scenario_frame) "E" 0
              scenario_row (scenario_guest 2)
              (Field3 "AB123456" HIGH "numero_documento") (Field2 "01/06/2024" HIGH))
    as (_ & _ & _ & _ & _ & _ & _ & Hp & Hd).
  - split; [vm_compute; reflexivity | repeat split].
  - split; assumption.
Defined.

(** ** Column detector *)

Section Similarity.

Import ColumnDetector.

Lemma ratio_le_one (a b : nat) :
  (a <= b)%nat -> (0 < b)%nat ->
  (inject_Z (Z.of_nat a) / inject_Z (Z.of_nat b) <= 1)%Q.
Proof.
  intros Hab Hb. apply Qle_shift_div_r.
  - unfold Qlt, inject_Z. cbn. lia.
  - rewrite Qmult_1_l. unfold Qle, inject_Z. cbn. lia.
Qed.

Lemma similarity_bounds s1 s2 : (0 <= _similarity s1 s2 <= 1)%Q.
Proof.
  unfold _similarity.
  destruct (String.eqb (Py.lower s1) (Py.lower s2)); [split; discriminate|].
  set (w1 := list_to_set (Py.split (Py.lower s1)) : gset string).
  set (w2 := list_to_set (Py.split (Py.lower s2)) : gset string).
  destruct (bool_decide (w1 = ∅)) eqn:E1; cbn [orb]; [split; discriminate|].
  destruct (bool_decide (w2 = ∅)) eqn:E2; cbn [orb]; [split; discriminate|].
  split; [apply ratio_nonneg|].
  apply bool_decide_eq_false in E1.
  apply ratio_le_one.
  - transitivity (size w1); [|apply Nat.le_max_l].
    apply subseteq_size. apply intersection_subseteq_l.
  - assert (size w1 <> 0)%nat by (intros H; apply size_empty_inv in H; apply E1;
                                  apply leibniz_equiv; exact H).
    lia.
Qed.

Lemma similarity_sym s1 s2 : _similarity s1 s2 = _similarity s2 s1.
Proof.
  unfold _similarity. rewrite (String.eqb_sym (Py.lower s2)).
  destruct (String.eqb (Py.lower s1) (Py.lower s2)); [reflexivity|].
  rewrite orb_comm.
  destruct (bool_decide _ || bool_decide _); [reflexivity|].
  rewrite (intersection_comm_L (list_to_set (Py.split (Py.lower s1)))), Nat.max_comm.
  reflexivity.
Qed.

Lemma fuzzy_loop_exact col_lower threshold best patterns :
  In col_lower patterns -> fuzzy_loop col_lower threshold best patterns = (true, 1%Q).
Proof.
  revert best. induction patterns as [|p patterns IH]; intros best Hin; [contradiction|].
  cbn [fuzzy_loop]. destruct (String.eqb col_lower p) eqn:E; [reflexivity|].
  apply IH. destruct Hin as [<-|Hin]; [|exact Hin].
  rewrite String.eqb_refl in E. discriminate.
Qed.

End Similarity.

(** X11.  The word similarity lies between 0 and 1, as its docstring says, and
    does not depend on the order of its two arguments. *)
Theorem similarity_bounded_symmetric (s1 s2 : string) :
  (0 <= ColumnDetector._similarity s1 s2 <= 1)%Q
  /\ ColumnDetector._similarity s1 s2 = ColumnDetector._similarity s2 s1.
Proof.
  split.
  - apply similarity_bounds.
  - apply similarity_sym.
Qed.

(** X12.  A column whose lower-cased, stripped name is one of the variants
    matches with score exactly 1, whatever the threshold and whatever the
    variants before it scored. *)
Theorem fuzzy_match_exact (column : string) (patterns : list string) (threshold : Q) :
  In (Py.strip (Py.lower column)) patterns ->
  ColumnDetector._fuzzy_match column patterns threshold = (true, 1%Q).
Proof.
  intros H. unfold ColumnDetector._fuzzy_match.
  apply fuzzy_loop_exact. exact H.
Qed.

Lemma fuzzy_match_exact_witness :
  ColumnDetector._fuzzy_match " Check-In " ["arrival"; "check-in"; "checkin"] (2 # 1) = (true, 1%Q).
Proof.
  apply fuzzy_match_exact. vm_compute. tauto.
Defined.

Section DetectionSound.

Import ColumnDetector.

Lemma first_column_found test config used cols col :
  first_column test config used cols = Some col ->
  In col cols /\ _should_exclude_column col config = false /\ test col = true.
Proof.
  unfold first_column. intros H. apply find_some in H. destruct H as [Hin H].
  apply andb_true_iff in H. destruct H as [H Ht].
  apply andb_true_iff in H. destruct H as [_ He].
  apply negb_true_iff in He. auto.
Qed.

Lemma claim_sound df field col conf d :
  sound_detection df d -> sound_assignment df field col conf ->
  sound_detection df (claim field col conf d).
Proof.
  intros Hd Hnew f c k. cbn [claim detected]. rewrite lookup_insert_Some.
  intros [[<- [= <- <-]] | [_ H]]; [exact Hnew | exact (Hd f c k H)].
Qed.

Lemma in_insert_sorted x y l : In x (insert_sorted y l) -> x = y \/ In x l.
Proof.
  induction l as [|z l IH]; cbn [insert_sorted].
  - intros [<-|[]]. left. reflexivity.
  - destruct (sort_key y <? sort_key z)%nat.
    + intros [<-|H]; [left; reflexivity | right; exact H].
    + intros [<-|H]; [right; left; reflexivity|].
      destruct (IH H) as [->|H']; [left; reflexivity | right; right; exact H'].
Qed.

Lemma in_sorted_go x l acc :
  In x (fold_left (fun acc y => insert_sorted y acc) l acc) -> In x l \/ In x acc.
Proof.
  revert acc. induction l as [|y l IH]; intros acc; cbn [fold_left]; [tauto|].
  intros H. destruct (IH _ H) as [H'|H']; [left; right; exact H'|].
  destruct (in_insert_sorted _ _ _ H') as [->|H'']; [left; left; reflexivity | right; exact H''].
Qed.

Lemma in_sorted_fields item : In item sorted_fields -> In item FIELD_PATTERNS.
Proof.
  unfold sorted_fields, sorted. intros H.
  destruct (in_sorted_go _ _ _ H) as [H'|[]]. exact H'.
Qed.

Lemma pass1_field_sound df d item :
  In item FIELD_PATTERNS -> sound_detection df d ->
  sound_detection df (pass1_field (columns df) d item).
Proof.
  intros Hin Hd. destruct item as [field config]. unfold pass1_field.
  destruct (first_column _ config (used_columns d) (columns df)) as [col|] eqn:E; [|exact Hd].
  apply first_column_found in E. destruct E as (Hc & He & _).
  apply claim_sound; [exact Hd|]. split; [exact Hc|]. split; [eauto | discriminate].
Qed.

Lemma pass2_field_sound df d item :
  In item FIELD_PATTERNS -> sound_detection df d ->
  sound_detection df (pass2_field (columns df) d item).
Proof.
  intros Hin Hd. destruct item as [field config]. unfold pass2_field.
  destruct (bool_decide _); [exact Hd|].
  destruct (first_column _ config (used_columns d) (columns df)) as [col|] eqn:E; [|exact Hd].
  apply first_column_found in E. destruct E as (Hc & He & _).
  apply claim_sound; [exact Hd|]. split; [exact Hc|]. split; [eauto | discriminate].
Qed.

Lemma config_of_listed field :
  content_patterns (config_of field) <> [] -> In (field, config_of field) FIELD_PATTERNS.
Proof.
  unfold config_of.
  destruct (find _ FIELD_PATTERNS) as [[f config]|] eqn:E; cbn; [|intros H; contradiction].
  intros _. apply find_some in E. destruct E as [Hin Heq]. cbn [fst] in Heq.
  apply String.eqb_eq in Heq. subst f. exact Hin.
Qed.

Lemma pass3_field_sound df d field :
  In field critical_fields -> sound_detection df d ->
  sound_detection df (pass3_field df d field).
Proof.
  intros Hcrit Hd. unfold pass3_field.
  destruct (bool_decide _); [exact Hd|].
  destruct (content_patterns (config_of field)) as [|p ps] eqn:Ep; [exact Hd|].
  destruct (first_column _ _ (used_columns d) (columns df)) as [col|] eqn:E; [|exact Hd].
  apply first_column_found in E. destruct E as (Hc & He & _).
  assert (Hpat : content_patterns (config_of field) <> []) by (rewrite Ep; discriminate).
  apply claim_sound; [exact Hd|]. split; [exact Hc|]. split.
  - exists (config_of field). split; [apply config_of_listed, Hpat | exact He].
  - intros _. split; [exact Hcrit | exact Hpat].
Qed.

Lemma fold_left_invariant_in {A B : Type} (P : A -> Prop) (f : A -> B -> A) (l : list B) (a : A) :
  (forall a b, In b l -> P a -> P (f a b)) -> P a -> P (fold_left f l a).
Proof.
  revert a. induction l as [|b l IH]; intros a Hstep Ha; cbn [fold_left]; [exact Ha|].
  apply IH.
  - intros a' b' Hb'. apply Hstep. right. exact Hb'.
  - apply Hstep; [left; reflexivity | exact Ha].
Qed.

Lemma detect_state_sound df : sound_detection df (detect_state df).
Proof.
  unfold detect_state, pass2_state, pass1_state.
  apply fold_left_invariant_in; [intros; apply pass3_field_sound; assumption|].
  apply fold_left_invariant_in;
    [intros; apply pass2_field_sound; [apply in_sorted_fields|]; assumption|].
  apply fold_left_invariant_in;
    [intros; apply pass1_field_sound; [apply in_sorted_fields|]; assumption|].
  intros f c k. cbn [detected]. rewrite lookup_empty. discriminate.
Qed.

Lemma detect_columns_sound df field col conf :
  detect_columns df !! field = Some (col, conf) -> sound_assignment df field col conf.
Proof.
  unfold detect_columns. apply (detect_state_sound df).
Qed.

Lemma numero_documento_listed config :
  In ("numero_documento", config) FIELD_PATTERNS -> config = numero_documento_config.
Proof.
  unfold FIELD_PATTERNS. cbn [In].
  intros H. repeat (destruct H as [H|H]; [congruence|]). contradiction.
Qed.

End DetectionSound.

(** X13.  Every column [detect_columns] assigns is a column of the dataset, and
    the document number is never assigned a column whose name contains
    "tipo". *)
Theorem detected_column_allowed (df : DataFrame) (field col : string) (conf : Confidence) :
  ColumnDetector.detect_columns df !! field = Some (col, conf) ->
  In col (columns df)
  /\ (field = "numero_documento" -> Py.contains "tipo" (Py.lower col) = false).
Proof.
  intros H. apply detect_columns_sound in H. destruct H as (Hcol & (config & Hin & Hex) & _).
  split; [exact Hcol|]. intros ->.
  apply numero_documento_listed in Hin. subst config.
  unfold ColumnDetector._should_exclude_column in Hex. cbn [existsb
    ColumnDetector.exclude_column_keywords ColumnDetector.numero_documento_config] in Hex.
  apply orb_false_iff in Hex. exact (proj1 Hex).
Qed.

Lemma detected_column_allowed_witness :
  In "Numero Documento" (columns scenario_frame)
  /\ Py.contains "tipo" (Py.lower "Numero Documento") = false.
Proof.
  destruct (detected_column_allowed scenario_frame "numero_documento" "Numero Documento" HIGH)
    as [H1 H2].
  - vm_compute. reflexivity.
  - split; [exact H1 | apply H2; reflexivity].
Defined.

(** X14.  Only the document number and the birth date can be detected from the
    content of a column: a LOW assignment is to one of these two fields.
    The nationality, though listed as critical, has no content pattern and
    is never detected that way. *)
Theorem content_detection_fields (df : DataFrame) (field col : string) :
  ColumnDetector.detect_columns df !! field = Some (col, LOW) ->
  field = "numero_documento" \/ field = "fecha_nacimiento".
Proof.
  intros H. apply detect_columns_sound in H. destruct H as (_ & _ & Hlow).
  destruct (Hlow eq_refl) as [Hcrit Hpat].
  unfold ColumnDetector.critical_fields in Hcrit. cbn [In] in Hcrit.
  destruct Hcrit as [<-|[<-|[<-|[]]]]; [left; reflexivity | right; reflexivity |].
  exfalso. apply Hpat. reflexivity.
Qed.

Lemma content_detection_fields_witness :
  "fecha_nacimiento" = "numero_documento" \/ "fecha_nacimiento" = "fecha_nacimiento".
Proof.
  apply (content_detection_fields empty_columns_frame "fecha_nacimiento" "zz1").
  vm_compute. reflexivity.
Defined.

(** ** Date parser *)

Lemma strftime_nonempty (y m d : Z) : DateParser.strftime y m d <> "".
Proof.
  unfold DateParser.strftime. intros H.
  apply (f_equal Py.chars) in H. rewrite !chars_append in H.
  apply app_eq_nil in H. destruct H as [_ H]. discriminate H.
Qed.

(** The loop over the formats answers with the first format, in list
    order, that parses the text to a year within range; HIGH for the two
    leading formats, MEDIUM for the others. *)
Lemma try_formats_first (now_year : Z) (date_str : string) (fmts : list string)
    (text : string) (conf : Confidence) :
  DateParser.try_formats now_year date_str fmts = (text, conf) ->
  (text = "" /\ conf = LOW /\ all_formats_fail_in now_year date_str fmts)
  \/ exists before fmt rest y m d,
       fmts = before ++ fmt :: rest
       /\ all_formats_fail_in now_year date_str before
       /\ DateParser.strptime date_str fmt = Some (y, m, d)
       /\ sane_year now_year y
       /\ text = DateParser.strftime y m d
       /\ conf = (if existsb (String.eqb fmt) ["%d/%m/%Y"; "%Y-%m-%d"] then HIGH else MEDIUM).
Proof.
  revert text conf. induction fmts as [|fmt fmts IH]; intros text conf; cbn [DateParser.try_formats].
  - intros [= <- <-]. left. repeat split. intros f y m d [].
  - assert (Hskip : (forall y m d, DateParser.strptime date_str fmt = Some (y, m, d) ->
                                   ~ sane_year now_year y) ->
                    DateParser.try_formats now_year date_str fmts = (text, conf) ->
                    (text = "" /\ conf = LOW
                     /\ all_formats_fail_in now_year date_str (fmt :: fmts))
                    \/ exists before fmt' rest y m d,
                         fmt :: fmts = before ++ fmt' :: rest
                         /\ all_formats_fail_in now_year date_str before
                         /\ DateParser.strptime date_str fmt' = Some (y, m, d)
                         /\ sane_year now_year y
                         /\ text = DateParser.strftime y m d
                         /\ conf = (if existsb (String.eqb fmt') ["%d/%m/%Y"; "%Y-%m-%d"]
                                    then HIGH else MEDIUM)).
    { intros Hfail H. destruct (IH _ _ H) as [(-> & -> & Hall) | Hfound].
      - left. repeat split. intros f y m d [<-|Hin]; [apply Hfail | apply Hall, Hin].
      - destruct Hfound as (before & fmt' & rest & y & m & d & -> & Hb & Hrest).
        right. exists (fmt :: before), fmt', rest, y, m, d. split; [reflexivity|].
        split; [|exact Hrest].
        intros f y' m' d' [<-|Hin]; [apply Hfail | apply Hb, Hin]. }
    destruct (DateParser.strptime date_str fmt) as [[[y m] d]|] eqn:E.
    + destruct ((1900 <=? y)%Z && (y <=? now_year + 1)%Z) eqn:R.
      * intros [= <- <-]. right. exists [], fmt, fmts, y, m, d.
        split; [reflexivity|]. split; [intros f y' m' d' []|].
        split; [exact E|]. split; [|split; reflexivity].
        apply andb_true_iff in R. unfold sane_year. lia.
      * apply Hskip. intros y' m' d' [= <- <- <-]. unfold sane_year.
        apply andb_false_iff in R. lia.
    + apply Hskip. intros y' m' d'. discriminate.
Qed.



(** X16.  Whatever the cell, the confidence tells whether a date came out: the
    text is empty exactly when the confidence is NONE or LOW, and a date
    that came out has HIGH or MEDIUM. *)
Theorem parse_empty_iff_unsure (now_year : Z) (date_val : cell) (text : string)
    (conf : Confidence) :
  DateParser.parse now_year date_val = Ok (text, conf) ->
  (text = "" <-> conf = NONE \/ conf = LOW).
Proof.
  unfold DateParser.parse.
  destruct (_ || _); [intros [= <- <-]; tauto|].
  assert (Hstr : forall s,
    (if String.eqb s "" || existsb (String.eqb (Py.lower s)) ["nan"; "none"; "nat"; ""]
     then Ok ("", NONE)
     else DateParser.first_token s ≫= λ date_str : string,
            Ok (DateParser.try_formats now_year date_str DateParser.FORMATS)) = Ok (text, conf) ->
    (text = "" <-> conf = NONE \/ conf = LOW)).
  { intros s. destruct (_ || _); [intros [= <- <-]; tauto|].
    destruct (DateParser.first_token s) as [tok|msg]; cbn [mbind result_bind]; [|discriminate].
    intros H.
    assert (E : DateParser.try_formats now_year tok DateParser.FORMATS = (text, conf))
      by congruence.
    destruct (try_formats_first _ _ _ _ _ E) as [(-> & -> & _) | Hfound]; [tauto|].
    destruct Hfound as (before & fmt & rest & y & m & d & _ & _ & _ & _ & -> & ->).
    pose proof (strftime_nonempty y m d).
    destruct (existsb _ _); split; intros; try contradiction; intuition discriminate. }
  destruct date_val; try apply Hstr.
  - discriminate.
  - intros [= <- <-]. pose proof (strftime_nonempty year month day).
    split; intros; try contradiction; intuition discriminate.
Qed.

Lemma parse_empty_iff_unsure_witness :
  "" = "" <-> LOW = NONE \/ LOW = LOW.
Proof.
  apply (parse_empty_iff_unsure 2026 (CStr "31/12/1899") "" LOW).
  vm_compute. reflexivity.
Defined.

(** ** Cities *)

(** X17.  Every key of the city table is recognised as a city with its own
    code, and as a destination it gives the home country's code "169" with
    HIGH confidence. *)
Theorem city_key_resolves (key code : string) :
  In (key, code) ColombianCities.CITIES ->
  ColombianCities.is_colombian_city (CStr key) = (true, code)
  /\ SireConverter.destination_block (CStr key) = Field2 "169" HIGH.
Proof.
  intros Hin.
  assert (Hall : forallb (fun kv =>
            (let r := ColombianCities.is_colombian_city (CStr (fst kv)) in
             fst r && String.eqb (snd r) (snd kv))
            && (let f := SireConverter.destination_block (CStr (fst kv)) in
                String.eqb (value f) "169" && bool_decide (confidence f = HIGH)
                && String.eqb (source f) "" && String.eqb (notes f) ""))
            ColombianCities.CITIES = true) by (vm_compute; reflexivity).
  pose proof (proj1 (forallb_forall _ _) Hall (key, code) Hin) as H. cbn [fst snd] in H.
  rewrite !andb_true_iff in H. destruct H as ((H1 & H2) & ((H3 & H4) & H5) & H6).
  apply String.eqb_eq in H2, H3, H5, H6. apply bool_decide_eq_true in H4.
  split.
  - destruct (ColombianCities.is_colombian_city (CStr key)) as [b c]. cbn [fst snd] in *.
    congruence.
  - destruct (SireConverter.destination_block (CStr key)) as [v c s n]. cbn in *.
    unfold Field2. congruence.
Qed.

Lemma city_key_resolves_witness :
  ColombianCities.is_colombian_city (CStr "CARTAGENA") = (true, "13001").
Proof.
  apply (city_key_resolves "CARTAGENA" "13001"). vm_compute. tauto.
Defined.

(** ** Datasets without a document column *)

Section NoDocumentColumn.

Import SireConverter.

Variables (self : Config) (now_year : Z) (column_map : gmap string (string * Confidence))
          (movement_type : string).

Hypothesis undetected : column_map !! "numero_documento" = None.

Lemma get_document_none row : _get_value column_map row "numero_documento" = CNone.
Proof. unfold _get_value. rewrite undetected. reflexivity. Qed.

Lemma convert_loop_no_document rows st idx :
  let st' := convert_loop self now_year column_map movement_type st idx rows in
  lines st' = lines st
  /\ stats st' = mkStats (total (stats st)) (valid (stats st))
                         (skipped (stats st) + length rows)
                         (colombianos (stats st)) (duplicados (stats st))
                         (inferidos (stats st))
  /\ length (errors_log st') = (length (errors_log st) + length rows)%nat.
Proof.
  revert st idx. induction rows as [|row rows IH]; intros st idx; cbn [convert_loop length].
  - rewrite !Nat.add_0_r. destruct st as [l k [t v s c d i] e w]. cbn. auto.
  - rewrite convert_row_missing_document by (rewrite get_document_none; reflexivity).
    destruct (IH (mkState (lines st) (seen_keys st) (incr_skipped (stats st))
                    (errors_log st ++ [fila (idx + 2) ("Documento: " +:+ DocumentValidator.msg_vacio)])
                    (warnings_log st)) (idx + 1)%Z) as (Hl & Hs & He).
    cbn [lines stats errors_log incr_skipped total valid skipped colombianos duplicados
         inferidos] in Hl, Hs, He.
    split; [exact Hl|]. split.
    + rewrite Hs. f_equal. lia.
    + rewrite He, length_app. cbn [length]. lia.
Qed.

End NoDocumentColumn.

(** X18.  When no column is detected for the document number, [convert] emits
    no line and counts every row as skipped, each with one error logged. *)
Theorem no_document_column_skips_all (self : SireConverter.Config) (now_year : Z)
    (df : DataFrame) (movement_type : string) :
  ColumnDetector.detect_columns df !! "numero_documento" = None ->
  SireConverter.convert self now_year df movement_type
  = ([], mkStats (length (rows df)) 0 (length (rows df)) 0 0 0)
  /\ length (SireConverter.errors_log
               (SireConverter.convert_state self now_year df movement_type))
     = length (rows df).
Proof.
  intros Hnone. unfold SireConverter.convert, SireConverter.convert_state.
  destruct (convert_loop_no_document self now_year (ColumnDetector.detect_columns df)
              movement_type Hnone (rows df) (SireConverter.initial df) 0%Z) as (Hl & Hs & He).
  rewrite Hl, Hs. cbn. auto.
Qed.

Lemma no_document_column_skips_all_witness :
  SireConverter.convert demo_converter 2026
    (mkFrame ["Nombre"; "Apellido"] [ {[ "Nombre" := CStr "ANA" ]}; {[ "Nombre" := CStr "LUZ" ]} ]) "E"
  = ([], mkStats 2 0 2 0 0 0).
Proof.
  apply (no_document_column_skips_all demo_converter 2026
           (mkFrame ["Nombre"; "Apellido"]
                    [ {[ "Nombre" := CStr "ANA" ]}; {[ "Nombre" := CStr "LUZ" ]} ]) "E").
  vm_compute. reflexivity.
Defined.
(** ** Splitting a full name *)

Lemma rev_cons_nonempty {A} (a : A) (l : list A) : rev (a :: l) <> [].
Proof. cbn [rev]. destruct (rev l); discriminate. Qed.

Lemma split_go_nonempty (l cur : list ascii) :
  Forall (fun w => w <> []) (Py.split_go cur l).
Proof.
  revert cur. induction l as [|c l IH]; intros cur; cbn [Py.split_go].
  - destruct cur as [|a cur]; [constructor|].
    constructor; [apply rev_cons_nonempty | constructor].
  - destruct (Py.isspace c).
    + destruct cur as [|a cur]; [apply IH|].
      constructor; [apply rev_cons_nonempty | apply IH].
    + apply IH.
Qed.

Lemma str_nonempty (w : list ascii) : w <> [] -> Py.str w <> "".
Proof. destruct w; [congruence | discriminate]. Qed.

Lemma split_words_nonempty (s : string) : Forall (fun w => w <> "") (Py.split s).
Proof.
  unfold Py.split. apply Forall_map.
  eapply Forall_impl; [apply split_go_nonempty|].
  intros w Hw. apply str_nonempty. exact Hw.
Qed.

Lemma append_nonempty_l (a b : string) : a <> "" -> a +:+ b <> "".
Proof. destruct a; [congruence | discriminate]. Qed.

Lemma join_cons (sep p q : string) (ps : list string) :
  Py.join sep (p :: q :: ps) = p +:+ sep +:+ Py.join sep (q :: ps).
Proof. reflexivity. Qed.

Lemma join_nonempty (sep : string) (ps : list string) :
  ps <> [] -> Forall (fun w => w <> "") ps -> Py.join sep ps <> "".
Proof.
  destruct ps as [|p ps]; [congruence|]. intros _ Hall.
  apply Forall_cons in Hall as [Hp _].
  destruct ps as [|q ps]; [exact Hp|].
  rewrite join_cons. apply append_nonempty_l. exact Hp.
Qed.

Lemma append_assoc (a b c : string) : (a +:+ b) +:+ c = a +:+ (b +:+ c).
Proof.
  induction a as [|x a IH]; [reflexivity|].
  change (String x ((a +:+ b) +:+ c) = String x (a +:+ b +:+ c)). f_equal. exact IH.
Qed.

Lemma join_snoc (sep : string) (ps : list string) (x : string) :
  ps <> [] -> Py.join sep (ps ++ [x]) = Py.join sep ps +:+ sep +:+ x.
Proof.
  induction ps as [|p ps IH]; [congruence|]. intros _.
  destruct ps as [|q ps]; [reflexivity|].
  change ((p :: q :: ps) ++ [x]) with (p :: q :: (ps ++ [x])).
  rewrite !join_cons.
  change (q :: ps ++ [x]) with ((q :: ps) ++ [x]).
  rewrite IH by discriminate. rewrite !append_assoc. reflexivity.
Qed.

Lemma pieces_nonempty (a b c : string) :
  a <> "" -> b <> "" -> c <> "" -> name_pieces (b, c, a) = [a; b; c].
Proof.
  intros Ha Hb Hc. unfold name_pieces. cbn [List.filter].
  apply String.eqb_neq in Ha, Hb, Hc. rewrite Ha, Hb, Hc. reflexivity.
Qed.

Lemma pieces_two (a b : string) :
  a <> "" -> b <> "" -> name_pieces (b, "", a) = [a; b].
Proof.
  intros Ha Hb. unfold name_pieces. cbn [List.filter].
  apply String.eqb_neq in Ha, Hb. rewrite Ha, Hb. reflexivity.
Qed.

Lemma pieces_one (a : string) : a <> "" -> name_pieces (a, "", "") = [a].
Proof.
  intros Ha. unfold name_pieces. cbn [List.filter].
  apply String.eqb_neq in Ha. rewrite Ha. reflexivity.
Qed.

(** A list of at least two elements is its front followed by its last two. *)
Lemma last_two {A} (l : list A) :
  (2 <= length l)%nat -> exists init x y, l = init ++ [x; y].
Proof.
  intros Hlen.
  destruct (rev l) as [|y [|x r]] eqn:Hr.
  - apply (f_equal (@length A)) in Hr. rewrite length_rev in Hr. cbn in Hr. lia.
  - apply (f_equal (@length A)) in Hr. rewrite length_rev in Hr. cbn in Hr. lia.
  - exists (rev r), x, y. rewrite <- (rev_involutive l), Hr. cbn [rev].
    rewrite <- app_assoc. reflexivity.
Qed.

Lemma from_end_1 (init : list string) (x : string) :
  TextNormalizer.from_end 1 (init ++ [x]) = x.
Proof.
  unfold TextNormalizer.from_end. rewrite length_app. cbn [length].
  replace (length init + 1 - 1)%nat with (length init + 0)%nat by lia.
  rewrite lookup_app_r by lia.
  replace (length init + 0 - length init)%nat with 0%nat by lia. reflexivity.
Qed.

Lemma from_end_2 (init : list string) (x y : string) :
  TextNormalizer.from_end 2 (init ++ [x; y]) = x.
Proof.
  unfold TextNormalizer.from_end. rewrite length_app. cbn [length].
  replace (length init + 2 - 2)%nat with (length init + 0)%nat by lia.
  rewrite lookup_app_r by lia.
  replace (length init + 0 - length init)%nat with 0%nat by lia. reflexivity.
Qed.

Lemma snoc_two {A} (init : list A) (x y : A) : init ++ [x; y] = (init ++ [x]) ++ [y].
Proof. rewrite <- app_assoc. reflexivity. Qed.

Lemma from_end_last (init : list string) (x y : string) :
  TextNormalizer.from_end 1 (init ++ [x; y]) = y.
Proof. rewrite snoc_two. apply from_end_1. Qed.

Lemma drop_last_app (init tail : list string) :
  TextNormalizer.drop_last (length tail) (init ++ tail) = init.
Proof.
  unfold TextNormalizer.drop_last. rewrite length_app.
  replace (length init + length tail - length tail)%nat with (length init) by lia.
  apply take_app_length.
Qed.

(** The pieces of a name of three words. *)
Lemma split_three (a b c : string) :
  a <> "" -> b <> "" -> c <> "" ->
  Py.join " " (name_pieces (TextNormalizer.from_end 1 [a; b; c], "",
                            Py.join " " (TextNormalizer.drop_last 1 [a; b; c])))
  = Py.join " " [a; b; c].
Proof.
  intros Ha Hb Hc.
  change (TextNormalizer.from_end 1 [a; b; c]) with c.
  change (TextNormalizer.drop_last 1 [a; b; c]) with [a; b].
  rewrite pieces_two; [| apply join_nonempty; [discriminate | repeat constructor; assumption] | exact Hc].
  change [a; b; c] with ([a; b] ++ [c]).
  rewrite join_snoc by discriminate. reflexivity.
Qed.

(** The pieces of a name of four words or more. *)
Lemma split_many (parts : list string) :
  (4 <= length parts)%nat -> Forall (fun w => w <> "") parts ->
  Py.join " " (name_pieces (TextNormalizer.from_end 2 parts, TextNormalizer.from_end 1 parts,
                            Py.join " " (TextNormalizer.drop_last 2 parts)))
  = Py.join " " parts.
Proof.
  intros Hlen Hall.
  destruct (last_two parts) as (init & x & y & ->); [lia|].
  rewrite length_app in Hlen. cbn [length] in Hlen.
  apply Forall_app in Hall as [Hinit Hxy].
  apply Forall_cons in Hxy as [Hx Hy]. apply Forall_cons in Hy as [Hy _].
  assert (Hne : init <> []) by (destruct init; [cbn in Hlen; lia | discriminate]).
  rewrite from_end_2, from_end_last.
  replace (TextNormalizer.drop_last 2 (init ++ [x; y])) with init
    by (symmetry; apply (drop_last_app init [x; y])).
  rewrite pieces_nonempty; [| apply join_nonempty; assumption | exact Hx | exact Hy].
  rewrite (snoc_two init x y).
  rewrite (join_snoc " " (init ++ [x]) y) by (destruct init; discriminate).
  rewrite (join_snoc " " init x) by exact Hne.
  rewrite !join_cons. cbn [Py.join]. rewrite !append_assoc. reflexivity.
Qed.

(** X19.  Splitting a full name loses no word and keeps the order: the
    non-empty pieces, read as given names, first surname, second surname
    and joined by single spaces, are the words of the normalised name
    joined by single spaces. *)
Theorem split_full_name_keeps_words (full_name : cell) :
  Py.join " " (name_pieces (TextNormalizer.split_full_name full_name))
  = Py.join " " (Py.split (TextNormalizer.normalize_name full_name)).
Proof.
  unfold TextNormalizer.split_full_name.
  destruct (absent full_name) eqn:Habs.
  - unfold TextNormalizer.normalize_name. rewrite Habs. reflexivity.
  - pose proof (split_words_nonempty (TextNormalizer.normalize_name full_name)) as Hall.
    destruct (Py.split (TextNormalizer.normalize_name full_name)) as [|a [|b [|c [|d l]]]] eqn:Hparts.
    + reflexivity.
    + apply Forall_cons in Hall as [Ha _]. rewrite pieces_one by exact Ha. reflexivity.
    + apply Forall_cons in Hall as [Ha Hall]. apply Forall_cons in Hall as [Hb _].
      rewrite pieces_two by assumption. reflexivity.
    + apply Forall_cons in Hall as [Ha Hall]. apply Forall_cons in Hall as [Hb Hall].
      apply Forall_cons in Hall as [Hc _]. apply split_three; assumption.
    + apply split_many; [cbn [length]; lia | exact Hall].
Qed.

(** ** Normalising a name *)

(** What [collapse_ws] leaves: the space, or a character of the input that
    is not whitespace. *)
Lemma collapse_go_chars (in_ws : bool) (l : list ascii) (c : ascii) :
  In c (Py.collapse_go in_ws l) -> c = " "%char \/ (In c l /\ Py.isspace c = false).
Proof.
  revert in_ws. induction l as [|a l IH]; intros in_ws; cbn [Py.collapse_go]; [intros []|].
  destruct (Py.isspace a) eqn:E.
  - destruct in_ws.
    + intros H. destruct (IH _ H) as [->|[Hin Hsp]]; [left; reflexivity | right; split; [right; exact Hin | exact Hsp]].
    + intros [<-|H]; [left; reflexivity|].
      destruct (IH _ H) as [->|[Hin Hsp]]; [left; reflexivity | right; split; [right; exact Hin | exact Hsp]].
  - intros [<-|H]; [right; split; [left; reflexivity | exact E]|].
    destruct (IH _ H) as [->|[Hin Hsp]]; [left; reflexivity | right; split; [right; exact Hin | exact Hsp]].
Qed.

(** [Py.upper] holds what Python returns: read back, its characters are the
    code points of [upper_points]. *)
Lemma upper_chars_points (c : ascii) :
  map Py.upper_point (Py.upper_chars c) = Py.upper_points c.
Proof. destruct c as [[] [] [] [] [] [] [] []]; vm_compute; reflexivity. Qed.

Lemma upper_points_exact (s : string) :
  Py.points_of_upper (Py.upper s) = flat_map Py.upper_points (Py.chars s).
Proof.
  unfold Py.points_of_upper, Py.upper. rewrite chars_str.
  induction (Py.chars s) as [|c l IH]; [reflexivity|].
  cbn [flat_map]. rewrite map_app, IH, upper_chars_points. reflexivity.
Qed.

Lemma upper_points_check (c : ascii) :
  Ascii.eqb c " " || (TextNormalizer.is_name_char c && negb (Py.isspace c)) = true ->
  forallb normal_name_point (Py.upper_points c) = true.
Proof.
  destruct c as [[] [] [] [] [] [] [] []]; vm_compute; intros H;
    first [reflexivity | discriminate H].
Qed.

Lemma upper_points_normal (c : ascii) :
  c = " "%char \/ (TextNormalizer.is_name_char c = true /\ Py.isspace c = false) ->
  forall p, In p (Py.upper_points c) -> normal_name_point p = true.
Proof.
  intros Hc p Hp.
  assert (Hall : forallb normal_name_point (Py.upper_points c) = true).
  { apply upper_points_check. destruct Hc as [->|[Hn Hs]]; [reflexivity|].
    rewrite Hn, Hs. apply orb_true_r. }
  rewrite forallb_forall in Hall. apply Hall. exact Hp.
Qed.

(** X20.  The code points of a normalised name are capital letters A-Z,
    U+00C0..U+00DE, the division sign, U+0178, single spaces, hyphens and
    apostrophes only: no digit, no lower-case letter and no whitespace other
    than the space is left. *)
Theorem normalize_name_alphabet (text : cell) :
  Forall (fun p => normal_name_point p = true)
         (Py.points_of_upper (TextNormalizer.normalize_name text)).
Proof.
  unfold TextNormalizer.normalize_name. destruct (absent text); [constructor|].
  rewrite upper_points_exact. apply List.Forall_forall. intros p Hp.
  apply in_flat_map in Hp. destruct Hp as (c & Hc & Hp).
  apply (upper_points_normal c); [|exact Hp].
  unfold Py.strip in Hc. rewrite chars_str in Hc. apply in_strip_chars in Hc.
  unfold Py.collapse_ws in Hc. rewrite chars_str in Hc.
  apply collapse_go_chars in Hc. destruct Hc as [->|[Hin Hsp]]; [left; reflexivity|].
  right. split; [|exact Hsp].
  unfold Py.keep in Hin. rewrite chars_str in Hin.
  apply list_elem_of_In, list_elem_of_filter in Hin. destruct Hin as [Hp' _].
  apply Is_true_true. exact Hp'.
Qed.
